(** * The loan pipeline of mortgage-microservices

    A shallow embedding of the three services that move a loan through the
    asynchronous pipeline:

    - the loan service ([POST /loans], the stage producer),
    - the document verification service (an SQS consumer),
    - the eligibility lambda (triggered by SQS, publishes to SNS).

    The MySQL tables, the two SQS queues, the SNS topic and the log output
    are fields of one [World]; every [async] function of the source is a
    computation in a state-and-exception monad over that world.  An
    exception does not undo the writes made before it was thrown, exactly
    as in the JavaScript.

    What the outside decides is passed in explicitly: the value returned by
    [Math.random()], and whether a call to SQS or SNS rejects.  The record
    store is taken to be reachable: [db.query] and [connection.execute]
    never reject in this model. *)

From Stdlib Require Import QArith.
From stdpp Require Import gmap strings list fin_maps.

Local Open Scope string_scope.
Local Open Scope Z_scope.
Local Open Scope list_scope.

(** ** Data *)

(** The values the [status] column takes in the pipeline. *)
Inductive Status :=
| PENDING_VERIFICATION
| VERIFIED
| VERIFICATION_FAILED
| APPROVED
| REJECTED.

#[global] Instance Status_eq_dec : EqDecision Status.
Proof. solve_decision. Defined.

(** A row of the [loans] table.  [loanAmount] is [None] for SQL NULL. *)
Record Loan := mkLoan {
  loan_id : Z;
  loan_userId : Z;
  loanAmount : option Q;
  propertyAddress : string;
  status : Status
}.

Definition set_status (s : Status) (l : Loan) : Loan :=
  mkLoan (loan_id l) (loan_userId l) (loanAmount l) (propertyAddress l) s.

(** A JavaScript [Error]; only its [message] is ever read. *)
Record Error := mkError { message : string }.

(** The parsed JSON body of a queue message.  A field that is absent from
    the object is [None] ([undefined] after destructuring). *)
Record Envelope := mkEnvelope {
  loanId : option Z;
  userId : option Z;
  action : option string;
  timestamp : option string
}.

(** A message as [sqs.receiveMessage] hands it over.  [Body] is [None] when
    the text is one on which [JSON.parse] (or the destructuring that
    follows) throws. *)
Record Message := mkMessage {
  ReceiptHandle : Z;
  Body : option Envelope
}.

(** What the eligibility lambda publishes to the topic. *)
Record Notification := mkNotification {
  n_loanId : option Z;
  n_userId : option Z;
  n_status : Status;
  n_reason : string;
  n_timestamp : string
}.

Inductive Level := Debug | Info | Warn | Err.

(** The log lines of the three services, one constructor per template
    string, carrying the interpolated values. *)
Inductive LogLine :=
(* loan service *)
| CreatingLoan (userId : Z) (amount : Q)
| UserNotFound (userId : Z)
| SqsMessageSent (body : Envelope)
| ErrorSendingSqs (e : Error)
| FailedToSendButCreated (e : Error)
| LoanCreated (loanId : Z)
| ErrorCreatingLoan (e : Error)
| ErrorLine (e : Error)
| ValidationError
(* document verification service *)
| VerifyingDocuments (loanId : option Z)
| VerificationResult (loanId : option Z) (passed : bool)
| ProcessingMessage (body : Envelope)
| StatusUpdated (loanId : option Z) (newStatus : Status)
| SentToEligibility (loanId : option Z)
| FailedToSendEligibility (loanId : option Z) (e : Error)
| VerificationFailedFor (loanId : option Z)
| UnknownAction (action : option string)
| ErrorProcessingMessage (e : Error)
| ReceivedMessages (n : nat)
| MessageDeleted
| ErrorDeletingMessage (e : Error)
| NoMessages
| ConsumerError (e : Error)
(* eligibility lambda *)
| LambdaTriggered (recordCount : nat)
| ConnectionEstablished
| ProcessingRecord (loanId : option Z) (action : option string)
| LoanNotFound (loanId : option Z)
| StatusUpdatedBecause (loanId : option Z) (newStatus : Status) (reason : string)
| PublishedApproval (loanId : option Z)
| FailedToPublish (loanId : option Z) (e : Error)
| ErrorProcessingRecord (e : Error)
| LambdaExecutionError (e : Error)
| ConnectionClosed.

(** ** The world *)

Record World := mkWorld {
  users : gset Z;                      (* ids of the [users] table *)
  loans : gmap Z Loan;                 (* the [loans] table by primary key *)
  nextLoanId : Z;                      (* AUTO_INCREMENT of [loans] *)
  docQueue : list Message;             (* doc-verification-queue *)
  nextHandle : Z;                      (* next receipt handle SQS gives out *)
  eligibilityQueue : list Envelope;    (* eligibility-queue *)
  topic : list Notification;           (* loan-approved-topic *)
  logs : list (Level * LogLine);       (* everything logged, oldest first *)
  now : string                         (* [new Date().toISOString()] *)
}.

Definition with_loans (f : gmap Z Loan → gmap Z Loan) (w : World) : World :=
  mkWorld (users w) (f (loans w)) (nextLoanId w) (docQueue w) (nextHandle w)
          (eligibilityQueue w) (topic w) (logs w) (now w).

Definition with_nextLoanId (n : Z) (w : World) : World :=
  mkWorld (users w) (loans w) n (docQueue w) (nextHandle w)
          (eligibilityQueue w) (topic w) (logs w) (now w).

Definition with_docQueue (f : list Message → list Message) (w : World) : World :=
  mkWorld (users w) (loans w) (nextLoanId w) (f (docQueue w)) (nextHandle w)
          (eligibilityQueue w) (topic w) (logs w) (now w).

Definition with_nextHandle (n : Z) (w : World) : World :=
  mkWorld (users w) (loans w) (nextLoanId w) (docQueue w) n
          (eligibilityQueue w) (topic w) (logs w) (now w).

Definition with_eligibilityQueue (f : list Envelope → list Envelope) (w : World) : World :=
  mkWorld (users w) (loans w) (nextLoanId w) (docQueue w) (nextHandle w)
          (f (eligibilityQueue w)) (topic w) (logs w) (now w).

Definition with_topic (f : list Notification → list Notification) (w : World) : World :=
  mkWorld (users w) (loans w) (nextLoanId w) (docQueue w) (nextHandle w)
          (eligibilityQueue w) (f (topic w)) (logs w) (now w).

Definition with_logs (f : list (Level * LogLine) → list (Level * LogLine)) (w : World) : World :=
  mkWorld (users w) (loans w) (nextLoanId w) (docQueue w) (nextHandle w)
          (eligibilityQueue w) (topic w) (f (logs w)) (now w).

(** ** The monad of [async] functions *)

Inductive Completion (A : Type) :=
| Return (a : A)
| Throw (e : Error).
Arguments Return {A} a.
Arguments Throw {A} e.

Definition M (A : Type) : Type := World → Completion A * World.

#[global] Instance M_ret : MRet M := λ A a w, (Return a, w).

#[global] Instance M_bind : MBind M := λ A B f m w,
  match m w with
  | (Return a, w') => f a w'
  | (Throw e, w') => (Throw e, w')
  end.

Definition throw {A} (e : Error) : M A := λ w, (Throw e, w).

(** [try { body } catch (e) { handler e }] *)
Definition try_catch {A} (body : M A) (handler : Error → M A) : M A := λ w,
  match body w with
  | (Return a, w') => (Return a, w')
  | (Throw e, w') => handler e w'
  end.

(** [try { body } finally { final }], for a [final] that does not throw. *)
Definition try_finally {A} (body : M A) (final : M unit) : M A := λ w,
  match body w with
  | (c, w') => (c, snd (final w'))
  end.

Definition get : M World := λ w, (Return w, w).
Definition modify (f : World → World) : M unit := λ w, (Return tt, f w).

(** An external call that rejects with [e] when the outside says so. *)
Definition rejects_with (fault : option Error) : M unit :=
  match fault with
  | Some e => throw e
  | None => mret tt
  end.

Definition log (lv : Level) (l : LogLine) : M unit :=
  modify (with_logs (λ ls, ls ++ [(lv, l)])).

(** The winston logger of the two express services is created with
    [level: 'info']: a [debug] line is not written. *)
Definition logger (lv : Level) (l : LogLine) : M unit :=
  match lv with
  | Debug => mret tt
  | _ => log lv l
  end.

(** [new Date().toISOString()] *)
Definition toISOString : M string := w ← get; mret (now w).

(** [JSON.parse] of a message body, followed by the destructuring. *)
Definition JSON_parse (text : option Envelope) : M Envelope :=
  match text with
  | Some body => mret body
  | None => throw (mkError "Unexpected token in JSON")
  end.

(** JavaScript truthiness of the values that are tested in conditions. *)
Definition truthy_id (x : option Z) : bool :=
  match x with
  | Some n => negb (n =? 0)
  | None => false
  end.

Definition truthy_string (x : option string) : bool :=
  match x with
  | Some s => negb (String.eqb s "")
  | None => false
  end.

Definition Qlt_bool (x y : Q) : bool := negb (Qle_bool y x).

Definition truthy_amount (x : option Q) : bool :=
  match x with
  | Some q => negb (Qeq_bool q 0)
  | None => false
  end.

(** [action === 'VERIFY_DOCUMENTS'] and the like. *)
Definition action_is (a : option string) (tag : string) : bool :=
  match a with
  | Some s => String.eqb s tag
  | None => false
  end.

(** ** The record store *)

(** [UPDATE loans SET status = ? WHERE id = ?]: the row with that key is
    rewritten, and a key with no row changes nothing.  The driver refuses
    an [undefined] bind parameter. *)
Definition update_status (newStatus : Status) (loanId : option Z) : M unit :=
  match loanId with
  | Some i => modify (with_loans (alter (set_status newStatus) i))
  | None => throw (mkError "Bind parameters must not contain undefined")
  end.

(** [SELECT ... FROM loans WHERE id = ?]: zero or one row. *)
Definition select_loan (loanId : option Z) : M (list Loan) :=
  match loanId with
  | Some i => w ← get; mret (option_list (loans w !! i))
  | None => throw (mkError "Bind parameters must not contain undefined")
  end.

(** ** doc-verification-service/src/index.js *)

Module DocVerification.

(** The double nearest to [0.9], as a fraction. *)
Definition passRate : Q := 8106479329266893 # 9007199254740992.

(** [verifyDocuments]; [random] is what [Math.random()] returns. *)
Definition verifyDocuments (random : Q) (loanId : option Z) : M bool :=
  logger Info (VerifyingDocuments loanId);;
  let isVerified := Qlt_bool random passRate in
  logger Info (VerificationResult loanId isVerified);;
  mret isVerified.

(** [sqs.sendMessage] on ELIGIBILITY_QUEUE_URL. *)
Definition sendMessage (fault : option Error) (MessageBody : Envelope) : M unit :=
  rejects_with fault;;
  modify (with_eligibilityQueue (λ q, q ++ [MessageBody])).

Record Result := mkResult { id : Z; success : bool }.

Definition processMessage (random : Q) (sendFault : option Error)
    (message : Message) : M Result :=
  try_catch
    (body ← JSON_parse (Body message);
     logger Info (ProcessingMessage body);;
     let loanId := loanId body in
     let userId := userId body in
     let action := action body in
     if action_is action "VERIFY_DOCUMENTS" then
       isVerified ← verifyDocuments random loanId;
       let newStatus := if isVerified : bool then VERIFIED else VERIFICATION_FAILED in
       update_status newStatus loanId;;
       logger Info (StatusUpdated loanId newStatus);;
       (if isVerified then
          try_catch
            (ts ← toISOString;
             sendMessage sendFault
               (mkEnvelope loanId userId (Some "CHECK_ELIGIBILITY") (Some ts));;
             logger Info (SentToEligibility loanId))
            (λ sqsError,
               logger Err (FailedToSendEligibility loanId sqsError);;
               throw sqsError)
        else
          logger Warn (VerificationFailedFor loanId));;
       mret (mkResult (ReceiptHandle message) true)
     else
       logger Warn (UnknownAction action);;
       mret (mkResult (ReceiptHandle message) false))
    (λ error,
       logger Err (ErrorProcessingMessage error);;
       mret (mkResult (ReceiptHandle message) false)).

(** [sqs.receiveMessage] on DOC_VERIFICATION_QUEUE_URL: the first
    [MaxNumberOfMessages] messages of the queue, or all of them when there
    are fewer.  A received message stays in the queue until it is deleted,
    so a message that is not deleted is received again. *)
Definition receiveMessage (fault : option Error) (MaxNumberOfMessages : nat)
    : M (list Message) :=
  rejects_with fault;;
  w ← get;
  mret (take MaxNumberOfMessages (docQueue w)).

(** [sqs.deleteMessage] on DOC_VERIFICATION_QUEUE_URL. *)
Definition deleteMessage (fault : option Error) (handle : Z) : M unit :=
  rejects_with fault;;
  modify (with_docQueue (filter (λ m, ReceiptHandle m ≠ handle))).

(** What the outside decides while one received message is handled. *)
Record Outside := mkOutside {
  random : Q;
  sendFault : option Error;
  deleteFault : option Error
}.

(** The body of [for (const message of data.Messages)]. *)
Definition handleMessage (o : Outside) (message : Message) : M unit :=
  result ← processMessage (random o) (sendFault o) message;
  if success result then
    try_catch
      (deleteMessage (deleteFault o) (id result);;
       logger Info MessageDeleted)
      (λ deleteError, logger Err (ErrorDeletingMessage deleteError))
  else mret tt.

Fixpoint forEachMessage (outside : nat → Outside) (i : nat)
    (Messages : list Message) : M unit :=
  match Messages with
  | [] => mret tt
  | message :: rest =>
      handleMessage (outside i) message;;
      forEachMessage outside (S i) rest
  end.

(** One round of [pollMessages]; the result is the delay, in milliseconds,
    after which [setTimeout] starts the next round. *)
Definition pollMessages (receiveFault : option Error) (outside : nat → Outside)
    : M Z :=
  try_catch
    (Messages ← receiveMessage receiveFault 10;
     (if Nat.ltb 0 (length Messages) then
        logger Info (ReceivedMessages (length Messages));;
        forEachMessage outside 0 Messages
      else
        logger Debug NoMessages);;
     mret 1000)
    (λ error,
       logger Err (ConsumerError error);;
       mret 5000).

End DocVerification.

(** ** eligibility-lambda/index.js *)

Module EligibilityLambda.

(** The double nearest to [0.7], as a fraction. *)
Definition approvalRate : Q := 3152519739159347 # 4503599627370496.

Definition ceiling : Q := 1000000 # 1.

(** A NULL amount compares as the number 0. *)
Definition toNumber (x : option Q) : Q := default (0 # 1) x.

Record EligibilityResult := mkEligibilityResult {
  eligible : bool;
  reason : string
}.

(** [calculateEligibility({ loanAmount })]; [random] is what
    [Math.random()] returns. *)
Definition calculateEligibility (random : Q) (loanAmount : option Q)
    : M EligibilityResult :=
  if negb (truthy_amount loanAmount) || Qle_bool (toNumber loanAmount) 0 then
    throw (mkError "Invalid loan amount")
  else
    let isEligible :=
      Qlt_bool random approvalRate && Qlt_bool (toNumber loanAmount) ceiling in
    let reason :=
      if isEligible then "Approved based on eligibility rules"
      else if Qle_bool ceiling (toNumber loanAmount)
           then "Loan amount exceeds maximum threshold"
           else "Does not meet eligibility criteria" in
    mret (mkEligibilityResult isEligible reason).

Definition getDbConnection : M unit :=
  log Info ConnectionEstablished.

(** [sns.publish(snsParams).promise()] *)
Definition publish (fault : option Error) (Message : Notification) : M unit :=
  rejects_with fault;;
  modify (with_topic (λ t, t ++ [Message])).

(** An element of [event.Records]. *)
Record SqsRecord := mkSqsRecord {
  messageId : string;
  body : option Envelope
}.

Record Event := mkEvent { Records : list SqsRecord }.

Inductive ProcessedRecord :=
| processedRecord (recordId : string) (loanId : option Z) (status : Status).

Inductive FailedRecord :=
| failedRecord (recordId : string) (reason : string).

Inductive ResponseBody :=
| Completed (message : string) (processed failed : nat)
            (details_processed : list ProcessedRecord)
            (details_failed : list FailedRecord)
| ExecutionError (message : string) (error : string).

Record Response := mkResponse {
  statusCode : Z;
  responseBody : ResponseBody
}.

(** What the outside decides while one record is handled. *)
Record Outside := mkOutside {
  random : Q;
  publishFault : option Error
}.

(** The body of [for (const record of event.Records)], on the two arrays
    [processedRecords] and [failedRecords].  [LOAN_APPROVED_TOPIC_ARN] is
    the environment variable, [None] when it is not set. *)
Definition handleRecord (LOAN_APPROVED_TOPIC_ARN : option string) (o : Outside)
    (record : SqsRecord)
    (arrays : list ProcessedRecord * list FailedRecord)
    : M (list ProcessedRecord * list FailedRecord) :=
  let processedRecords := fst arrays in
  let failedRecords := snd arrays in
  try_catch
    (body ← JSON_parse (body record);
     log Info (ProcessingRecord (loanId body) (action body));;
     let loanId := loanId body in
     let userId := userId body in
     let action := action body in
     if negb (truthy_id loanId) || negb (truthy_string action) then
       throw (mkError "Missing required fields: loanId, action")
     else if action_is action "CHECK_ELIGIBILITY" then
       loans ← select_loan loanId;
       match loans : list Loan with
       | [] =>
           log Warn (LoanNotFound loanId);;
           mret (processedRecords,
                 failedRecords ++ [failedRecord (messageId record) "Loan not found"])
       | loan :: _ =>
           eligibilityResult ← calculateEligibility (random o) (loanAmount loan);
           let newStatus :=
             if eligible eligibilityResult then APPROVED else REJECTED in
           update_status newStatus loanId;;
           log Info (StatusUpdatedBecause loanId newStatus (reason eligibilityResult));;
           (if eligible eligibilityResult && truthy_string LOAN_APPROVED_TOPIC_ARN then
              try_catch
                (ts ← toISOString;
                 publish (publishFault o)
                   (mkNotification loanId userId APPROVED
                      (reason eligibilityResult) ts);;
                 log Info (PublishedApproval loanId))
                (λ snsError, log Err (FailedToPublish loanId snsError))
            else mret tt);;
           mret (processedRecords ++ [processedRecord (messageId record) loanId newStatus],
                 failedRecords)
       end
     else
       log Warn (UnknownAction action);;
       mret (processedRecords,
             failedRecords ++
               [failedRecord (messageId record)
                  ("Unknown action: " +:+ default "" action)]))
    (λ error,
       log Err (ErrorProcessingRecord error);;
       mret (processedRecords,
             failedRecords ++ [failedRecord (messageId record) (message error)])).

Fixpoint forEachRecord (LOAN_APPROVED_TOPIC_ARN : option string)
    (outside : nat → Outside) (i : nat) (records : list SqsRecord)
    (arrays : list ProcessedRecord * list FailedRecord)
    : M (list ProcessedRecord * list FailedRecord) :=
  match records with
  | [] => mret arrays
  | record :: rest =>
      arrays' ← handleRecord LOAN_APPROVED_TOPIC_ARN (outside i) record arrays;
      forEachRecord LOAN_APPROVED_TOPIC_ARN outside (S i) rest arrays'
  end.

(** [exports.handler] *)
Definition handler (LOAN_APPROVED_TOPIC_ARN : option string)
    (outside : nat → Outside) (event : Event) : M Response :=
  log Info (LambdaTriggered (length (Records event)));;
  try_finally
    (try_catch
       (getDbConnection;;
        arrays ← forEachRecord LOAN_APPROVED_TOPIC_ARN outside 0 (Records event) ([], []);
        let processedRecords := fst arrays in
        let failedRecords := snd arrays in
        mret (mkResponse 200
                (Completed "Eligibility check completed"
                   (length processedRecords) (length failedRecords)
                   processedRecords failedRecords)))
       (λ error,
          log Err (LambdaExecutionError error);;
          mret (mkResponse 500
                  (ExecutionError "Lambda execution error" (message error)))))
    (log Info ConnectionClosed).

End EligibilityLambda.

(** ** The loan service: [POST /loans] *)

Module LoanService.

(** [req.body] after [bodyParser.json()]: each key present or not. *)
Record RequestBody := mkRequestBody {
  userId : option Z;
  loanAmount : option Q;
  propertyAddress : option string
}.

(** [req.validatedBody] *)
Record ValidatedBody := mkValidatedBody {
  v_userId : Z;
  v_loanAmount : Q;
  v_propertyAddress : string
}.

(** The first entry of [error.details]. *)
Inductive JoiError :=
| is_required (key : string)
| must_be_positive (key : string)
| not_allowed_to_be_empty (key : string).

(** [createLoanSchema.validate(req.body)]: the keys are checked in the
    order of the schema and the first failure is reported. *)
Definition createLoanSchema (b : RequestBody) : JoiError + ValidatedBody :=
  match userId b with
  | None => inl (is_required "userId")
  | Some u =>
      match loanAmount b with
      | None => inl (is_required "loanAmount")
      | Some a =>
          if Qle_bool a 0 then inl (must_be_positive "loanAmount")
          else
            match propertyAddress b with
            | None => inl (is_required "propertyAddress")
            | Some p =>
                if String.eqb p "" then inl (not_allowed_to_be_empty "propertyAddress")
                else inr (mkValidatedBody u a p)
            end
      end
  end.

Inductive Json :=
| created (message : string) (loanId : Z) (status : Status)
| error_message (error : string)
| error_detail (error : JoiError).

Record Response := mkResponse {
  statusCode : Z;
  json : Json
}.

(** [sqs.sendMessage] on DOC_VERIFICATION_QUEUE_URL. *)
Definition sendMessage (fault : option Error) (MessageBody : Envelope) : M unit :=
  rejects_with fault;;
  w ← get;
  modify (with_docQueue (λ q, q ++ [mkMessage (nextHandle w) (Some MessageBody)]));;
  modify (with_nextHandle (nextHandle w + 1)).

Definition sendSQSMessage (fault : option Error) (messageBody : Envelope) : M unit :=
  try_catch
    (sendMessage fault messageBody;;
     logger Info (SqsMessageSent messageBody))
    (λ error,
       logger Err (ErrorSendingSqs error);;
       throw error).

(** [SELECT id FROM users WHERE id = ?] *)
Definition select_user (userId : Z) : M (list Z) :=
  w ← get; mret (if bool_decide (userId ∈ users w) then [userId] else []).

(** [INSERT INTO loans (...) VALUES (?, ?, ?, ?, NOW())]; the result is
    [insertId]. *)
Definition insert_loan (userId : Z) (loanAmount : Q) (propertyAddress : string)
    (status : Status) : M Z :=
  w ← get;
  let insertId := nextLoanId w in
  modify (with_loans
            <[insertId := mkLoan insertId userId (Some loanAmount) propertyAddress status]>);;
  modify (with_nextLoanId (insertId + 1));;
  mret insertId.

(** The [errorHandler] middleware, reached through [next(error)]. *)
Definition errorHandler (err : Error) : M Response :=
  logger Err (ErrorLine err);;
  mret (mkResponse 500
          (error_message (if String.eqb (message err) ""
                          then "Internal server error" else message err))).

(** The route handler of [app.post('/loans', ...)]. *)
Definition createLoan (sendFault : option Error) (validatedBody : ValidatedBody)
    : M Response :=
  try_catch
    (let userId := v_userId validatedBody in
     let loanAmount := v_loanAmount validatedBody in
     let propertyAddress := v_propertyAddress validatedBody in
     logger Info (CreatingLoan userId loanAmount);;
     users ← select_user userId;
     if Nat.eqb (length users) 0 then
       logger Warn (UserNotFound userId);;
       mret (mkResponse 404 (error_message "User not found"))
     else
       loanId ← insert_loan userId loanAmount propertyAddress PENDING_VERIFICATION;
       try_catch
         (ts ← toISOString;
          sendSQSMessage sendFault
            (mkEnvelope (Some loanId) (Some userId) (Some "VERIFY_DOCUMENTS") (Some ts)))
         (λ sqsError, logger Err (FailedToSendButCreated sqsError));;
       logger Info (LoanCreated loanId);;
       mret (mkResponse 201
               (created "Loan created successfully" loanId PENDING_VERIFICATION)))
    (λ error,
       logger Err (ErrorCreatingLoan error);;
       errorHandler error).

(** [validateRequest(createLoanSchema)] followed by the route handler. *)
Definition postLoans (sendFault : option Error) (body : RequestBody) : M Response :=
  match createLoanSchema body with
  | inl error =>
      logger Warn ValidationError;;
      mret (mkResponse 400 (error_detail error))
  | inr value => createLoan sendFault value
  end.

End LoanService.

(** * Properties of the pipeline *)

Module DV := DocVerification.
Module EL := EligibilityLambda.
Module LS := LoanService.

(** ** Inputs used in the examples *)

Definition boom : Error := mkError "service unavailable".

Definition verifyEnvelope (i : Z) : Envelope :=
  mkEnvelope (Some i) (Some 7) (Some "VERIFY_DOCUMENTS") (Some "2024-01-01T00:00:00.000Z").

Definition checkEnvelope (i : Z) : Envelope :=
  mkEnvelope (Some i) (Some 7) (Some "CHECK_ELIGIBILITY") (Some "2024-01-01T00:00:00.000Z").

Definition verifyMessage (i : Z) : Message := mkMessage 5 (Some (verifyEnvelope i)).

Definition checkRecord (i : Z) : EL.SqsRecord := EL.mkSqsRecord "msg-1" (Some (checkEnvelope i)).

Definition loanOf (amount : option Q) (s : Status) : Loan :=
  mkLoan 1 7 amount "12 Elm St" s.

(** A world holding loan 1 of user 7, and [queue] waiting for the
    verification worker. *)
Definition worldWith (l : Loan) (queue : list Message) : World :=
  mkWorld {[ 7 ]} {[ 1 := l ]} 2 queue 6 [] [] [] "2024-01-01T00:00:01.000Z".

(** The same world without any loan. *)
Definition worldWithout (queue : list Message) : World :=
  mkWorld {[ 7 ]} ∅ 1 queue 6 [] [] [] "2024-01-01T00:00:01.000Z".

(** The draw is [r] for every message; nothing rejects. *)
Definition calm (r : Q) : nat → DV.Outside := λ _, DV.mkOutside r None None.

(** The draw is [r]; [sqs.deleteMessage] rejects. *)
Definition deleteFails (r : Q) : nat → DV.Outside := λ _, DV.mkOutside r None (Some boom).

(** The draw is [r]; [sqs.sendMessage] rejects. *)
Definition sendFails (r : Q) : nat → DV.Outside := λ _, DV.mkOutside r (Some boom) None.

(** The draw is [r] for every record; [fault] is what [sns.publish] does. *)
Definition drawing (r : Q) (fault : option Error) : nat → EL.Outside :=
  λ _, EL.mkOutside r fault.

(** A request body that passes [createLoanSchema], for user [u]. *)
Definition loanRequest (u : Z) : LS.RequestBody :=
  LS.mkRequestBody (Some u) (Some (100000 # 1)) (Some "123 Main St").

(** ** What [processMessage] reports, read off the message and the outside *)

Definition succeeds (random : Q) (sendFault : option Error) (m : Message) : bool :=
  match Body m with
  | Some body =>
      action_is (action body) "VERIFY_DOCUMENTS" &&
      bool_decide (is_Some (loanId body)) &&
      (negb (Qlt_bool random DV.passRate) || bool_decide (sendFault = None))
  | None => false
  end.

(** The two log lines of a notification attempt. *)
Definition notification_line (entry : Level * LogLine) : bool :=
  match snd entry with
  | PublishedApproval _ | FailedToPublish _ _ => true
  | _ => false
  end.

(** * More of the services *)

(** ** The consumer loop of the document verification service *)

(** The chain of [pollMessages] calls that [setTimeout] keeps going, cut
    after [fuel] rounds.  [schedule n] is what the outside does in round
    [n]: whether [sqs.receiveMessage] rejects, and the draws and faults for
    the messages of that round.  The result is the sum of the delays that
    were passed to [setTimeout]. *)
Fixpoint pollRounds (fuel round : nat)
    (schedule : nat → option Error * (nat → DV.Outside)) : M Z :=
  match fuel with
  | O => mret 0
  | S fuel' =>
      delay ← DV.pollMessages (fst (schedule round)) (snd (schedule round));
      rest ← pollRounds fuel' (S round) schedule;
      mret (delay + rest)
  end.

(** ** The other routes of the loan service *)

Module LoanRoutes.

(** The log lines of these routes. *)
Inductive RouteLine :=
| FetchingLoan (id : string)
| ErrorFetchingLoan (e : Error)
| UpdatingLoan (id : string)
| LoanUpdated (id : string)
| ErrorUpdatingLoan (e : Error)
| DeletingLoan (id : string)
| LoanDeleted (id : string)
| ErrorDeletingLoan (e : Error)
| ValidationFailed
| ErrorReported (e : Error).

(** The world together with what these routes log. *)
Record Service := mkService {
  db : World;
  output : list (Level * RouteLine)
}.

Definition R (A : Type) : Type := Service → Completion A * Service.

#[global] Instance R_ret : MRet R := λ A a s, (Return a, s).

#[global] Instance R_bind : MBind R := λ A B f m s,
  match m s with
  | (Return a, s') => f a s'
  | (Throw e, s') => (Throw e, s')
  end.

(** [try { body } catch (e) { handler e }] *)
Definition catch {A} (body : R A) (handler : Error → R A) : R A := λ s,
  match body s with
  | (Return a, s') => (Return a, s')
  | (Throw e, s') => handler e s'
  end.

(** The winston logger, created with [level: 'info']. *)
Definition logger (lv : Level) (l : RouteLine) : R unit := λ s,
  match lv with
  | Debug => (Return tt, s)
  | _ => (Return tt, mkService (db s) (output s ++ [(lv, l)]))
  end.

(** Reading and writing the [loans] table through [db.query]. *)
Definition read_loans : R (gmap Z Loan) := λ s, (Return (loans (db s)), s).

Definition write_loans (f : gmap Z Loan → gmap Z Loan) : R unit := λ s,
  (Return tt, mkService (with_loans f (db s)) (output s)).

(** The JSON bodies of the answers.  A row is returned with the columns
    that [Loan] has; [createdAt] is not among them. *)
Inductive Json :=
| row (loan : Loan)
| message_only (message : string)
| error_only (error : string)
| error_detail (error : LS.JoiError).

Record Response := mkResponse {
  statusCode : Z;
  json : Json
}.

(** The body of a PUT request after [bodyParser.json()]: each of the two
    keys of the schema present or not.  A body with any other key is
    refused by the schema and is not represented. *)
Record UpdateBody := mkUpdateBody {
  loanAmount : option Q;
  propertyAddress : option string
}.

(** [updateLoanSchema.validate(req.body)]: both keys are optional; a key
    that is present is checked, in the order of the schema. *)
Definition updateLoanSchema (b : UpdateBody) : LS.JoiError + UpdateBody :=
  match loanAmount b with
  | Some a =>
      if Qle_bool a 0 then inl (LS.must_be_positive "loanAmount")
      else
        match propertyAddress b with
        | Some p =>
            if String.eqb p "" then inl (LS.not_allowed_to_be_empty "propertyAddress")
            else inr b
        | None => inr b
        end
  | None =>
      match propertyAddress b with
      | Some p =>
          if String.eqb p "" then inl (LS.not_allowed_to_be_empty "propertyAddress")
          else inr b
      | None => inr b
      end
  end.

(** [UPDATE loans SET loanAmount = ?, propertyAddress = ? WHERE id = ?],
    with only the columns whose value is given. *)
Definition set_columns (b : UpdateBody) (l : Loan) : Loan :=
  match l with
  | mkLoan id userId amount address status =>
      mkLoan id userId
        (match loanAmount b with Some a => Some a | None => amount end)
        (match propertyAddress b with Some p => p | None => address end)
        status
  end.

(** The [errorHandler] middleware, reached through [next(error)]. *)
Definition errorHandler (err : Error) : R Response :=
  logger Err (ErrorReported err);;
  mret (mkResponse 500
          (error_only (if String.eqb (message err) ""
                       then "Internal server error" else message err))).

Section Routes.

(** [req.params.id] is a piece of text.  What JavaScript's [isNaN] makes of
    it, and which primary key MySQL's [WHERE id = ?] compares equal to it,
    are taken as given. *)
Variable isNaN : string → bool.
Variable rowOf : string → option Z.

(** [!id || isNaN(id)] *)
Definition invalid_id (id : string) : bool := String.eqb id "" || isNaN id.

(** [SELECT ... FROM loans WHERE id = ?] *)
Definition select_by_id (id : string) : R (list Loan) :=
  table ← read_loans;
  mret (option_list (rowOf id ≫= λ k, table !! k)).

(** [app.get('/loans/:id', ...)] *)
Definition getLoan (id : string) : R Response :=
  catch
    (if invalid_id id then
       mret (mkResponse 400 (error_only "Invalid loan ID"))
     else
       logger Info (FetchingLoan id);;
       found ← select_by_id id;
       match found : list Loan with
       | [] => mret (mkResponse 404 (error_only "Loan not found"))
       | loan :: _ => mret (mkResponse 200 (row loan))
       end)
    (λ error,
       logger Err (ErrorFetchingLoan error);;
       errorHandler error).

(** The route handler of [app.put('/loans/:id', ...)]. *)
Definition updateLoan (id : string) (validatedBody : UpdateBody) : R Response :=
  catch
    (if invalid_id id then
       mret (mkResponse 400 (error_only "Invalid loan ID"))
     else
       let updateFields :=
         match loanAmount validatedBody with
         | Some _ => ["loanAmount = ?"]
         | None => []
         end ++
         match propertyAddress validatedBody with
         | Some _ => ["propertyAddress = ?"]
         | None => []
         end in
       if Nat.eqb (length updateFields) 0 then
         mret (mkResponse 400 (error_only "No fields to update"))
       else
         logger Info (UpdatingLoan id);;
         match rowOf id with
         | Some k => write_loans (alter (set_columns validatedBody) k)
         | None => mret tt
         end;;
         logger Info (LoanUpdated id);;
         mret (mkResponse 200 (message_only "Loan updated successfully")))
    (λ error,
       logger Err (ErrorUpdatingLoan error);;
       errorHandler error).

(** [validateRequest(updateLoanSchema)] followed by the route handler. *)
Definition putLoan (id : string) (body : UpdateBody) : R Response :=
  match updateLoanSchema body with
  | inl error =>
      logger Warn ValidationFailed;;
      mret (mkResponse 400 (error_detail error))
  | inr value => updateLoan id value
  end.

(** [app.delete('/loans/:id', ...)] *)
Definition deleteLoan (id : string) : R Response :=
  catch
    (if invalid_id id then
       mret (mkResponse 400 (error_only "Invalid loan ID"))
     else
       logger Info (DeletingLoan id);;
       found ← select_by_id id;
       if Nat.eqb (length found) 0 then
         mret (mkResponse 404 (error_only "Loan not found"))
       else
         match rowOf id with
         | Some k => write_loans (delete k)
         | None => mret tt
         end;;
         logger Info (LoanDeleted id);;
         mret (mkResponse 200 (message_only "Loan deleted successfully")))
    (λ error,
       logger Err (ErrorDeletingLoan error);;
       errorHandler error).

End Routes.

(** ** [authenticateToken] *)

(** [s.split(sep)] for a separator of one character. *)
Fixpoint split (sep : Ascii.ascii) (s : string) : list string :=
  match s with
  | EmptyString => [EmptyString]
  | String c rest =>
      if Ascii.eqb c sep then EmptyString :: split sep rest
      else
        match split sep rest with
        | piece :: pieces => String c piece :: pieces
        | [] => [String c EmptyString]
        end
  end.

(** [authHeader && authHeader.split(' ')[1]] *)
Definition token_of (authHeader : option string) : option string :=
  match authHeader with
  | None => None
  | Some h => if String.eqb h "" then Some "" else split Ascii.Space h !! 1%nat
  end.

(** The middleware.  [verify token] is what [jwt.verify(token, JWT_SECRET,
    ...)] hands to its callback: the payload, or nothing when it reports
    an error.  The result is the response that ends the request, or the
    user with which [next()] is reached. *)
Definition authenticateToken {User : Type} (verify : string → option User)
    (authorization : option string) : Response + User :=
  let token := token_of authorization in
  if negb (truthy_string token) then
    inl (mkResponse 401 (error_only "No token provided"))
  else
    match verify (default "" token) with
    | None => inl (mkResponse 403 (error_only "Invalid token"))
    | Some user => inr user
    end.

End LoanRoutes.

Module LR := LoanRoutes.

(** ** Relations used in the statements *)

(** Between two states of the [loans] table: the same keys, every row the
    same in all columns but [status], and a status that did change is one
    of [written]. *)
Definition only_status_written (written : list Status)
    (before after : gmap Z Loan) : Prop :=
  ∀ i, option_Forall2
         (λ l l', l' = set_status (status l') l
                  ∧ (status l' = status l ∨ status l' ∈ written))
         (before !! i) (after !! i).

(** Every key of the [loans] table is below the next AUTO_INCREMENT
    value. *)
Definition ids_below_next (w : World) : Prop :=
  ∀ i l, loans w !! i = Some l → i < nextLoanId w.

(** No character of [s] is [c]. *)
Fixpoint free_of (c : Ascii.ascii) (s : string) : bool :=
  match s with
  | EmptyString => true
  | String c' rest => negb (Ascii.eqb c' c) && free_of c rest
  end.

(** Between two worlds: the [users] table, the AUTO_INCREMENT counter, the
    receipt handle counter and the clock are the same, and the [loans]
    table differs at most in statuses, set to one of [written]. *)
Definition same_tables (written : list Status) (w w' : World) : Prop :=
  users w' = users w
  ∧ nextLoanId w' = nextLoanId w
  ∧ nextHandle w' = nextHandle w
  ∧ now w' = now w
  ∧ only_status_written written (loans w) (loans w').

(** An envelope on the eligibility queue that was made from the message
    [m]: it asks for CHECK_ELIGIBILITY and names the loan and the user of
    [m]. *)
Definition forwarded_from (m : Message) (e : Envelope) : Prop :=
  action e = Some "CHECK_ELIGIBILITY"
  ∧ ∃ body, Body m = Some body
            ∧ action body = Some "VERIFY_DOCUMENTS"
            ∧ loanId e = loanId body
            ∧ userId e = userId body.

(** ** More inputs for the examples *)

(** Every round receives without a fault and meets the outside [o]. *)
Definition steady (o : nat → DV.Outside) : nat → option Error * (nat → DV.Outside) :=
  λ _, (None, o).

(** The send rejects in round 0 and nothing rejects afterwards; the draw
    is [r] throughout. *)
Definition failingOnce (r : Q) : nat → option Error * (nat → DV.Outside) :=
  λ n, match n with
       | O => (None, sendFails r)
       | S _ => (None, calm r)
       end.

(** The [recordId] of an entry of [processedRecords] or [failedRecords]. *)
Definition processed_recordId (p : EL.ProcessedRecord) : string :=
  match p with EL.processedRecord recordId _ _ => recordId end.

Definition failed_recordId (f : EL.FailedRecord) : string :=
  match f with EL.failedRecord recordId _ => recordId end.

(** A notification that was made for the record [r]: its status is
    APPROVED and it names the loan and the user of [r]. *)
Definition notifies_about (r : EL.SqsRecord) (n : Notification) : Prop :=
  n_status n = APPROVED
  ∧ ∃ body, EL.body r = Some body
            ∧ n_loanId n = loanId body
            ∧ n_userId n = userId body.

(** How the texts "1" and "2" are read as loan ids, for the examples: any
    other text is not a number. *)
Definition sampleIsNaN (id : string) : bool :=
  negb (String.eqb id "1" || String.eqb id "2").

Definition sampleRowOf (id : string) : option Z :=
  if String.eqb id "1" then Some 1
  else if String.eqb id "2" then Some 2
  else None.

(** A [jwt.verify] that accepts the token "good" for user 7 only. *)
Definition sampleVerify (token : string) : option Z :=
  if String.eqb token "good" then Some 7 else None.

(** A service that has logged nothing yet. *)
Definition serving (w : World) : LR.Service := LR.mkService w [].

(** Between two states of the [loans] table: the same keys, and in every
    row the same [id], [userId] and [status]. *)
Definition only_details_written (before after : gmap Z Loan) : Prop :=
  ∀ i, option_Forall2
         (λ l l', loan_id l' = loan_id l
                  ∧ loan_userId l' = loan_userId l
                  ∧ status l' = status l)
         (before !! i) (after !! i).

(** ** The eligibility lambda inside a batch *)

(** The world in which the handler starts on its records: the trigger and
    the database connection have been logged. *)
Definition entered (event : EL.Event) (w : World) : World :=
  with_logs (λ ls, ls ++ [(Info, ConnectionEstablished)])
    (with_logs (λ ls, ls ++ [(Info, LambdaTriggered (length (EL.Records event)))]) w).

(** The [loanId] and the [status] of an entry of [processedRecords]. *)
Definition processed_loanId (p : EL.ProcessedRecord) : option Z :=
  match p with EL.processedRecord _ loanId _ => loanId end.

Definition processed_status (p : EL.ProcessedRecord) : Status :=
  match p with EL.processedRecord _ _ status => status end.

(** The record names the loan [i]. *)
Definition names_loan (i : Z) (r : EL.SqsRecord) : Prop :=
  ∃ body, EL.body r = Some body ∧ loanId body = Some i.

(** A row the eligibility lambda cannot change any more: its amount is
    missing or not positive, or its amount is at or above the ceiling and
    its status is REJECTED already. *)
Definition settled (l : Loan) : Prop :=
  match loanAmount l with
  | None => True
  | Some a => (a <= 0)%Q ∨ ((EL.ceiling <= a)%Q ∧ status l = REJECTED)
  end.

(** ** Running the monad *)

Ltac run_monad :=
  unfold mbind, M_bind, mret, M_ret, try_catch, try_finally, throw, log, logger,
    modify, get, rejects_with, toISOString, JSON_parse, update_status, select_loan;
  simpl.

Ltac run_processMessage :=
  unfold DV.processMessage, DV.verifyDocuments, DV.sendMessage; run_monad.

Ltac run_handleRecord :=
  unfold EL.handleRecord, EL.calculateEligibility, EL.publish; run_monad.

(** Case analysis on an innermost [match] or [if] of the goal. *)
Ltac inner_case :=
  match goal with
  | |- context [match ?x with _ => _ end] =>
      lazymatch x with
      | context [match _ with _ => _ end] => fail
      | _ => destruct x eqn:?; simpl
      end
  end.

Lemma Qlt_bool_iff (x y : Q) : Qlt_bool x y = true ↔ (x < y)%Q.
Proof.
  unfold Qlt_bool. rewrite negb_true_iff. split.
  - intros H. apply Qnot_le_lt. intros Hle.
    apply Qle_bool_iff in Hle. congruence.
  - intros H. destruct (Qle_bool y x) eqn:E; [|reflexivity].
    apply Qle_bool_iff in E. exfalso. exact (Qlt_not_le _ _ H E).
Qed.

Lemma Qlt_bool_false (x y : Q) : (y <= x)%Q → Qlt_bool x y = false.
Proof.
  intros H. unfold Qlt_bool. apply Qle_bool_iff in H. rewrite H. reflexivity.
Qed.

(** ** The document verification worker *)

(** [processMessage] never throws: every path ends in a result that
    carries the receipt handle. *)
Lemma processMessage_returns random fault m w :
  fst (DV.processMessage random fault m w) =
    Return (DV.mkResult (ReceiptHandle m) (succeeds random fault m)).
Proof.
  unfold succeeds. run_processMessage.
  destruct (Body m) as [body|]; simpl; [|reflexivity].
  destruct (action_is (action body) "VERIFY_DOCUMENTS"); simpl; [|reflexivity].
  destruct (loanId body) as [i|]; simpl; [|reflexivity].
  destruct (Qlt_bool random DV.passRate); simpl; [|reflexivity].
  destruct fault; reflexivity.
Qed.

(** It does not touch the verification queue itself. *)
Lemma processMessage_docQueue random fault m w :
  docQueue (snd (DV.processMessage random fault m w)) = docQueue w.
Proof.
  run_processMessage.
  destruct (Body m) as [body|]; simpl; [|reflexivity].
  destruct (action_is (action body) "VERIFY_DOCUMENTS"); simpl; [|reflexivity].
  destruct (loanId body) as [i|]; simpl; [|reflexivity].
  destruct (Qlt_bool random DV.passRate); simpl; [|reflexivity].
  destruct fault; reflexivity.
Qed.

(** The status write of a VERIFY_DOCUMENTS message. *)
Lemma processMessage_loans random fault m body i w :
  Body m = Some body →
  action body = Some "VERIFY_DOCUMENTS" →
  loanId body = Some i →
  loans (snd (DV.processMessage random fault m w)) =
    alter (set_status (if Qlt_bool random DV.passRate
                       then VERIFIED else VERIFICATION_FAILED)) i (loans w).
Proof.
  intros Hb Ha Hi. run_processMessage. rewrite Hb. simpl.
  rewrite Ha, Hi. simpl.
  destruct (Qlt_bool random DV.passRate); simpl; [|reflexivity].
  destruct fault; reflexivity.
Qed.

(** The eligibility queue after a VERIFY_DOCUMENTS message. *)
Lemma processMessage_eligibilityQueue random fault m body i w :
  Body m = Some body →
  action body = Some "VERIFY_DOCUMENTS" →
  loanId body = Some i →
  eligibilityQueue (snd (DV.processMessage random fault m w)) =
    if Qlt_bool random DV.passRate && bool_decide (fault = None)
    then eligibilityQueue w ++
           [mkEnvelope (Some i) (userId body) (Some "CHECK_ELIGIBILITY") (Some (now w))]
    else eligibilityQueue w.
Proof.
  intros Hb Ha Hi. run_processMessage. rewrite Hb. simpl.
  rewrite Ha, Hi. simpl.
  destruct (Qlt_bool random DV.passRate); simpl; [|reflexivity].
  destruct fault; reflexivity.
Qed.

(** A message with another action: a warning, and nothing else changes. *)
Lemma processMessage_unknown_action random fault m body w :
  Body m = Some body →
  action_is (action body) "VERIFY_DOCUMENTS" = false →
  DV.processMessage random fault m w =
    (Return (DV.mkResult (ReceiptHandle m) false),
     with_logs (λ ls, ls ++ [(Info, ProcessingMessage body);
                             (Warn, UnknownAction (action body))]) w).
Proof.
  intros Hb Ha. run_processMessage. rewrite Hb. simpl. rewrite Ha. simpl.
  unfold with_logs. simpl. rewrite <- app_assoc. reflexivity.
Qed.

(** One iteration of the loop never throws. *)
Lemma handleMessage_returns o m w :
  fst (DV.handleMessage o m w) = Return tt.
Proof.
  unfold DV.handleMessage. run_monad.
  pose proof (processMessage_returns (DV.random o) (DV.sendFault o) m w) as Hr.
  destruct (DV.processMessage (DV.random o) (DV.sendFault o) m w) as [c w1].
  simpl in Hr. subst c. simpl.
  destruct (succeeds _ _ m); [|reflexivity].
  unfold DV.deleteMessage. run_monad.
  destruct (DV.deleteFault o); reflexivity.
Qed.

(** The queue after one iteration: the message is removed exactly when
    [processMessage] reported success and the delete went through. *)
Lemma handleMessage_docQueue o m w :
  docQueue (snd (DV.handleMessage o m w)) =
    if succeeds (DV.random o) (DV.sendFault o) m && bool_decide (DV.deleteFault o = None)
    then filter (λ x, ReceiptHandle x ≠ ReceiptHandle m) (docQueue w)
    else docQueue w.
Proof.
  unfold DV.handleMessage. run_monad.
  pose proof (processMessage_returns (DV.random o) (DV.sendFault o) m w) as Hr.
  pose proof (processMessage_docQueue (DV.random o) (DV.sendFault o) m w) as Hq.
  destruct (DV.processMessage (DV.random o) (DV.sendFault o) m w) as [c w1].
  simpl in Hr, Hq. subst c. simpl.
  destruct (succeeds _ _ m); simpl; [|exact Hq].
  unfold DV.deleteMessage. run_monad.
  destruct (DV.deleteFault o); simpl; rewrite Hq; reflexivity.
Qed.

(** A message of the queue survives a batch when every message of the
    batch that carries its receipt handle is reported as failed. *)
Lemma forEachMessage_keeps outside (x : Message) (ms : list Message) :
  ∀ (i : nat) (w : World),
    x ∈ docQueue w →
    (∀ (j : nat) (m : Message),
        ms !! j = Some m → ReceiptHandle m = ReceiptHandle x →
        succeeds (DV.random (outside (i + j)%nat))
                 (DV.sendFault (outside (i + j)%nat)) m = false) →
    x ∈ docQueue (snd (DV.forEachMessage outside i ms w)).
Proof.
  induction ms as [|m ms IH]; intros i w Hx Hfail; simpl.
  - exact Hx.
  - unfold mbind, M_bind.
    pose proof (handleMessage_returns (outside i) m w) as Hr.
    pose proof (handleMessage_docQueue (outside i) m w) as Hq.
    destruct (DV.handleMessage (outside i) m w) as [c w1].
    simpl in Hr, Hq. subst c.
    apply IH.
    + rewrite Hq.
      destruct (decide (ReceiptHandle m = ReceiptHandle x)) as [Heq|Hne].
      * specialize (Hfail 0%nat m eq_refl Heq).
        rewrite Nat.add_0_r in Hfail. rewrite Hfail. exact Hx.
      * destruct (_ && _); [|exact Hx].
        apply list_elem_of_filter. split; [congruence | exact Hx].
    + intros j m' Hj Hh.
      replace (S i + j)%nat with (i + S j)%nat by lia.
      apply Hfail; assumption.
Qed.

(** The same for one whole round of [pollMessages]. *)
Lemma pollMessages_keeps receiveFault outside (x : Message) (k : nat) (w : World) :
  docQueue w !! k = Some x →
  NoDup (ReceiptHandle <$> docQueue w) →
  succeeds (DV.random (outside k)) (DV.sendFault (outside k)) x = false →
  x ∈ docQueue (snd (DV.pollMessages receiveFault outside w)).
Proof.
  intros Hk Hnd Hfail.
  assert (Hx : x ∈ docQueue w) by (apply list_elem_of_lookup; eauto).
  unfold DV.pollMessages, DV.receiveMessage. run_monad.
  destruct receiveFault as [e|]; simpl; [exact Hx|].
  destruct (Nat.ltb 0 (length (take 10 (docQueue w)))); simpl; [|exact Hx].
  set (w1 := with_logs _ w).
  pose proof (forEachMessage_keeps outside x (take 10 (docQueue w)) 0 w1) as Hkeep.
  destruct (DV.forEachMessage outside 0 (take 10 (docQueue w)) w1) as [c w2].
  simpl in Hkeep.
  assert (Hin : x ∈ docQueue w2).
  { apply Hkeep; [exact Hx|].
    intros j m Hj Hh.
    apply lookup_take_Some in Hj as [Hj _].
    assert (j = k) as ->.
    { eapply NoDup_lookup; [exact Hnd| |].
      - rewrite list_lookup_fmap, Hj. reflexivity.
      - rewrite list_lookup_fmap, Hk. simpl. congruence. }
    rewrite Hk in Hj. injection Hj as ->. exact Hfail. }
  destruct c; exact Hin.
Qed.

(** C5: when the verification passes and the send to the eligibility queue
    rejects, [processMessage] reports [success: false], and after the round
    of [pollMessages] the message is still in the verification queue, from
    which it is received again. *)
Theorem C5_failed_enqueue_keeps_message
    (receiveFault : option Error) (outside : nat → DV.Outside)
    (k : nat) (m : Message) (body : Envelope) (e : Error) (w : World) :
  docQueue w !! k = Some m →
  NoDup (ReceiptHandle <$> docQueue w) →
  Body m = Some body →
  action body = Some "VERIFY_DOCUMENTS" →
  (DV.random (outside k) < DV.passRate)%Q →
  DV.sendFault (outside k) = Some e →
  fst (DV.processMessage (DV.random (outside k)) (DV.sendFault (outside k)) m w)
    = Return (DV.mkResult (ReceiptHandle m) false)
  ∧ eligibilityQueue
      (snd (DV.processMessage (DV.random (outside k)) (DV.sendFault (outside k)) m w))
    = eligibilityQueue w
  ∧ m ∈ docQueue (snd (DV.pollMessages receiveFault outside w)).
Proof.
  intros Hk Hnd Hb Ha Hr Hf.
  apply Qlt_bool_iff in Hr.
  assert (Hs : succeeds (DV.random (outside k)) (DV.sendFault (outside k)) m = false).
  { unfold succeeds. rewrite Hb, Hr, Hf. simpl.
    rewrite andb_false_r. reflexivity. }
  split; [|split].
  - rewrite processMessage_returns, Hs. reflexivity.
  - run_processMessage. rewrite Hb. simpl. rewrite Ha. simpl.
    destruct (loanId body); simpl; [|reflexivity].
    rewrite Hr, Hf. reflexivity.
  - eapply pollMessages_keeps; eassumption.
Qed.

Lemma C5_witness :
  let w := worldWith (loanOf (Some (250000 # 1)) PENDING_VERIFICATION) [verifyMessage 1] in
  fst (DV.processMessage 0 (Some boom) (verifyMessage 1) w)
    = Return (DV.mkResult 5 false)
  ∧ eligibilityQueue (snd (DV.processMessage 0 (Some boom) (verifyMessage 1) w)) = []
  ∧ verifyMessage 1 ∈ docQueue (snd (DV.pollMessages None (sendFails 0) w)).
Proof.
  intros w.
  apply (C5_failed_enqueue_keeps_message None (sendFails 0) 0 (verifyMessage 1)
           (verifyEnvelope 1) boom w).
  - reflexivity.
  - simpl. apply NoDup_singleton.
  - reflexivity.
  - reflexivity.
  - reflexivity.
  - reflexivity.
Defined.

(** C6, on the code: a VERIFY_DOCUMENTS message for loan 42, which has no
    row, whose verification passes.  No row changes, yet a CHECK_ELIGIBILITY
    message for loan 42 is put on the eligibility queue, the update is
    logged as done, and the message is deleted as a success. *)
Theorem C6_missing_loan_is_forwarded :
  let w := worldWithout [verifyMessage 42] in
  let w' := snd (DV.pollMessages None (calm 0) w) in
  loans w !! 42 = None
  ∧ loans w' = loans w
  ∧ eligibilityQueue w' =
      [mkEnvelope (Some 42) (Some 7) (Some "CHECK_ELIGIBILITY") (Some (now w))]
  ∧ docQueue w' = []
  ∧ logs w' =
      [(Info, ReceivedMessages 1);
       (Info, ProcessingMessage (verifyEnvelope 42));
       (Info, VerifyingDocuments (Some 42));
       (Info, VerificationResult (Some 42) true);
       (Info, StatusUpdated (Some 42) VERIFIED);
       (Info, SentToEligibility (Some 42));
       (Info, MessageDeleted)].
Proof.
  repeat split; vm_compute; reflexivity.
Qed.

(** C7, as stated, fails: a message with another action is still in the
    verification queue after the round that received it. *)
Lemma C7_counterexample :
  let m := mkMessage 5 (Some (checkEnvelope 1)) in
  let w := worldWith (loanOf (Some (250000 # 1)) PENDING_VERIFICATION) [m] in
  docQueue (snd (DV.pollMessages None (calm 0) w)) = [m].
Proof.
  vm_compute. reflexivity.
Qed.

(** C7, amended: a message whose action is not VERIFY_DOCUMENTS is logged
    with a warning, [processMessage] reports [success: false], no row and
    no queue is written, and [pollMessages] does not delete the message: it
    stays in the verification queue. *)
Theorem C7_unknown_action_is_left_in_queue
    (receiveFault : option Error) (outside : nat → DV.Outside)
    (k : nat) (m : Message) (body : Envelope) (w : World) :
  docQueue w !! k = Some m →
  NoDup (ReceiptHandle <$> docQueue w) →
  Body m = Some body →
  action body ≠ Some "VERIFY_DOCUMENTS" →
  (∀ random fault (w0 : World),
     let out := DV.processMessage random fault m w0 in
     fst out = Return (DV.mkResult (ReceiptHandle m) false)
     ∧ loans (snd out) = loans w0
     ∧ eligibilityQueue (snd out) = eligibilityQueue w0
     ∧ docQueue (snd out) = docQueue w0
     ∧ logs (snd out) = logs w0 ++ [(Info, ProcessingMessage body);
                                    (Warn, UnknownAction (action body))])
  ∧ m ∈ docQueue (snd (DV.pollMessages receiveFault outside w)).
Proof.
  intros Hk Hnd Hb Ha.
  assert (Hact : action_is (action body) "VERIFY_DOCUMENTS" = false).
  { unfold action_is. destruct (action body) as [s|]; [|reflexivity].
    destruct (String.eqb s "VERIFY_DOCUMENTS") eqn:E; [|reflexivity].
    apply String.eqb_eq in E. congruence. }
  split.
  - intros random fault w0. simpl.
    rewrite (processMessage_unknown_action random fault m body w0 Hb Hact).
    simpl. repeat split; reflexivity.
  - eapply pollMessages_keeps; [exact Hk | exact Hnd |].
    unfold succeeds. rewrite Hb, Hact. reflexivity.
Qed.

Lemma C7_witness :
  let m := mkMessage 5 (Some (checkEnvelope 1)) in
  let w := worldWith (loanOf (Some (250000 # 1)) PENDING_VERIFICATION) [m] in
  m ∈ docQueue (snd (DV.pollMessages None (calm 0) w)).
Proof.
  intros m w.
  apply (C7_unknown_action_is_left_in_queue None (calm 0) 0 m (checkEnvelope 1) w).
  - reflexivity.
  - simpl. apply NoDup_singleton.
  - reflexivity.
  - simpl. discriminate.
Defined.

(** C2, as stated, fails.  The delete of the first delivery rejects, so the
    message is received a second time: with two passing draws the
    eligibility queue holds two messages for the loan; with a passing and
    then a failing draw the status is written twice, to VERIFIED and then
    to VERIFICATION_FAILED. *)
Lemma C2_counterexample :
  let w := worldWith (loanOf (Some (250000 # 1)) PENDING_VERIFICATION) [verifyMessage 1] in
  let w1 := snd (DV.pollMessages None (deleteFails 0) w) in
  let w2 := snd (DV.pollMessages None (calm 0) w1) in
  let w2' := snd (DV.pollMessages None (calm (95 # 100)) w1) in
  docQueue w1 = [verifyMessage 1]
  ∧ loanId <$> eligibilityQueue w2 = [Some 1; Some 1]
  ∧ status <$> loans w !! 1 = Some PENDING_VERIFICATION
  ∧ status <$> loans w1 !! 1 = Some VERIFIED
  ∧ status <$> loans w2' !! 1 = Some VERIFICATION_FAILED.
Proof.
  repeat split; vm_compute; reflexivity.
Qed.

(** ** The eligibility lambda *)

Lemma calculateEligibility_invalid random (amount : option Q) w :
  match amount with None => True | Some a => (a <= 0)%Q end →
  EL.calculateEligibility random amount w = (Throw (mkError "Invalid loan amount"), w).
Proof.
  intros H. unfold EL.calculateEligibility.
  destruct amount as [a|]; simpl; [|reflexivity].
  apply Qle_bool_iff in H. rewrite H, orb_true_r. reflexivity.
Qed.

Lemma calculateEligibility_valid random (a : Q) w :
  (0 < a)%Q →
  EL.calculateEligibility random (Some a) w =
    (Return (EL.mkEligibilityResult
               (Qlt_bool random EL.approvalRate && Qlt_bool a EL.ceiling)
               (if Qlt_bool random EL.approvalRate && Qlt_bool a EL.ceiling
                then "Approved based on eligibility rules"
                else if Qle_bool EL.ceiling a
                     then "Loan amount exceeds maximum threshold"
                     else "Does not meet eligibility criteria")), w).
Proof.
  intros H. unfold EL.calculateEligibility. simpl.
  assert (Hle : Qle_bool a 0 = false).
  { destruct (Qle_bool a 0) eqn:E; [|reflexivity].
    apply Qle_bool_iff in E. exfalso. exact (Qlt_not_le _ _ H E). }
  assert (Heq : Qeq_bool a 0 = false).
  { destruct (Qeq_bool a 0) eqn:E; [|reflexivity].
    apply Qeq_bool_iff in E. rewrite E in H. exfalso. exact (Qlt_irrefl _ H). }
  rewrite Hle, Heq. reflexivity.
Qed.

Lemma handleRecord_returns env o record arrays w :
  ∃ arrays', fst (EL.handleRecord env o record arrays w) = Return arrays'.
Proof.
  run_handleRecord. repeat inner_case; eexists; reflexivity.
Qed.

Lemma handleRecord_decides env o record b i l a arrays w :
  EL.body record = Some b →
  action b = Some "CHECK_ELIGIBILITY" →
  loanId b = Some i →
  i ≠ 0 →
  loans w !! i = Some l →
  loanAmount l = Some a →
  (0 < a)%Q →
  let ok := Qlt_bool (EL.random o) EL.approvalRate && Qlt_bool a EL.ceiling in
  let newStatus := if ok then APPROVED else REJECTED in
  let out := EL.handleRecord env o record arrays w in
  fst out =
    Return (fst arrays ++ [EL.processedRecord (EL.messageId record) (Some i) newStatus],
            snd arrays)
  ∧ loans (snd out) = alter (set_status newStatus) i (loans w)
  ∧ topic (snd out) =
      (if ok && truthy_string env && bool_decide (EL.publishFault o = None)
       then topic w ++ [mkNotification (Some i) (userId b) APPROVED
                          "Approved based on eligibility rules" (now w)]
       else topic w)
  ∧ logs (snd out) =
      logs w ++
      [(Info, ProcessingRecord (Some i) (action b));
       (Info, StatusUpdatedBecause (Some i) newStatus
                (if ok then "Approved based on eligibility rules"
                 else if Qle_bool EL.ceiling a
                      then "Loan amount exceeds maximum threshold"
                      else "Does not meet eligibility criteria"))] ++
      (if ok && truthy_string env
       then [match EL.publishFault o with
             | None => (Info, PublishedApproval (Some i))
             | Some e => (Err, FailedToPublish (Some i) e)
             end]
       else []).
Proof.
  intros Hb Ha Hi Hnz Hl Hamt Hpos ok newStatus out.
  subst out newStatus ok.
  unfold EL.handleRecord, EL.publish. run_monad.
  rewrite Hb. simpl. rewrite Ha, Hi. simpl.
  rewrite (proj2 (Z.eqb_neq i 0) Hnz). simpl. rewrite Hl. simpl. rewrite Hamt.
  rewrite calculateEligibility_valid by exact Hpos. simpl.
  destruct (Qlt_bool (EL.random o) EL.approvalRate && Qlt_bool a EL.ceiling); simpl.
  - destruct (truthy_string env); simpl.
    + destruct (EL.publishFault o); simpl; rewrite <- ?app_assoc;
        repeat split; reflexivity.
    + rewrite <- ?app_assoc. repeat split; reflexivity.
  - rewrite <- ?app_assoc. repeat split; reflexivity.
Qed.

Lemma handleRecord_invalid env o record b i l arrays w :
  EL.body record = Some b →
  action b = Some "CHECK_ELIGIBILITY" →
  loanId b = Some i →
  i ≠ 0 →
  loans w !! i = Some l →
  match loanAmount l with None => True | Some a => (a <= 0)%Q end →
  EL.handleRecord env o record arrays w =
    (Return (fst arrays,
             snd arrays ++ [EL.failedRecord (EL.messageId record) "Invalid loan amount"]),
     with_logs (λ ls, ls ++ [(Info, ProcessingRecord (Some i) (action b));
                             (Err, ErrorProcessingRecord (mkError "Invalid loan amount"))]) w).
Proof.
  intros Hb Ha Hi Hnz Hl Hamt.
  unfold EL.handleRecord. run_monad.
  rewrite Hb. simpl. rewrite Ha, Hi. simpl.
  rewrite (proj2 (Z.eqb_neq i 0) Hnz). simpl. rewrite Hl. simpl.
  rewrite calculateEligibility_invalid by exact Hamt. simpl.
  unfold with_logs. simpl. rewrite <- app_assoc. reflexivity.
Qed.

Lemma handleRecord_unset o record arrays w :
  let w' := snd (EL.handleRecord None o record arrays w) in
  topic w' = topic w
  ∧ ∃ added, logs w' = logs w ++ added
             ∧ Forall (λ entry, notification_line entry = false) added.
Proof.
  run_handleRecord.
  repeat (rewrite ?andb_false_r; inner_case); (split; [reflexivity|]);
    rewrite <- ?app_assoc; eexists; (split; [reflexivity|]);
    repeat constructor.
Qed.

Lemma forEachRecord_returns env outside records :
  ∀ i arrays w,
    ∃ arrays', fst (EL.forEachRecord env outside i records arrays w) = Return arrays'.
Proof.
  induction records as [|record rest IH]; intros i arrays w; simpl.
  - eexists. reflexivity.
  - unfold mbind, M_bind.
    destruct (handleRecord_returns env (outside i) record arrays w) as [arrays1 H1].
    destruct (EL.handleRecord env (outside i) record arrays w) as [c w1].
    simpl in H1. subst c. apply IH.
Qed.

Lemma forEachRecord_unset outside records :
  ∀ i arrays w,
    let w' := snd (EL.forEachRecord None outside i records arrays w) in
    topic w' = topic w
    ∧ ∃ added, logs w' = logs w ++ added
               ∧ Forall (λ entry, notification_line entry = false) added.
Proof.
  induction records as [|record rest IH]; intros i arrays w; simpl.
  - split; [reflexivity|]. exists []. rewrite app_nil_r. split; [reflexivity|constructor].
  - unfold mbind, M_bind.
    destruct (handleRecord_returns None (outside i) record arrays w) as [arrays1 H1].
    destruct (handleRecord_unset (outside i) record arrays w) as [Ht [added1 [Hl Hf]]].
    destruct (EL.handleRecord None (outside i) record arrays w) as [c w1].
    simpl in H1, Ht, Hl. subst c.
    destruct (IH (S i) arrays1 w1) as [Ht2 [added2 [Hl2 Hf2]]].
    split; [congruence|].
    exists (added1 ++ added2). split.
    + rewrite Hl2, Hl, app_assoc. reflexivity.
    + apply Forall_app. split; assumption.
Qed.

Lemma handler_single env outside record w :
  EL.handler env outside (EL.mkEvent [record]) w =
    let out :=
      EL.handleRecord env (outside 0%nat) record ([], [])
        (with_logs (λ ls, ls ++ [(Info, ConnectionEstablished)])
           (with_logs (λ ls, ls ++ [(Info, LambdaTriggered 1)]) w)) in
    match fst out with
    | Return arrays =>
        (Return (EL.mkResponse 200
                   (EL.Completed "Eligibility check completed"
                      (length (fst arrays)) (length (snd arrays))
                      (fst arrays) (snd arrays))),
         with_logs (λ ls, ls ++ [(Info, ConnectionClosed)]) (snd out))
    | Throw e =>
        (Return (EL.mkResponse 500 (EL.ExecutionError "Lambda execution error" (message e))),
         with_logs (λ ls, ls ++ [(Info, ConnectionClosed)])
           (with_logs (λ ls, ls ++ [(Err, LambdaExecutionError e)]) (snd out)))
    end.
Proof.
  unfold EL.handler, EL.getDbConnection. simpl. run_monad.
  destruct (EL.handleRecord _ _ _ _ _) as [[arrays|e] w1]; reflexivity.
Qed.

Lemma handler_returns_200 env outside event w :
  ∃ body, fst (EL.handler env outside event w) = Return (EL.mkResponse 200 body).
Proof.
  unfold EL.handler, EL.getDbConnection. run_monad.
  match goal with
  | |- context [EL.forEachRecord ?e ?o ?i ?rs ?a ?w1] =>
      destruct (forEachRecord_returns e o rs i a w1) as [arrays H];
      destruct (EL.forEachRecord e o i rs a w1) as [c w2]
  end.
  simpl in H. subst c. simpl. eexists. reflexivity.
Qed.

Lemma handler_unset outside event w :
  let w' := snd (EL.handler None outside event w) in
  topic w' = topic w
  ∧ ∃ added, logs w' = logs w ++ added
             ∧ Forall (λ entry, notification_line entry = false) added.
Proof.
  unfold EL.handler, EL.getDbConnection. run_monad.
  match goal with
  | |- context [EL.forEachRecord ?e ?o ?i ?rs ?a ?w1] =>
      destruct (forEachRecord_returns e o rs i a w1) as [arrays H];
      destruct (forEachRecord_unset o rs i a w1) as [Ht [added [Hl Hf]]];
      destruct (EL.forEachRecord e o i rs a w1) as [c w2]
  end.
  simpl in H, Ht, Hl. subst c. simpl.
  split; [exact Ht|].
  exists ([(Info, LambdaTriggered (length (EL.Records event))); (Info, ConnectionEstablished)]
            ++ added ++ [(Info, ConnectionClosed)]).
  split.
  - rewrite Hl. simpl. rewrite <- !app_assoc. reflexivity.
  - repeat constructor. apply Forall_app. split; [exact Hf|repeat constructor].
Qed.

(** The handler on a batch of one CHECK_ELIGIBILITY record whose loan has
    a positive amount. *)
Lemma handler_single_decides env outside record b i l a w :
  EL.body record = Some b →
  action b = Some "CHECK_ELIGIBILITY" →
  loanId b = Some i →
  i ≠ 0 →
  loans w !! i = Some l →
  loanAmount l = Some a →
  (0 < a)%Q →
  let o := outside 0%nat in
  let ok := Qlt_bool (EL.random o) EL.approvalRate && Qlt_bool a EL.ceiling in
  let newStatus := if ok then APPROVED else REJECTED in
  let out := EL.handler env outside (EL.mkEvent [record]) w in
  fst out =
    Return (EL.mkResponse 200
              (EL.Completed "Eligibility check completed" 1 0
                 [EL.processedRecord (EL.messageId record) (Some i) newStatus] []))
  ∧ loans (snd out) = alter (set_status newStatus) i (loans w)
  ∧ topic (snd out) =
      (if ok && truthy_string env && bool_decide (EL.publishFault o = None)
       then topic w ++ [mkNotification (Some i) (userId b) APPROVED
                          "Approved based on eligibility rules" (now w)]
       else topic w)
  ∧ logs (snd out) =
      logs w ++
      [(Info, LambdaTriggered 1);
       (Info, ConnectionEstablished);
       (Info, ProcessingRecord (Some i) (action b));
       (Info, StatusUpdatedBecause (Some i) newStatus
                (if ok then "Approved based on eligibility rules"
                 else if Qle_bool EL.ceiling a
                      then "Loan amount exceeds maximum threshold"
                      else "Does not meet eligibility criteria"))] ++
      (if ok && truthy_string env
       then [match EL.publishFault o with
             | None => (Info, PublishedApproval (Some i))
             | Some e => (Err, FailedToPublish (Some i) e)
             end]
       else []) ++
      [(Info, ConnectionClosed)].
Proof.
  intros Hb Ha Hi Hnz Hl Hamt Hpos o ok newStatus out.
  subst out. rewrite handler_single.
  set (w1 := with_logs _ (with_logs _ w)).
  destruct (handleRecord_decides env o record b i l a ([], []) w1
              Hb Ha Hi Hnz Hl Hamt Hpos) as (H1 & H2 & H3 & H4).
  fold o. fold ok in H1, H2, H3, H4. fold newStatus in H1, H2, H4.
  destruct (EL.handleRecord env o record ([], []) w1) as [c w2].
  simpl in H1, H2, H3, H4. subst c. simpl.
  repeat split.
  - exact H2.
  - exact H3.
  - rewrite H4. rewrite <- !app_assoc. reflexivity.
Qed.

(** C1, as stated, fails: neither worker looks at the current status.  A
    VERIFY_DOCUMENTS message for an APPROVED loan sets it to VERIFIED, and a
    CHECK_ELIGIBILITY message for a REJECTED loan sets it to APPROVED. *)
Lemma C1_counterexample :
  let w := worldWith (loanOf (Some (250000 # 1)) APPROVED) [] in
  let w' := worldWith (loanOf (Some (250000 # 1)) REJECTED) [] in
  status <$> loans w !! 1 = Some APPROVED
  ∧ status <$> loans (snd (DV.processMessage 0 None (verifyMessage 1) w)) !! 1
    = Some VERIFIED
  ∧ status <$> loans w' !! 1 = Some REJECTED
  ∧ status <$> loans (snd (EL.handler None (drawing 0 None)
                             (EL.mkEvent [checkRecord 1]) w')) !! 1
    = Some APPROVED.
Proof.
  repeat split; vm_compute; reflexivity.
Qed.

(** ** The loan service *)

(** C9, as stated, fails: a request that passes the schema but names a
    user with no row is answered 404, and neither a loan nor a message is
    written. *)
Lemma C9_counterexample :
  let w := worldWithout [] in
  let out := LS.postLoans None (loanRequest 9999) w in
  LS.createLoanSchema (loanRequest 9999)
    = inr (LS.mkValidatedBody 9999 (100000 # 1) "123 Main St")
  ∧ fst out = Return (LS.mkResponse 404 (LS.error_message "User not found"))
  ∧ loans (snd out) = ∅
  ∧ docQueue (snd out) = [].
Proof.
  repeat split; vm_compute; reflexivity.
Qed.

(** C9, amended: for a request that passes the schema and names an existing
    user, the loan service inserts the loan with status
    PENDING_VERIFICATION and then tries to send the VERIFY_DOCUMENTS
    message; whether or not the send rejects, the answer is 201 with the new
    loanId and PENDING_VERIFICATION, and the row stays as inserted.  When
    the send rejects the failure is logged and no message is queued.  For a
    request whose user has no row the answer is 404 and nothing is
    written. *)
Theorem C9_creation_survives_enqueue_failure
    (sendFault : option Error) (body : LS.RequestBody) (v : LS.ValidatedBody)
    (w : World) :
  LS.createLoanSchema body = inr v →
  let out := LS.postLoans sendFault body w in
  let loanId := nextLoanId w in
  (LS.v_userId v ∈ users w →
     fst out =
       Return (LS.mkResponse 201
                 (LS.created "Loan created successfully" loanId PENDING_VERIFICATION))
     ∧ loans (snd out) =
         <[loanId := mkLoan loanId (LS.v_userId v) (Some (LS.v_loanAmount v))
                       (LS.v_propertyAddress v) PENDING_VERIFICATION]> (loans w)
     ∧ docQueue (snd out) =
         match sendFault with
         | None =>
             docQueue w ++
               [mkMessage (nextHandle w)
                  (Some (mkEnvelope (Some loanId) (Some (LS.v_userId v))
                           (Some "VERIFY_DOCUMENTS") (Some (now w))))]
         | Some _ => docQueue w
         end
     ∧ (∀ e, sendFault = Some e →
             (Err, FailedToSendButCreated e) ∈ logs (snd out)))
  ∧ (LS.v_userId v ∉ users w →
       fst out = Return (LS.mkResponse 404 (LS.error_message "User not found"))
       ∧ loans (snd out) = loans w
       ∧ docQueue (snd out) = docQueue w).
Proof.
  intros Hv out loanId. subst out loanId.
  unfold LS.postLoans. rewrite Hv.
  unfold LS.createLoan, LS.select_user, LS.insert_loan, LS.sendSQSMessage,
    LS.sendMessage, LS.errorHandler.
  run_monad.
  split.
  - intros Hin. rewrite (bool_decide_eq_true_2 _ Hin). simpl.
    destruct sendFault as [e|]; simpl.
    + repeat split. intros e' [= <-]. set_solver.
    + repeat split. intros e' [=].
  - intros Hout. rewrite (bool_decide_eq_false_2 _ Hout). simpl.
    repeat split.
Qed.

Lemma C9_witness :
  let w := worldWith (loanOf (Some (250000 # 1)) APPROVED) [] in
  let out := LS.postLoans (Some boom) (loanRequest 7) w in
  fst out =
    Return (LS.mkResponse 201
              (LS.created "Loan created successfully" 2 PENDING_VERIFICATION))
  ∧ loans (snd out) !! 2 =
      Some (mkLoan 2 7 (Some (100000 # 1)) "123 Main St" PENDING_VERIFICATION)
  ∧ docQueue (snd out) = [].
Proof.
  intros w out.
  destruct (C9_creation_survives_enqueue_failure (Some boom) (loanRequest 7)
              (LS.mkValidatedBody 7 (100000 # 1) "123 Main St") w eq_refl)
    as [H _].
  destruct H as (H1 & H2 & H3 & _).
  - vm_compute. reflexivity.
  - split; [exact H1 | split; [|exact H3]].
    unfold out. rewrite H2. apply lookup_insert_eq.
Defined.

(** * Further properties *)

(** ** The verification worker, round by round *)

Lemma forEachMessage_returns outside (ms : list Message) :
  ∀ (i : nat) (w : World), fst (DV.forEachMessage outside i ms w) = Return tt.
Proof.
  induction ms as [|m ms IH]; intros i w; simpl; [reflexivity|].
  unfold mbind, M_bind.
  pose proof (handleMessage_returns (outside i) m w) as Hr.
  destruct (DV.handleMessage (outside i) m w) as [c w1].
  simpl in Hr. subst c. apply IH.
Qed.

Lemma handleMessage_sublist o m w :
  docQueue (snd (DV.handleMessage o m w)) `sublist_of` docQueue w.
Proof.
  rewrite handleMessage_docQueue.
  destruct (_ && _); [apply sublist_filter; apply _ | reflexivity].
Qed.

Lemma forEachMessage_sublist outside (ms : list Message) :
  ∀ (i : nat) (w : World),
    docQueue (snd (DV.forEachMessage outside i ms w)) `sublist_of` docQueue w.
Proof.
  induction ms as [|m ms IH]; intros i w; simpl; [reflexivity|].
  unfold mbind, M_bind.
  pose proof (handleMessage_returns (outside i) m w) as Hr.
  pose proof (handleMessage_sublist (outside i) m w) as Hs.
  destruct (DV.handleMessage (outside i) m w) as [c w1].
  simpl in Hr, Hs. subst c.
  etransitivity; [apply IH | exact Hs].
Qed.

Lemma pollMessages_returns receiveFault outside w :
  ∃ delay, fst (DV.pollMessages receiveFault outside w) = Return delay
           ∧ 1000 ≤ delay ≤ 5000
           ∧ (receiveFault = None → delay = 1000).
Proof.
  unfold DV.pollMessages, DV.receiveMessage. run_monad.
  destruct receiveFault as [e|]; simpl;
    [exists 5000; repeat split; [lia | lia | discriminate]|].
  destruct (Nat.ltb 0 (length (take 10 (docQueue w)))); simpl;
    [|exists 1000; repeat split; lia].
  match goal with
  | |- context [DV.forEachMessage ?o ?i ?ms ?w1] =>
      pose proof (forEachMessage_returns o ms i w1) as Hr;
      destruct (DV.forEachMessage o i ms w1) as [c w2]
  end.
  simpl in Hr. subst c. exists 1000. repeat split; lia.
Qed.

Lemma pollMessages_sublist receiveFault outside w :
  docQueue (snd (DV.pollMessages receiveFault outside w)) `sublist_of` docQueue w.
Proof.
  unfold DV.pollMessages, DV.receiveMessage. run_monad.
  destruct receiveFault as [e|]; simpl; [reflexivity|].
  destruct (Nat.ltb 0 (length (take 10 (docQueue w)))); simpl; [|reflexivity].
  match goal with
  | |- context [DV.forEachMessage ?o ?i ?ms ?w1] =>
      pose proof (forEachMessage_returns o ms i w1) as Hr;
      pose proof (forEachMessage_sublist o ms i w1) as Hs;
      destruct (DV.forEachMessage o i ms w1) as [c w2]
  end.
  simpl in Hr, Hs. subst c. exact Hs.
Qed.

Lemma forEachMessage_removes outside (m : Message) (ms : list Message) :
  ∀ (j i : nat) (w : World),
    ms !! j = Some m →
    succeeds (DV.random (outside (i + j)%nat))
             (DV.sendFault (outside (i + j)%nat)) m = true →
    DV.deleteFault (outside (i + j)%nat) = None →
    ∀ x, x ∈ docQueue (snd (DV.forEachMessage outside i ms w)) →
         ReceiptHandle x ≠ ReceiptHandle m.
Proof.
  induction ms as [|m0 ms IH]; intros j i w Hj Hs Hd x Hx; [discriminate|].
  simpl in Hx. unfold mbind, M_bind in Hx.
  pose proof (handleMessage_returns (outside i) m0 w) as Hr.
  pose proof (handleMessage_docQueue (outside i) m0 w) as Hq.
  destruct (DV.handleMessage (outside i) m0 w) as [c w1].
  simpl in Hr, Hq. subst c.
  destruct j as [|j].
  - injection Hj as ->. rewrite Nat.add_0_r in Hs, Hd.
    rewrite Hs, Hd in Hq. simpl in Hq.
    pose proof (elem_of_sublist _ _ _ Hx
                  (forEachMessage_sublist outside ms (S i) w1)) as Hx'.
    rewrite Hq in Hx'. apply list_elem_of_filter in Hx' as [Hne _]. exact Hne.
  - simpl in Hj.
    replace (i + S j)%nat with (S i + j)%nat in Hs, Hd by lia.
    exact (IH j (S i) w1 Hj Hs Hd x Hx).
Qed.

(** X1: in a round whose receive goes through, a VERIFY_DOCUMENTS
    message that carries a loanId, among the first ten of the queue, whose
    verification fails or whose send goes through, and whose delete goes
    through, is gone after the round, together with anything else that
    carried its receipt handle. *)
Theorem poll_round_deletes_handled_message
    (outside : nat → DV.Outside) (k : nat) (m : Message) (body : Envelope)
    (i : Z) (w : World) :
  docQueue w !! k = Some m →
  (k < 10)%nat →
  Body m = Some body →
  action body = Some "VERIFY_DOCUMENTS" →
  loanId body = Some i →
  ((DV.passRate <= DV.random (outside k))%Q ∨ DV.sendFault (outside k) = None) →
  DV.deleteFault (outside k) = None →
  ∀ x, x ∈ docQueue (snd (DV.pollMessages None outside w)) →
       ReceiptHandle x ≠ ReceiptHandle m.
Proof.
  intros Hk Hlt Hb Ha Hi Hok Hd x.
  assert (Hs : succeeds (DV.random (outside k)) (DV.sendFault (outside k)) m = true).
  { unfold succeeds. rewrite Hb, Ha, Hi. simpl.
    destruct Hok as [Hge | ->].
    - rewrite (Qlt_bool_false _ _ Hge). reflexivity.
    - rewrite orb_true_r. reflexivity. }
  assert (Hm : take 10 (docQueue w) !! k = Some m).
  { rewrite lookup_take_lt by exact Hlt. exact Hk. }
  unfold DV.pollMessages, DV.receiveMessage. run_monad.
  destruct (Nat.ltb 0 (length (take 10 (docQueue w)))) eqn:Hlen; simpl.
  - match goal with
    | |- context [DV.forEachMessage ?o ?i ?ms ?w1] =>
        pose proof (forEachMessage_returns o ms i w1) as Hr;
        pose proof (forEachMessage_removes o m ms k 0 w1 Hm Hs Hd) as Hrm;
        destruct (DV.forEachMessage o i ms w1) as [c w2]
    end.
    simpl in Hr, Hrm. subst c. apply Hrm.
  - apply Nat.ltb_ge in Hlen.
    apply lookup_lt_Some in Hm. lia.
Qed.

Lemma poll_round_deletes_handled_message_witness :
  let w := worldWith (loanOf (Some (250000 # 1)) PENDING_VERIFICATION) [verifyMessage 1] in
  verifyMessage 1 ∉ docQueue (snd (DV.pollMessages None (calm 0) w)).
Proof.
  intros w Hin.
  apply (poll_round_deletes_handled_message (calm 0) 0 (verifyMessage 1)
           (verifyEnvelope 1) 1 w) with (x := verifyMessage 1).
  - reflexivity.
  - lia.
  - reflexivity.
  - reflexivity.
  - reflexivity.
  - right. reflexivity.
  - reflexivity.
  - exact Hin.
  - reflexivity.
Defined.

(** ** What the workers leave alone *)

Lemma set_status_status (l : Loan) : l = set_status (status l) l.
Proof. destruct l. reflexivity. Qed.

Lemma only_status_written_refl written (m : gmap Z Loan) :
  only_status_written written m m.
Proof.
  intros i. destruct (m !! i) as [l|]; constructor.
  split; [apply set_status_status | left; reflexivity].
Qed.

Lemma only_status_written_trans written (m1 m2 m3 : gmap Z Loan) :
  only_status_written written m1 m2 →
  only_status_written written m2 m3 →
  only_status_written written m1 m3.
Proof.
  intros H12 H23 i. specialize (H12 i). specialize (H23 i).
  destruct H12 as [l1 l2 [E12 S12]|]; inversion H23 as [l2' l3 [E23 S23]|]; subst;
    constructor.
  split.
  - rewrite E23, E12. reflexivity.
  - destruct S23 as [S23|S23]; [|right; exact S23].
    rewrite S23. exact S12.
Qed.

Lemma only_status_written_alter written (s : Status) (i : Z) (m : gmap Z Loan) :
  s ∈ written →
  only_status_written written m (alter (set_status s) i m).
Proof.
  intros Hs j. destruct (decide (i = j)) as [->|Hne].
  - rewrite lookup_alter_eq. destruct (m !! j) as [l|]; constructor.
    split; [reflexivity | right; exact Hs].
  - rewrite lookup_alter_ne by exact Hne.
    apply only_status_written_refl.
Qed.

Lemma same_tables_refl written w : same_tables written w w.
Proof.
  repeat split. apply only_status_written_refl.
Qed.

Lemma same_tables_trans written w1 w2 w3 :
  same_tables written w1 w2 → same_tables written w2 w3 → same_tables written w1 w3.
Proof.
  intros (A1 & B1 & C1 & D1 & E1) (A2 & B2 & C2 & D2 & E2).
  repeat split; try congruence.
  eapply only_status_written_trans; eassumption.
Qed.

Lemma processMessage_same_tables random fault m w :
  let w' := snd (DV.processMessage random fault m w) in
  same_tables [VERIFIED; VERIFICATION_FAILED] w w' ∧ topic w' = topic w.
Proof.
  run_processMessage.
  destruct (Body m) as [body|]; simpl;
    [|split; [repeat split; apply only_status_written_refl | reflexivity]].
  destruct (action_is (action body) "VERIFY_DOCUMENTS"); simpl;
    [|split; [repeat split; apply only_status_written_refl | reflexivity]].
  destruct (loanId body) as [i|]; simpl;
    [|split; [repeat split; apply only_status_written_refl | reflexivity]].
  destruct (Qlt_bool random DV.passRate); simpl.
  - destruct fault; simpl; (split; [|reflexivity]); repeat split; simpl;
      apply only_status_written_alter; set_solver.
  - (split; [|reflexivity]); repeat split; simpl.
    apply only_status_written_alter; set_solver.
Qed.

Lemma handleMessage_same_tables o m w :
  let w' := snd (DV.handleMessage o m w) in
  same_tables [VERIFIED; VERIFICATION_FAILED] w w' ∧ topic w' = topic w.
Proof.
  unfold DV.handleMessage. run_monad.
  pose proof (processMessage_returns (DV.random o) (DV.sendFault o) m w) as Hr.
  pose proof (processMessage_same_tables (DV.random o) (DV.sendFault o) m w) as Hf.
  destruct (DV.processMessage (DV.random o) (DV.sendFault o) m w) as [c w1].
  simpl in Hr, Hf. subst c. simpl.
  destruct (succeeds _ _ m); [|exact Hf].
  unfold DV.deleteMessage. run_monad.
  destruct (DV.deleteFault o); exact Hf.
Qed.

Lemma forEachMessage_same_tables outside (ms : list Message) :
  ∀ (i : nat) (w : World),
    let w' := snd (DV.forEachMessage outside i ms w) in
    same_tables [VERIFIED; VERIFICATION_FAILED] w w' ∧ topic w' = topic w.
Proof.
  induction ms as [|m ms IH]; intros i w; simpl.
  - split; [apply same_tables_refl | reflexivity].
  - unfold mbind, M_bind.
    pose proof (handleMessage_returns (outside i) m w) as Hr.
    pose proof (handleMessage_same_tables (outside i) m w) as [Hf Ht].
    destruct (DV.handleMessage (outside i) m w) as [c w1].
    simpl in Hr, Hf, Ht. subst c.
    destruct (IH (S i) w1) as [Hf2 Ht2].
    split; [eapply same_tables_trans; eassumption | congruence].
Qed.

Lemma pollMessages_same_tables receiveFault outside w :
  let w' := snd (DV.pollMessages receiveFault outside w) in
  same_tables [VERIFIED; VERIFICATION_FAILED] w w' ∧ topic w' = topic w.
Proof.
  unfold DV.pollMessages, DV.receiveMessage. run_monad.
  destruct receiveFault as [e|]; simpl;
    [split; [repeat split; apply only_status_written_refl | reflexivity]|].
  destruct (Nat.ltb 0 (length (take 10 (docQueue w)))); simpl;
    [|split; [repeat split; apply only_status_written_refl | reflexivity]].
  match goal with
  | |- context [DV.forEachMessage ?o ?i ?ms ?w1] =>
      pose proof (forEachMessage_returns o ms i w1) as Hr;
      pose proof (forEachMessage_same_tables o ms i w1) as Hf;
      destruct (DV.forEachMessage o i ms w1) as [c w2]
  end.
  simpl in Hr, Hf. subst c. exact Hf.
Qed.

Lemma processMessage_forwards random fault m w :
  ∃ added,
    eligibilityQueue (snd (DV.processMessage random fault m w)) =
      eligibilityQueue w ++ added
    ∧ (length added ≤ 1)%nat
    ∧ Forall (forwarded_from m) added.
Proof.
  run_processMessage.
  destruct (Body m) as [body|] eqn:Hb; simpl;
    [|exists []; rewrite app_nil_r; repeat split; [simpl; lia | constructor]].
  destruct (action_is (action body) "VERIFY_DOCUMENTS") eqn:Ha; simpl;
    [|exists []; rewrite app_nil_r; repeat split; [simpl; lia | constructor]].
  destruct (loanId body) as [i|] eqn:Hi; simpl;
    [|exists []; rewrite app_nil_r; repeat split; [simpl; lia | constructor]].
  destruct (Qlt_bool random DV.passRate); simpl;
    [|exists []; rewrite app_nil_r; repeat split; [simpl; lia | constructor]].
  destruct fault; simpl;
    [exists []; rewrite app_nil_r; repeat split; [simpl; lia | constructor]|].
  eexists. split; [reflexivity|]. split; [simpl; lia|].
  constructor; [|constructor].
  split; [reflexivity|]. exists body.
  split; [exact Hb|]. split; [|split].
  - unfold action_is in Ha. destruct (action body) as [s|]; [|discriminate].
    apply String.eqb_eq in Ha. congruence.
  - simpl. congruence.
  - reflexivity.
Qed.

Lemma handleMessage_forwards o m w :
  ∃ added,
    eligibilityQueue (snd (DV.handleMessage o m w)) = eligibilityQueue w ++ added
    ∧ (length added ≤ 1)%nat
    ∧ Forall (forwarded_from m) added.
Proof.
  unfold DV.handleMessage. run_monad.
  pose proof (processMessage_returns (DV.random o) (DV.sendFault o) m w) as Hr.
  pose proof (processMessage_forwards (DV.random o) (DV.sendFault o) m w) as Hf.
  destruct (DV.processMessage (DV.random o) (DV.sendFault o) m w) as [c w1].
  simpl in Hr, Hf. subst c. simpl.
  destruct (succeeds _ _ m); [|exact Hf].
  unfold DV.deleteMessage. run_monad.
  destruct (DV.deleteFault o); exact Hf.
Qed.

Lemma forEachMessage_forwards outside (ms : list Message) :
  ∀ (i : nat) (w : World),
    ∃ added,
      eligibilityQueue (snd (DV.forEachMessage outside i ms w)) =
        eligibilityQueue w ++ added
      ∧ (length added ≤ length ms)%nat
      ∧ Forall (λ e, ∃ m, m ∈ ms ∧ forwarded_from m e) added.
Proof.
  induction ms as [|m ms IH]; intros i w; simpl.
  - exists []. rewrite app_nil_r. repeat split; [simpl; lia | constructor].
  - unfold mbind, M_bind.
    pose proof (handleMessage_returns (outside i) m w) as Hr.
    destruct (handleMessage_forwards (outside i) m w) as (a1 & E1 & L1 & F1).
    destruct (DV.handleMessage (outside i) m w) as [c w1].
    simpl in Hr, E1. subst c.
    destruct (IH (S i) w1) as (a2 & E2 & L2 & F2).
    exists (a1 ++ a2). split; [|split].
    + rewrite E2, E1, app_assoc. reflexivity.
    + rewrite length_app. lia.
    + apply Forall_app. split.
      * eapply Forall_impl; [exact F1|]. intros e He. exists m. split; [left|exact He].
      * eapply Forall_impl; [exact F2|]. intros e (m' & Hin & He).
        exists m'. split; [right; exact Hin | exact He].
Qed.

(** X2: a round only appends to the eligibility queue, at most ten
    envelopes, and each of them asks for CHECK_ELIGIBILITY and carries the
    loanId and the userId of a VERIFY_DOCUMENTS message that was in the
    verification queue. *)
Theorem poll_round_forwards_only_received receiveFault outside w :
  ∃ added,
    eligibilityQueue (snd (DV.pollMessages receiveFault outside w)) =
      eligibilityQueue w ++ added
    ∧ (length added ≤ 10)%nat
    ∧ Forall (λ e, ∃ m, m ∈ docQueue w ∧ forwarded_from m e) added.
Proof.
  unfold DV.pollMessages, DV.receiveMessage. run_monad.
  destruct receiveFault as [e|]; simpl;
    [exists []; rewrite app_nil_r; repeat split; [simpl; lia | constructor]|].
  destruct (Nat.ltb 0 (length (take 10 (docQueue w)))); simpl;
    [|exists []; rewrite app_nil_r; repeat split; [simpl; lia | constructor]].
  match goal with
  | |- context [DV.forEachMessage ?o ?i ?ms ?w1] =>
      pose proof (forEachMessage_returns o ms i w1) as Hr;
      destruct (forEachMessage_forwards o ms i w1) as (added & E & Hl & Hf);
      destruct (DV.forEachMessage o i ms w1) as [c w2]
  end.
  simpl in Hr, E. subst c. simpl.
  exists added. split; [exact E|]. split.
  - rewrite length_take in Hl. lia.
  - eapply Forall_impl; [exact Hf|]. intros e (m & Hin & He).
    exists m. split; [|exact He].
    eapply elem_of_sublist; [exact Hin | apply sublist_take].
Qed.

(** ** Any number of rounds *)

Lemma pollRounds_returns schedule (fuel : nat) :
  ∀ (round : nat) (w : World),
    ∃ waited, fst (pollRounds fuel round schedule w) = Return waited
              ∧ 1000 * Z.of_nat fuel ≤ waited ≤ 5000 * Z.of_nat fuel
              ∧ ((∀ n, fst (schedule n) = None) → waited = 1000 * Z.of_nat fuel).
Proof.
  induction fuel as [|fuel IH]; intros round w.
  - exists 0. simpl. repeat split; lia.
  - simpl. unfold mbind, M_bind.
    destruct (pollMessages_returns (fst (schedule round)) (snd (schedule round)) w)
      as (delay & Hd & Hb & He).
    destruct (DV.pollMessages _ _ w) as [c w1]. simpl in Hd. subst c.
    destruct (IH (S round) w1) as (rest & Hr & Hrb & Hre).
    destruct (pollRounds fuel (S round) schedule w1) as [c w2]. simpl in Hr. subst c.
    exists (delay + rest). simpl. repeat split; try lia.
    intros Hnone. rewrite (He (Hnone round)), (Hre Hnone). lia.
Qed.

Lemma pollRounds_sublist schedule (fuel : nat) :
  ∀ (round : nat) (w : World),
    docQueue (snd (pollRounds fuel round schedule w)) `sublist_of` docQueue w.
Proof.
  induction fuel as [|fuel IH]; intros round w; [reflexivity|].
  simpl. unfold mbind, M_bind.
  destruct (pollMessages_returns (fst (schedule round)) (snd (schedule round)) w)
    as (delay & Hd & _).
  pose proof (pollMessages_sublist (fst (schedule round)) (snd (schedule round)) w) as Hs.
  destruct (DV.pollMessages _ _ w) as [c w1]. simpl in Hd, Hs. subst c.
  destruct (pollRounds_returns schedule fuel (S round) w1) as (rest & Hr & _).
  pose proof (IH (S round) w1) as Hs2.
  destruct (pollRounds fuel (S round) schedule w1) as [c w2]. simpl in Hr, Hs2. subst c.
  simpl. etransitivity; eassumption.
Qed.

Lemma pollRounds_same_tables schedule (fuel : nat) :
  ∀ (round : nat) (w : World),
    let w' := snd (pollRounds fuel round schedule w) in
    same_tables [VERIFIED; VERIFICATION_FAILED] w w' ∧ topic w' = topic w.
Proof.
  induction fuel as [|fuel IH]; intros round w.
  - split; [apply same_tables_refl | reflexivity].
  - simpl. unfold mbind, M_bind.
    destruct (pollMessages_returns (fst (schedule round)) (snd (schedule round)) w)
      as (delay & Hd & _).
    pose proof (pollMessages_same_tables (fst (schedule round)) (snd (schedule round)) w)
      as [Hf Ht].
    destruct (DV.pollMessages _ _ w) as [c w1]. simpl in Hd, Hf, Ht. subst c.
    destruct (pollRounds_returns schedule fuel (S round) w1) as (rest & Hr & _).
    destruct (IH (S round) w1) as [Hf2 Ht2].
    destruct (pollRounds fuel (S round) schedule w1) as [c w2].
    simpl in Hr, Hf2, Ht2. subst c. simpl.
    split; [eapply same_tables_trans; eassumption | congruence].
Qed.

(** X3: the consumer loop never dies.  A round of [pollMessages] never
    throws: when the receive call rejects, the round logs the error,
    changes nothing else and asks [setTimeout] for the next round in
    5000 ms; otherwise it asks for it in 1000 ms.  So any number of rounds
    runs to its end, having waited between 1000 and 5000 ms per round, and
    1000 ms per round when no receive call rejected. *)
Theorem consumer_loop_never_dies receiveFault outside schedule fuel round w :
  match receiveFault with
  | Some e =>
      DV.pollMessages receiveFault outside w =
        (Return 5000, with_logs (λ ls, ls ++ [(Err, ConsumerError e)]) w)
  | None => fst (DV.pollMessages receiveFault outside w) = Return 1000
  end
  ∧ ∃ waited, fst (pollRounds fuel round schedule w) = Return waited
              ∧ 1000 * Z.of_nat fuel ≤ waited ≤ 5000 * Z.of_nat fuel
              ∧ ((∀ n, fst (schedule n) = None) → waited = 1000 * Z.of_nat fuel).
Proof.
  split; [|apply pollRounds_returns].
  unfold DV.pollMessages, DV.receiveMessage. run_monad.
  destruct receiveFault as [e|]; simpl; [reflexivity|].
  destruct (Nat.ltb 0 (length (take 10 (docQueue w)))); simpl; [|reflexivity].
  match goal with
  | |- context [DV.forEachMessage ?o ?i ?ms ?w1] =>
      pose proof (forEachMessage_returns o ms i w1) as Hr;
      destruct (DV.forEachMessage o i ms w1) as [c w2]
  end.
  simpl in Hr. subst c. reflexivity.
Qed.

(** X4: the verification worker never adds to its own queue and never
    reorders it: after one round, and after any number of rounds, what is
    left is a sublist of what was there. *)
Theorem consumer_queue_only_shrinks receiveFault outside schedule fuel round w :
  docQueue (snd (DV.pollMessages receiveFault outside w)) `sublist_of` docQueue w
  ∧ docQueue (snd (pollRounds fuel round schedule w)) `sublist_of` docQueue w.
Proof.
  split.
  - apply pollMessages_sublist.
  - apply pollRounds_sublist.
Qed.

(** X5: whatever is received and whatever the draws and faults, in one
    round or in any number of rounds the verification worker creates and
    deletes no loan, changes no column but [status], writes no status other
    than VERIFIED or VERIFICATION_FAILED, and touches neither the [users]
    table nor the topic. *)
Theorem consumer_writes_only_status receiveFault outside schedule fuel round w :
  (let w' := snd (DV.pollMessages receiveFault outside w) in
   same_tables [VERIFIED; VERIFICATION_FAILED] w w' ∧ topic w' = topic w)
  ∧ (let w' := snd (pollRounds fuel round schedule w) in
     same_tables [VERIFIED; VERIFICATION_FAILED] w w' ∧ topic w' = topic w).
Proof.
  split.
  - apply pollMessages_same_tables.
  - apply pollRounds_same_tables.
Qed.

(** X6: a message that cannot be parsed, or whose action is not
    VERIFY_DOCUMENTS, is never removed: with receipt handles that are
    unique in the queue it is still there after any number of rounds. *)
Theorem unhandled_message_stays_forever schedule (x : Message) fuel :
  ∀ (round : nat) (w : World),
    x ∈ docQueue w →
    NoDup (ReceiptHandle <$> docQueue w) →
    (∀ body, Body x = Some body → action body ≠ Some "VERIFY_DOCUMENTS") →
    x ∈ docQueue (snd (pollRounds fuel round schedule w)).
Proof.
  induction fuel as [|fuel IH]; intros round w Hx Hnd Hbad; [exact Hx|].
  assert (Hfail : ∀ r f, succeeds r f x = false).
  { intros r f. unfold succeeds. destruct (Body x) as [body|] eqn:Hb; [|reflexivity].
    specialize (Hbad body eq_refl). unfold action_is.
    destruct (action body) as [s|]; [|reflexivity].
    destruct (String.eqb s "VERIFY_DOCUMENTS") eqn:E; [|reflexivity].
    apply String.eqb_eq in E. congruence. }
  simpl. unfold mbind, M_bind.
  destruct (pollMessages_returns (fst (schedule round)) (snd (schedule round)) w)
    as (delay & Hd & _).
  pose proof (pollMessages_sublist (fst (schedule round)) (snd (schedule round)) w) as Hs.
  apply list_elem_of_lookup in Hx as [k Hk].
  pose proof (pollMessages_keeps (fst (schedule round)) (snd (schedule round)) x k w
                Hk Hnd (Hfail _ _)) as Hkeep.
  destruct (DV.pollMessages _ _ w) as [c w1]. simpl in Hd, Hs, Hkeep. subst c.
  assert (Hnd1 : NoDup (ReceiptHandle <$> docQueue w1)).
  { eapply sublist_NoDup; [exact Hnd|]. apply fmap_sublist. exact Hs. }
  destruct (pollRounds_returns schedule fuel (S round) w1) as (rest & Hr & _).
  pose proof (IH (S round) w1 Hkeep Hnd1 Hbad) as Hfinal.
  destruct (pollRounds fuel (S round) schedule w1) as [c w2]. simpl in Hr, Hfinal. subst c.
  exact Hfinal.
Qed.

Lemma unhandled_message_stays_forever_witness :
  let m := mkMessage 5 (Some (checkEnvelope 1)) in
  let w := worldWith (loanOf (Some (250000 # 1)) PENDING_VERIFICATION) [m] in
  m ∈ docQueue (snd (pollRounds 3 0 (steady (calm 0)) w)).
Proof.
  intros m w.
  apply (unhandled_message_stays_forever (steady (calm 0)) m 3 0%nat w).
  - apply list_elem_of_singleton. reflexivity.
  - simpl. apply NoDup_singleton.
  - intros body [= <-]. simpl. discriminate.
Defined.

(** ** A queue that holds one message *)

Lemma pollMessages_single outside (m : Message) (w : World) :
  docQueue w = [m] →
  DV.pollMessages None outside w =
    (Return 1000,
     snd (DV.handleMessage (outside 0%nat) m
            (with_logs (λ ls, ls ++ [(Info, ReceivedMessages 1)]) w))).
Proof.
  intros Hq. unfold DV.pollMessages, DV.receiveMessage. run_monad.
  rewrite Hq. simpl. unfold mbind, M_bind.
  match goal with
  | |- context [DV.handleMessage ?o ?m ?w1] =>
      pose proof (handleMessage_returns o m w1) as Hr;
      destruct (DV.handleMessage o m w1) as [c w2]
  end.
  simpl in Hr. subst c. reflexivity.
Qed.

(** After [handleMessage] the tables and the eligibility queue are as
    [processMessage] left them. *)
Lemma handleMessage_tables o m w :
  loans (snd (DV.handleMessage o m w)) =
    loans (snd (DV.processMessage (DV.random o) (DV.sendFault o) m w))
  ∧ eligibilityQueue (snd (DV.handleMessage o m w)) =
      eligibilityQueue (snd (DV.processMessage (DV.random o) (DV.sendFault o) m w)).
Proof.
  unfold DV.handleMessage. run_monad.
  pose proof (processMessage_returns (DV.random o) (DV.sendFault o) m w) as Hr.
  destruct (DV.processMessage (DV.random o) (DV.sendFault o) m w) as [c w1].
  simpl in Hr. subst c. simpl.
  destruct (succeeds _ _ m); [|split; reflexivity].
  unfold DV.deleteMessage. run_monad.
  destruct (DV.deleteFault o); split; reflexivity.
Qed.

Lemma filter_out_single (m : Message) :
  filter (λ x, ReceiptHandle x ≠ ReceiptHandle m) [m] = [].
Proof.
  rewrite filter_cons. rewrite decide_False; [reflexivity|].
  intros H. apply H. reflexivity.
Qed.

(** X7: a failed verification ends the pipeline for that message.  With
    the message alone in the queue, a draw at or above the pass rate and a
    delete that goes through, the round leaves the loan in
    VERIFICATION_FAILED, forwards nothing to the eligibility queue, whether
    or not SQS would have accepted a send, and empties the verification
    queue. *)
Theorem failed_verification_ends_the_pipeline
    (outside : nat → DV.Outside) (m : Message) (body : Envelope)
    (i : Z) (l : Loan) (w : World) :
  docQueue w = [m] →
  Body m = Some body →
  action body = Some "VERIFY_DOCUMENTS" →
  loanId body = Some i →
  loans w !! i = Some l →
  (DV.passRate <= DV.random (outside 0%nat))%Q →
  DV.deleteFault (outside 0%nat) = None →
  let w' := snd (DV.pollMessages None outside w) in
  docQueue w' = []
  ∧ eligibilityQueue w' = eligibilityQueue w
  ∧ loans w' !! i = Some (set_status VERIFICATION_FAILED l).
Proof.
  intros Hq Hb Ha Hi Hl Hge Hd w'. subst w'.
  rewrite (pollMessages_single outside m w Hq). simpl.
  set (w0 := with_logs _ w).
  apply Qlt_bool_false in Hge.
  destruct (handleMessage_tables (outside 0%nat) m w0) as [HL HE].
  split; [|split].
  - rewrite handleMessage_docQueue. unfold succeeds.
    rewrite Hb, Ha, Hi, Hge, Hd. simpl. rewrite Hq. apply filter_out_single.
  - rewrite HE, (processMessage_eligibilityQueue _ _ m body i w0 Hb Ha Hi), Hge.
    reflexivity.
  - rewrite HL, (processMessage_loans _ _ m body i w0 Hb Ha Hi), Hge.
    simpl. rewrite lookup_alter_eq, Hl. reflexivity.
Qed.

Lemma failed_verification_ends_the_pipeline_witness :
  let w := worldWith (loanOf (Some (250000 # 1)) PENDING_VERIFICATION) [verifyMessage 1] in
  let w' := snd (DV.pollMessages None (calm (95 # 100)) w) in
  docQueue w' = []
  ∧ eligibilityQueue w' = []
  ∧ loans w' !! 1 = Some (loanOf (Some (250000 # 1)) VERIFICATION_FAILED).
Proof.
  intros w w'.
  apply (failed_verification_ends_the_pipeline (calm (95 # 100)) (verifyMessage 1)
           (verifyEnvelope 1) 1 (loanOf (Some (250000 # 1)) PENDING_VERIFICATION) w).
  - reflexivity.
  - reflexivity.
  - reflexivity.
  - reflexivity.
  - reflexivity.
  - vm_compute. discriminate.
  - reflexivity.
Defined.

(** X8: a send that rejects is retried as a whole.  With the message alone
    in the queue and passing draws: after the round whose send rejects the
    status is already VERIFIED, nothing is on the eligibility queue and the
    message is still queued; after the next round, whose send and delete go
    through, exactly one envelope for the loan is on the eligibility queue
    and the verification queue is empty. *)
Theorem failed_send_is_retried
    (schedule : nat → option Error * (nat → DV.Outside))
    (o1 o2 : nat → DV.Outside) (m : Message) (body : Envelope)
    (i : Z) (l : Loan) (e : Error) (w : World) :
  docQueue w = [m] →
  Body m = Some body →
  action body = Some "VERIFY_DOCUMENTS" →
  loanId body = Some i →
  loans w !! i = Some l →
  schedule 0%nat = (None, o1) →
  schedule 1%nat = (None, o2) →
  (DV.random (o1 0%nat) < DV.passRate)%Q →
  DV.sendFault (o1 0%nat) = Some e →
  (DV.random (o2 0%nat) < DV.passRate)%Q →
  DV.sendFault (o2 0%nat) = None →
  DV.deleteFault (o2 0%nat) = None →
  let w1 := snd (pollRounds 1 0 schedule w) in
  let w2 := snd (pollRounds 2 0 schedule w) in
  (docQueue w1 = [m]
   ∧ eligibilityQueue w1 = eligibilityQueue w
   ∧ loans w1 !! i = Some (set_status VERIFIED l))
  ∧ (docQueue w2 = []
     ∧ eligibilityQueue w2 =
         eligibilityQueue w ++
           [mkEnvelope (Some i) (userId body) (Some "CHECK_ELIGIBILITY") (Some (now w))]
     ∧ loans w2 !! i = Some (set_status VERIFIED l)).
Proof.
  intros Hq Hb Ha Hi Hl H0 H1 Hr1 Hf1 Hr2 Hf2 Hd2 w1 w2. subst w1 w2.
  apply Qlt_bool_iff in Hr1. apply Qlt_bool_iff in Hr2.
  simpl. unfold mbind, M_bind, mret, M_ret. rewrite H0. simpl.
  rewrite (pollMessages_single o1 m w Hq).
  set (w0 := with_logs _ w).
  set (wa := snd (DV.handleMessage (o1 0%nat) m w0)).
  assert (Hqa : docQueue wa = [m]).
  { unfold wa. rewrite handleMessage_docQueue. unfold succeeds.
    rewrite Hb, Ha, Hi, Hr1, Hf1. simpl. exact Hq. }
  assert (Hea : eligibilityQueue wa = eligibilityQueue w).
  { unfold wa. rewrite (proj2 (handleMessage_tables _ _ _)).
    rewrite (processMessage_eligibilityQueue _ _ m body i w0 Hb Ha Hi), Hr1, Hf1.
    reflexivity. }
  assert (Hla : loans wa = alter (set_status VERIFIED) i (loans w)).
  { unfold wa. rewrite (proj1 (handleMessage_tables _ _ _)).
    rewrite (processMessage_loans _ _ m body i w0 Hb Ha Hi), Hr1. reflexivity. }
  assert (Hna : now wa = now w).
  { unfold wa.
    destruct (handleMessage_same_tables (o1 0%nat) m w0) as [(_ & _ & _ & Hn & _) _].
    exact Hn. }
  split.
  - simpl. split; [exact Hqa|]. split; [exact Hea|].
    rewrite Hla, lookup_alter_eq, Hl. reflexivity.
  - rewrite H1. simpl. rewrite (pollMessages_single o2 m wa Hqa). simpl.
    set (wb := with_logs _ wa).
    destruct (handleMessage_tables (o2 0%nat) m wb) as [HL HE].
    split; [|split].
    + rewrite handleMessage_docQueue. unfold succeeds.
      rewrite Hb, Ha, Hi, Hr2, Hf2, Hd2. simpl. rewrite Hqa. apply filter_out_single.
    + rewrite HE, (processMessage_eligibilityQueue _ _ m body i wb Hb Ha Hi), Hr2, Hf2.
      simpl. rewrite Hea, Hna. reflexivity.
    + rewrite HL, (processMessage_loans _ _ m body i wb Hb Ha Hi), Hr2.
      simpl. rewrite Hla, !lookup_alter_eq, Hl. reflexivity.
Qed.

Lemma failed_send_is_retried_witness :
  let w := worldWith (loanOf (Some (250000 # 1)) PENDING_VERIFICATION) [verifyMessage 1] in
  let w2 := snd (pollRounds 2 0 (failingOnce 0) w) in
  docQueue w2 = []
  ∧ eligibilityQueue w2 =
      [mkEnvelope (Some 1) (Some 7) (Some "CHECK_ELIGIBILITY") (Some (now w))]
  ∧ loans w2 !! 1 = Some (loanOf (Some (250000 # 1)) VERIFIED).
Proof.
  intros w w2.
  apply (failed_send_is_retried (failingOnce 0) (sendFails 0) (calm 0)
           (verifyMessage 1) (verifyEnvelope 1) 1
           (loanOf (Some (250000 # 1)) PENDING_VERIFICATION) boom w);
    reflexivity.
Defined.

(** ** The eligibility lambda on any batch *)

(** Each record ends in exactly one of the two arrays, under its own
    [messageId]; a record that ends in [failedRecords] has written
    nothing. *)
Lemma handleRecord_appends env o record arrays w :
  ∃ arrays',
    fst (EL.handleRecord env o record arrays w) = Return arrays'
    ∧ ((∃ i s, fst arrays' = fst arrays ++ [EL.processedRecord (EL.messageId record) i s]
               ∧ snd arrays' = snd arrays
               ∧ (s = APPROVED ∨ s = REJECTED))
       ∨ (∃ reason,
             fst arrays' = fst arrays
             ∧ snd arrays' = snd arrays ++ [EL.failedRecord (EL.messageId record) reason]
             ∧ loans (snd (EL.handleRecord env o record arrays w)) = loans w
             ∧ topic (snd (EL.handleRecord env o record arrays w)) = topic w)).
Proof.
  run_handleRecord.
  repeat inner_case; (eexists; split; [reflexivity|]);
    first [ right; eexists; repeat split; reflexivity
          | left; do 2 eexists; repeat split; first [left; reflexivity | right; reflexivity] ].
Qed.

Lemma handleRecord_same_tables env o record arrays w :
  let w' := snd (EL.handleRecord env o record arrays w) in
  same_tables [APPROVED; REJECTED] w w'
  ∧ docQueue w' = docQueue w
  ∧ eligibilityQueue w' = eligibilityQueue w.
Proof.
  run_handleRecord.
  repeat inner_case; (split; [|split; reflexivity]); repeat split; simpl;
    first [ apply only_status_written_refl
          | apply only_status_written_alter; set_solver ].
Qed.

Lemma handleRecord_publishes env o record arrays w :
  ∃ added,
    topic (snd (EL.handleRecord env o record arrays w)) = topic w ++ added
    ∧ (length added ≤ 1)%nat
    ∧ Forall (notifies_about record) added.
Proof.
  run_handleRecord.
  repeat inner_case.
  all: try (exists []; rewrite app_nil_r; split; [reflexivity|];
            split; [simpl; lia | constructor]).
  all: eexists; split; [reflexivity|]; split; [simpl; lia|].
  all: constructor; [|constructor].
  all: split; [reflexivity|]; eexists; repeat split; simpl;
    first [eassumption | symmetry; eassumption | reflexivity].
Qed.

Lemma forEachRecord_accounts env outside (records : list EL.SqsRecord) :
  ∀ (i : nat) arrays (w : World),
    ∃ arrays',
      fst (EL.forEachRecord env outside i records arrays w) = Return arrays'
      ∧ (processed_recordId <$> fst arrays') ++ (failed_recordId <$> snd arrays')
        ≡ₚ ((processed_recordId <$> fst arrays) ++ (failed_recordId <$> snd arrays))
           ++ (EL.messageId <$> records)
      ∧ (length (fst arrays) ≤ length (fst arrays'))%nat
      ∧ (length (fst arrays') = length (fst arrays) →
         loans (snd (EL.forEachRecord env outside i records arrays w)) = loans w
         ∧ topic (snd (EL.forEachRecord env outside i records arrays w)) = topic w).
Proof.
  induction records as [|record rest IH]; intros i arrays w; simpl.
  - exists arrays. rewrite app_nil_r. repeat split; reflexivity.
  - unfold mbind, M_bind.
    destruct (handleRecord_appends env (outside i) record arrays w)
      as (arrays1 & H1 & Hcase).
    destruct (EL.handleRecord env (outside i) record arrays w) as [c w1].
    simpl in H1, Hcase. subst c.
    destruct (IH (S i) arrays1 w1) as (arrays2 & H2 & Hperm & Hlen & Hsame).
    exists arrays2. split; [exact H2|].
    destruct Hcase as [(k & s & Hp & Hf & _) | (reason & Hp & Hf & Hl & Ht)].
    + split; [|split].
      * rewrite Hperm, Hp, Hf, fmap_app. simpl.
        rewrite <- !app_assoc. apply Permutation_app_head.
        simpl. apply Permutation_middle.
      * rewrite Hp, length_app in Hlen. simpl in Hlen. lia.
      * intros Heq. rewrite Hp, length_app in Hlen. simpl in Hlen. lia.
    + split; [|split].
      * rewrite Hperm, Hp, Hf, fmap_app. simpl.
        rewrite <- !app_assoc. reflexivity.
      * rewrite Hp in Hlen. exact Hlen.
      * intros Heq. rewrite Hp in Hsame.
        destruct (Hsame Heq) as [Hl2 Ht2]. split; congruence.
Qed.

Lemma forEachRecord_same_tables env outside (records : list EL.SqsRecord) :
  ∀ (i : nat) arrays (w : World),
    let w' := snd (EL.forEachRecord env outside i records arrays w) in
    same_tables [APPROVED; REJECTED] w w'
    ∧ docQueue w' = docQueue w
    ∧ eligibilityQueue w' = eligibilityQueue w.
Proof.
  induction records as [|record rest IH]; intros i arrays w; simpl.
  - split; [apply same_tables_refl | split; reflexivity].
  - unfold mbind, M_bind.
    destruct (handleRecord_returns env (outside i) record arrays w) as [arrays1 H1].
    pose proof (handleRecord_same_tables env (outside i) record arrays w)
      as (Hs & Hd & He).
    destruct (EL.handleRecord env (outside i) record arrays w) as [c w1].
    simpl in H1, Hs, Hd, He. subst c.
    destruct (IH (S i) arrays1 w1) as (Hs2 & Hd2 & He2).
    split; [eapply same_tables_trans; eassumption | split; congruence].
Qed.

Lemma forEachRecord_publishes env outside (records : list EL.SqsRecord) :
  ∀ (i : nat) arrays (w : World),
    ∃ added,
      topic (snd (EL.forEachRecord env outside i records arrays w)) = topic w ++ added
      ∧ (length added ≤ length records)%nat
      ∧ Forall (λ n, ∃ r, r ∈ records ∧ notifies_about r n) added.
Proof.
  induction records as [|record rest IH]; intros i arrays w; simpl.
  - exists []. rewrite app_nil_r. repeat split; [simpl; lia | constructor].
  - unfold mbind, M_bind.
    destruct (handleRecord_returns env (outside i) record arrays w) as [arrays1 H1].
    destruct (handleRecord_publishes env (outside i) record arrays w)
      as (a1 & E1 & L1 & F1).
    destruct (EL.handleRecord env (outside i) record arrays w) as [c w1].
    simpl in H1, E1. subst c.
    destruct (IH (S i) arrays1 w1) as (a2 & E2 & L2 & F2).
    exists (a1 ++ a2). split; [|split].
    + rewrite E2, E1, app_assoc. reflexivity.
    + rewrite length_app. lia.
    + apply Forall_app. split.
      * eapply Forall_impl; [exact F1|]. intros n Hn. exists record. split; [left|exact Hn].
      * eapply Forall_impl; [exact F2|]. intros n (r & Hin & Hn).
        exists r. split; [right; exact Hin | exact Hn].
Qed.

(** X9: every record of a batch is accounted for exactly once.  For any
    batch the handler answers 200 with the two counts equal to the lengths
    of the two lists, and the record ids of the processed entries together
    with those of the failed entries are the message ids of the batch. *)
Theorem handler_accounts_for_every_record env outside event w :
  ∃ processed failed,
    fst (EL.handler env outside event w) =
      Return (EL.mkResponse 200
                (EL.Completed "Eligibility check completed"
                   (length processed) (length failed) processed failed))
    ∧ (processed_recordId <$> processed) ++ (failed_recordId <$> failed)
      ≡ₚ EL.messageId <$> EL.Records event
    ∧ (length processed + length failed = length (EL.Records event))%nat.
Proof.
  unfold EL.handler, EL.getDbConnection. run_monad.
  match goal with
  | |- context [EL.forEachRecord ?e ?o ?i ?rs ?a ?w1] =>
      destruct (forEachRecord_accounts e o rs i a w1) as (arrays & H & Hperm & _);
      destruct (EL.forEachRecord e o i rs a w1) as [c w2]
  end.
  simpl in H, Hperm. subst c. simpl.
  exists (fst arrays), (snd arrays). split; [reflexivity|]. split; [exact Hperm|].
  apply Permutation_length in Hperm.
  rewrite length_app, !length_fmap in Hperm. exact Hperm.
Qed.

(** X10: a batch in which no record was processed has written nothing: when
    the answer lists no processed record, the [loans] table and the topic
    are as they were. *)
Theorem handler_without_processed_record_writes_nothing
    env outside event w (n : nat) (failed : list EL.FailedRecord) :
  fst (EL.handler env outside event w) =
    Return (EL.mkResponse 200
              (EL.Completed "Eligibility check completed" 0 n [] failed)) →
  loans (snd (EL.handler env outside event w)) = loans w
  ∧ topic (snd (EL.handler env outside event w)) = topic w.
Proof.
  unfold EL.handler, EL.getDbConnection. run_monad.
  match goal with
  | |- context [EL.forEachRecord ?e ?o ?i ?rs ?a ?w1] =>
      destruct (forEachRecord_accounts e o rs i a w1) as (arrays & H & _ & _ & Hsame);
      destruct (EL.forEachRecord e o i rs a w1) as [c w2]
  end.
  simpl in H, Hsame. subst c. simpl.
  intros [= Hlen _ Hp _]. apply Hsame. rewrite Hp. reflexivity.
Qed.

Lemma handler_without_processed_record_writes_nothing_witness :
  let w := worldWith (loanOf None VERIFIED) [] in
  loans (snd (EL.handler None (drawing 0 None)
                (EL.mkEvent [checkRecord 1; checkRecord 9]) w)) = loans w.
Proof.
  intros w.
  apply (handler_without_processed_record_writes_nothing None (drawing 0 None)
           (EL.mkEvent [checkRecord 1; checkRecord 9]) w 2
           [EL.failedRecord "msg-1" "Invalid loan amount";
            EL.failedRecord "msg-1" "Loan not found"]).
  vm_compute. reflexivity.
Defined.

(** X11: for any batch, the eligibility lambda creates and deletes no loan,
    changes no column but [status], writes no status other than APPROVED or
    REJECTED, and touches neither the [users] table nor the two queues. *)
Theorem handler_writes_only_status env outside event w :
  let w' := snd (EL.handler env outside event w) in
  same_tables [APPROVED; REJECTED] w w'
  ∧ docQueue w' = docQueue w
  ∧ eligibilityQueue w' = eligibilityQueue w.
Proof.
  unfold EL.handler, EL.getDbConnection. run_monad.
  match goal with
  | |- context [EL.forEachRecord ?e ?o ?i ?rs ?a ?w1] =>
      destruct (forEachRecord_returns e o rs i a w1) as [arrays H];
      pose proof (forEachRecord_same_tables e o rs i a w1) as Hs;
      destruct (EL.forEachRecord e o i rs a w1) as [c w2]
  end.
  simpl in H, Hs. subst c. simpl. exact Hs.
Qed.

(** X12: for any batch, the topic only grows, by at most one notification
    per record, and every notification published has status APPROVED and
    names the loan and the user of a record of the batch. *)
Theorem handler_publishes_only_approvals env outside event w :
  ∃ added,
    topic (snd (EL.handler env outside event w)) = topic w ++ added
    ∧ (length added ≤ length (EL.Records event))%nat
    ∧ Forall (λ n, ∃ r, r ∈ EL.Records event ∧ notifies_about r n) added.
Proof.
  unfold EL.handler, EL.getDbConnection. run_monad.
  match goal with
  | |- context [EL.forEachRecord ?e ?o ?i ?rs ?a ?w1] =>
      destruct (forEachRecord_returns e o rs i a w1) as [arrays H];
      destruct (forEachRecord_publishes e o rs i a w1) as (added & E & Hl & Hf);
      destruct (EL.forEachRecord e o i rs a w1) as [c w2]
  end.
  simpl in H, E. subst c. simpl.
  exists added. split; [exact E | split; assumption].
Qed.

(** ** The eligibility lambda on one record *)

Lemma handleRecord_processed_stored env o record arrays w arrays' id i s :
  fst (EL.handleRecord env o record arrays w) = Return arrays' →
  fst arrays' = fst arrays ++ [EL.processedRecord id i s] →
  ∃ k, i = Some k
       ∧ status <$> loans (snd (EL.handleRecord env o record arrays w)) !! k = Some s.
Proof.
  run_handleRecord.
  repeat inner_case; intros [= <-]; simpl; intros Hp.
  all: try (apply (f_equal length) in Hp; rewrite length_app in Hp; simpl in Hp; lia).
  all: apply app_inj_tail in Hp as [_ [= <- <- <-]].
  all: eexists; split; [reflexivity|].
  all: rewrite lookup_alter_eq.
  all: match goal with
       | H : option_list (loans ?w0 !! ?z) = _ :: _ |- _ =>
           destruct (loans w0 !! z); [reflexivity | discriminate]
       end.
Qed.

(** X13: what the handler reports is what it stored.  When the answer for
    a single record lists it as processed with a status, the record named a
    loan, and that loan's row now holds that status. *)
Theorem reported_status_is_stored env outside record w id i s :
  fst (EL.handler env outside (EL.mkEvent [record]) w) =
    Return (EL.mkResponse 200
              (EL.Completed "Eligibility check completed" 1 0
                 [EL.processedRecord id i s] [])) →
  ∃ k, i = Some k
       ∧ status <$> loans (snd (EL.handler env outside (EL.mkEvent [record]) w)) !! k
         = Some s.
Proof.
  rewrite handler_single. cbv zeta.
  set (w1 := with_logs _ (with_logs _ w)).
  pose proof (handleRecord_processed_stored env (outside 0%nat) record ([], []) w1) as Hst.
  destruct (EL.handleRecord env (outside 0%nat) record ([], []) w1) as [[arrays|e] w2];
    simpl in *; [|discriminate].
  intros [= _ _ Hp _].
  destruct (Hst arrays id i s eq_refl Hp) as (k & -> & Hk).
  exists k. split; [reflexivity | exact Hk].
Qed.

Lemma reported_status_is_stored_witness :
  let w := worldWith (loanOf (Some (250000 # 1)) VERIFIED) [] in
  ∃ k, Some 1 = Some k
       ∧ status <$> loans (snd (EL.handler None (drawing 0 None)
                                  (EL.mkEvent [checkRecord 1]) w)) !! k
         = Some APPROVED.
Proof.
  intros w.
  apply (reported_status_is_stored None (drawing 0 None) (checkRecord 1) w
           "msg-1" (Some 1) APPROVED).
  vm_compute. reflexivity.
Defined.

(** X14: why a record fails.  A body without a loanId, with loanId 0,
    without an action or with an empty action fails with 'Missing required
    fields: loanId, action'; another action fails with 'Unknown action: '
    followed by the action; a CHECK_ELIGIBILITY for a loan that has no row
    fails with 'Loan not found'.  In each case the handler answers 200 with
    the record as its only failed entry. *)
Theorem handler_failure_reasons env outside record body w :
  EL.body record = Some body →
  let failed_with (reason : string) : Prop :=
    fst (EL.handler env outside (EL.mkEvent [record]) w) =
      Return (EL.mkResponse 200
                (EL.Completed "Eligibility check completed" 0 1 []
                   [EL.failedRecord (EL.messageId record) reason])) in
  ((loanId body = None ∨ loanId body = Some 0
    ∨ action body = None ∨ action body = Some "") →
   failed_with "Missing required fields: loanId, action")
  ∧ (∀ i a, loanId body = Some i → i ≠ 0 →
            action body = Some a → a ≠ "" → a ≠ "CHECK_ELIGIBILITY" →
            failed_with ("Unknown action: " +:+ a))
  ∧ (∀ i, loanId body = Some i → i ≠ 0 →
          action body = Some "CHECK_ELIGIBILITY" →
          loans w !! i = None →
          failed_with "Loan not found").
Proof.
  intros Hb failed_with. subst failed_with. simpl.
  rewrite handler_single. run_handleRecord. rewrite Hb. simpl.
  split; [|split].
  - intros Hmiss.
    assert (Hfalsy : negb (truthy_id (loanId body))
                     || negb (truthy_string (action body)) = true).
    { destruct Hmiss as [-> | [-> | [-> | ->]]]; simpl;
        rewrite ?orb_true_r; reflexivity. }
    rewrite Hfalsy. reflexivity.
  - intros i a Hi Hnz Ha Hne Hck. rewrite Hi, Ha. simpl.
    rewrite (proj2 (Z.eqb_neq i 0) Hnz).
    rewrite (proj2 (String.eqb_neq a "") Hne).
    rewrite (proj2 (String.eqb_neq a "CHECK_ELIGIBILITY") Hck). reflexivity.
  - intros i Hi Hnz Ha Hnone. rewrite Hi, Ha. simpl.
    rewrite (proj2 (Z.eqb_neq i 0) Hnz). simpl. rewrite Hnone. reflexivity.
Qed.

Lemma handler_failure_reasons_witness :
  fst (EL.handler None (drawing 0 None)
         (EL.mkEvent [EL.mkSqsRecord "msg-1"
                        (Some (mkEnvelope (Some 0) (Some 7)
                                 (Some "CHECK_ELIGIBILITY") None))])
         (worldWithout [])) =
    Return (EL.mkResponse 200
              (EL.Completed "Eligibility check completed" 0 1 []
                 [EL.failedRecord "msg-1" "Missing required fields: loanId, action"])).
Proof.
  apply (proj1 (handler_failure_reasons None (drawing 0 None)
                  (EL.mkSqsRecord "msg-1"
                     (Some (mkEnvelope (Some 0) (Some 7)
                              (Some "CHECK_ELIGIBILITY") None)))
                  (mkEnvelope (Some 0) (Some 7) (Some "CHECK_ELIGIBILITY") None)
                  (worldWithout []) eq_refl)).
  right. left. reflexivity.
Defined.

(** X16: what [calculateEligibility] decides.  It never touches the world.
    It throws 'Invalid loan amount' exactly when the amount is missing or
    not positive; otherwise it answers eligible exactly when the draw is
    under the approval rate and the amount under the ceiling, with the
    approval reason exactly when eligible and the threshold reason exactly
    when the amount is at or above the ceiling. *)
Theorem calculateEligibility_decides (random : Q) (amount : option Q) (w : World) :
  snd (EL.calculateEligibility random amount w) = w
  ∧ match fst (EL.calculateEligibility random amount w) with
    | Throw e =>
        message e = "Invalid loan amount"
        ∧ (amount = None ∨ ∃ a, amount = Some a ∧ (a <= 0)%Q)
    | Return r =>
        ∃ a, amount = Some a
             ∧ (0 < a)%Q
             ∧ (EL.eligible r = true ↔ (random < EL.approvalRate)%Q ∧ (a < EL.ceiling)%Q)
             ∧ (EL.reason r = "Approved based on eligibility rules"
                ↔ EL.eligible r = true)
             ∧ (EL.reason r = "Loan amount exceeds maximum threshold"
                ↔ (EL.ceiling <= a)%Q)
    end.
Proof.
  destruct amount as [a|].
  - destruct (Qlt_le_dec 0 a) as [Hpos|Hle].
    + rewrite calculateEligibility_valid by exact Hpos. simpl.
      split; [reflexivity|]. exists a. split; [reflexivity|]. split; [exact Hpos|].
      split; [|split].
      * rewrite andb_true_iff, !Qlt_bool_iff. reflexivity.
      * destruct (Qlt_bool random EL.approvalRate && Qlt_bool a EL.ceiling);
          [split; reflexivity|].
        destruct (Qle_bool EL.ceiling a); split; discriminate.
      * destruct (Qlt_bool random EL.approvalRate && Qlt_bool a EL.ceiling) eqn:E.
        -- apply andb_true_iff in E as [_ E]. apply Qlt_bool_iff in E.
           split; [discriminate|]. intros Hge. exfalso. exact (Qlt_not_le _ _ E Hge).
        -- destruct (Qle_bool EL.ceiling a) eqn:E2.
           ++ apply Qle_bool_iff in E2. split; [intros _; exact E2 | reflexivity].
           ++ split; [discriminate|]. intros Hge. apply Qle_bool_iff in Hge. congruence.
    + rewrite calculateEligibility_invalid by exact Hle. simpl.
      split; [reflexivity|]. split; [reflexivity|]. right. exists a. split; [reflexivity|exact Hle].
  - rewrite calculateEligibility_invalid by exact I. simpl.
    split; [reflexivity|]. split; [reflexivity|]. left. reflexivity.
Qed.

(** ** The loan service: validation, identifiers and the whole pipeline *)

Ltac run_postLoans :=
  unfold LS.postLoans, LS.createLoan, LS.select_user, LS.insert_loan,
    LS.sendSQSMessage, LS.sendMessage, LS.errorHandler;
  run_monad.

Lemma Qle_bool_false_lt (a : Q) : Qle_bool a 0 = false ↔ (0 < a)%Q.
Proof.
  split.
  - intros H. apply Qnot_le_lt. intros Hle. apply Qle_bool_iff in Hle. congruence.
  - intros H. destruct (Qle_bool a 0) eqn:E; [|reflexivity].
    apply Qle_bool_iff in E. exfalso. exact (Qlt_not_le _ _ H E).
Qed.

(** X17: creating a loan never disturbs the loans that exist.  When every
    key of the table is below the AUTO_INCREMENT value, then after
    [POST /loans], whatever the body and whether or not the send rejects,
    this is still so, every row that was there is unchanged, the [users]
    table is unchanged, and the counter has moved by at most one. *)
Theorem postLoans_keeps_existing_rows sendFault (b : LS.RequestBody) (w : World) :
  ids_below_next w →
  let w' := snd (LS.postLoans sendFault b w) in
  ids_below_next w'
  ∧ (∀ j l, loans w !! j = Some l → loans w' !! j = Some l)
  ∧ users w' = users w
  ∧ nextLoanId w ≤ nextLoanId w' ≤ nextLoanId w + 1.
Proof.
  intros Hinv. run_postLoans.
  destruct (LS.createLoanSchema b) as [e|v]; simpl.
  { repeat split; [exact Hinv | auto | lia | lia]. }
  destruct (bool_decide (LS.v_userId v ∈ users w)); simpl.
  2: { repeat split; [exact Hinv | auto | lia | lia]. }
  assert (Hfresh : ∀ j l, loans w !! j = Some l → nextLoanId w ≠ j).
  { intros j l Hj Heq. specialize (Hinv j l Hj). lia. }
  assert (Hnew : ∀ j l row,
             <[nextLoanId w := row]> (loans w) !! j = Some l → j < nextLoanId w + 1).
  { intros j l row Hj. destruct (decide (nextLoanId w = j)) as [<-|Hne]; [lia|].
    rewrite lookup_insert_ne in Hj by exact Hne. specialize (Hinv j l Hj). lia. }
  destruct sendFault as [e|]; simpl; repeat split; try lia.
  - intros j l Hj. simpl in Hj. exact (Hnew j l _ Hj).
  - intros j l Hj. rewrite lookup_insert_ne by exact (Hfresh j l Hj). exact Hj.
  - intros j l Hj. simpl in Hj. exact (Hnew j l _ Hj).
  - intros j l Hj. rewrite lookup_insert_ne by exact (Hfresh j l Hj). exact Hj.
Qed.

Lemma postLoans_keeps_existing_rows_witness :
  let w := worldWith (loanOf (Some (250000 # 1)) APPROVED) [] in
  loans (snd (LS.postLoans None (loanRequest 7) w)) !! 1 =
    Some (loanOf (Some (250000 # 1)) APPROVED).
Proof.
  intros w.
  assert (Hinv : ids_below_next w).
  { intros j l Hj. destruct (decide (j = 1)) as [->|Hne]; [reflexivity|].
    unfold w, worldWith in Hj. simpl in Hj.
    rewrite lookup_singleton_ne in Hj by congruence. discriminate. }
  exact (proj1 (proj2 (postLoans_keeps_existing_rows None (loanRequest 7) w Hinv))
           1 _ eq_refl).
Defined.

Lemma createLoanSchema_positive (b : LS.RequestBody) (v : LS.ValidatedBody) :
  LS.createLoanSchema b = inr v → (0 < LS.v_loanAmount v)%Q.
Proof.
  unfold LS.createLoanSchema.
  destruct (LS.userId b); [|discriminate].
  destruct (LS.loanAmount b) as [a|]; [|discriminate].
  destruct (Qle_bool a 0) eqn:Ea; [discriminate|].
  destruct (LS.propertyAddress b) as [p|]; [|discriminate].
  destruct (String.eqb p ""); [discriminate|].
  intros [= <-]. simpl. apply Qle_bool_false_lt. exact Ea.
Qed.

(** What an accepted [POST /loans] for an existing user leaves behind when
    the send goes through. *)
Lemma postLoans_sent (b : LS.RequestBody) (v : LS.ValidatedBody) (w : World) :
  LS.createLoanSchema b = inr v →
  LS.v_userId v ∈ users w →
  let w1 := snd (LS.postLoans None b w) in
  loans w1 =
    <[nextLoanId w := mkLoan (nextLoanId w) (LS.v_userId v) (Some (LS.v_loanAmount v))
                        (LS.v_propertyAddress v) PENDING_VERIFICATION]> (loans w)
  ∧ docQueue w1 =
      docQueue w ++
        [mkMessage (nextHandle w)
           (Some (mkEnvelope (Some (nextLoanId w)) (Some (LS.v_userId v))
                    (Some "VERIFY_DOCUMENTS") (Some (now w))))]
  ∧ eligibilityQueue w1 = eligibilityQueue w
  ∧ now w1 = now w.
Proof.
  intros Hv Hin. run_postLoans. rewrite Hv. simpl.
  rewrite (bool_decide_eq_true_2 _ Hin). simpl. repeat split.
Qed.

(** X18: the pipeline end to end, when nothing rejects.  Before the
    request the verification queue is empty and the next loan id is not 0.
    A valid request for an existing user, with an amount under the ceiling
    and a send to the verification queue that goes through, is created as
    PENDING_VERIFICATION.  A round of the verification worker whose
    receive, send and delete go through, with a passing draw, moves the
    loan to VERIFIED, empties the verification queue and puts one
    CHECK_ELIGIBILITY envelope for the new loan on the eligibility queue.
    The eligibility lambda, given a batch of that one envelope and an
    approving draw, moves the loan to APPROVED.  The other columns of the
    row are as requested throughout. *)
Theorem pipeline_end_to_end
    (env : option string) (outsideV : nat → DV.Outside) (outsideE : nat → EL.Outside)
    (b : LS.RequestBody) (v : LS.ValidatedBody) (messageId : string) (w : World) :
  LS.createLoanSchema b = inr v →
  LS.v_userId v ∈ users w →
  docQueue w = [] →
  nextLoanId w ≠ 0 →
  (LS.v_loanAmount v < EL.ceiling)%Q →
  (DV.random (outsideV 0%nat) < DV.passRate)%Q →
  DV.sendFault (outsideV 0%nat) = None →
  DV.deleteFault (outsideV 0%nat) = None →
  (EL.random (outsideE 0%nat) < EL.approvalRate)%Q →
  let id := nextLoanId w in
  let row := mkLoan id (LS.v_userId v) (Some (LS.v_loanAmount v))
               (LS.v_propertyAddress v) in
  let forwarded := mkEnvelope (Some id) (Some (LS.v_userId v))
                     (Some "CHECK_ELIGIBILITY") (Some (now w)) in
  let w1 := snd (LS.postLoans None b w) in
  let w2 := snd (DV.pollMessages None outsideV w1) in
  let w3 := snd (EL.handler env outsideE
                   (EL.mkEvent [EL.mkSqsRecord messageId (Some forwarded)]) w2) in
  loans w1 !! id = Some (row PENDING_VERIFICATION)
  ∧ loans w2 !! id = Some (row VERIFIED)
  ∧ docQueue w2 = []
  ∧ eligibilityQueue w2 = eligibilityQueue w ++ [forwarded]
  ∧ loans w3 !! id = Some (row APPROVED).
Proof.
  intros Hv Hin Hq Hnz Hceil Hr Hs Hd Hre id row forwarded w1 w2 w3.
  apply Qlt_bool_iff in Hr.
  pose proof (createLoanSchema_positive b v Hv) as Hpos.
  destruct (postLoans_sent b v w Hv Hin) as (HL1 & HQ1 & HE1 & HN1).
  fold w1 in HL1, HQ1, HE1, HN1. rewrite Hq in HQ1. simpl in HQ1.
  set (m := mkMessage (nextHandle w) _) in HQ1.
  assert (H1 : loans w1 !! id = Some (row PENDING_VERIFICATION)).
  { rewrite HL1. apply lookup_insert_eq. }
  assert (Hw2 : w2 = snd (DV.handleMessage (outsideV 0%nat) m
                        (with_logs (λ ls, ls ++ [(Info, ReceivedMessages 1)]) w1))).
  { unfold w2. rewrite (pollMessages_single outsideV m w1 HQ1). reflexivity. }
  set (w1' := with_logs _ w1) in Hw2.
  destruct (handleMessage_tables (outsideV 0%nat) m w1') as [HL HE].
  assert (H2 : loans w2 !! id = Some (row VERIFIED)).
  { rewrite Hw2, HL.
    rewrite (processMessage_loans _ _ m _ id w1' eq_refl eq_refl eq_refl), Hr.
    simpl. rewrite lookup_alter_eq, H1. reflexivity. }
  assert (H3 : docQueue w2 = []).
  { rewrite Hw2, handleMessage_docQueue. unfold succeeds. simpl.
    rewrite Hr, Hs, Hd. simpl. rewrite HQ1. apply filter_out_single. }
  assert (H4 : eligibilityQueue w2 = eligibilityQueue w ++ [forwarded]).
  { rewrite Hw2, HE.
    rewrite (processMessage_eligibilityQueue _ _ m _ id w1' eq_refl eq_refl eq_refl).
    rewrite Hr, Hs. simpl. rewrite HE1, HN1. reflexivity. }
  repeat split; try assumption.
  destruct (handler_single_decides env outsideE
              (EL.mkSqsRecord messageId (Some forwarded)) forwarded id
              (row VERIFIED) (LS.v_loanAmount v) w2
              eq_refl eq_refl eq_refl Hnz H2 eq_refl Hpos) as (_ & HL3 & _).
  apply Qlt_bool_iff in Hre. apply Qlt_bool_iff in Hceil.
  rewrite Hre, Hceil in HL3. simpl in HL3.
  unfold w3. rewrite HL3, lookup_alter_eq, H2. reflexivity.
Qed.

Lemma pipeline_end_to_end_witness :
  let w := worldWith (loanOf (Some (250000 # 1)) APPROVED) [] in
  let w1 := snd (LS.postLoans None (loanRequest 7) w) in
  let w2 := snd (DV.pollMessages None (calm 0) w1) in
  let w3 := snd (EL.handler None (drawing 0 None)
                   (EL.mkEvent [EL.mkSqsRecord "msg-2"
                                  (Some (mkEnvelope (Some 2) (Some 7)
                                           (Some "CHECK_ELIGIBILITY") (Some (now w))))])
                   w2) in
  loans w3 !! 2 = Some (mkLoan 2 7 (Some (100000 # 1)) "123 Main St" APPROVED).
Proof.
  intros w w1 w2 w3.
  apply (pipeline_end_to_end None (calm 0) (drawing 0 None) (loanRequest 7)
           (LS.mkValidatedBody 7 (100000 # 1) "123 Main St") "msg-2" w).
  - reflexivity.
  - vm_compute. reflexivity.
  - reflexivity.
  - simpl. lia.
  - reflexivity.
  - reflexivity.
  - reflexivity.
  - reflexivity.
  - reflexivity.
Defined.

(** ** The other routes of the loan service *)

Ltac run_routes :=
  unfold LR.getLoan, LR.putLoan, LR.updateLoan, LR.deleteLoan,
    LR.select_by_id, LR.catch, LR.logger, LR.read_loans, LR.write_loans,
    LR.errorHandler, LR.invalid_id, mbind, LR.R_bind, mret, LR.R_ret in *;
  simpl in *.

(** X19: [DELETE /loans/:id] removes that row and nothing else.  An id that
    is empty or not a number is answered 400; an id that matches no row is
    answered 404; in both cases the table is unchanged.  An id that matches
    a row is answered 200 and the table is the old one without that row.
    The rest of the world is never touched. *)
Theorem deleteLoan_removes_only_that_row
    (isNaN : string → bool) (rowOf : string → option Z) (id : string) (s : LR.Service) :
  let out := LR.deleteLoan isNaN rowOf id s in
  (LR.invalid_id isNaN id = true →
   fst out = Return (LR.mkResponse 400 (LR.error_only "Invalid loan ID"))
   ∧ LR.db (snd out) = LR.db s)
  ∧ (LR.invalid_id isNaN id = false →
     (rowOf id ≫= λ k, loans (LR.db s) !! k) = None →
     fst out = Return (LR.mkResponse 404 (LR.error_only "Loan not found"))
     ∧ LR.db (snd out) = LR.db s)
  ∧ (LR.invalid_id isNaN id = false →
     ∀ k l, rowOf id = Some k → loans (LR.db s) !! k = Some l →
     fst out = Return (LR.mkResponse 200 (LR.message_only "Loan deleted successfully"))
     ∧ LR.db (snd out) = with_loans (delete k) (LR.db s)).
Proof.
  intros out. subst out. split; [|split].
  - intros Hinv. run_routes. rewrite Hinv. split; reflexivity.
  - intros Hinv Hnone. run_routes. rewrite Hinv. simpl. rewrite Hnone.
    split; reflexivity.
  - intros Hinv k l Hk Hl. run_routes. rewrite Hinv. simpl. rewrite Hk. simpl.
    rewrite Hl. split; reflexivity.
Qed.

Lemma deleteLoan_removes_only_that_row_witness :
  let s := serving (worldWith (loanOf (Some (250000 # 1)) APPROVED) []) in
  let out := LR.deleteLoan sampleIsNaN sampleRowOf "1" s in
  fst out = Return (LR.mkResponse 200 (LR.message_only "Loan deleted successfully"))
  ∧ LR.db (snd out) = with_loans (delete 1) (LR.db s).
Proof.
  intros s out.
  apply (proj2 (proj2 (deleteLoan_removes_only_that_row sampleIsNaN sampleRowOf "1" s))
           eq_refl 1 (loanOf (Some (250000 # 1)) APPROVED) eq_refl eq_refl).
Defined.

(** X20: a deleted loan is gone.  After a DELETE that was answered 200, a
    GET of the same id and a second DELETE of it are both answered 404. *)
Theorem deleted_loan_is_gone
    (isNaN : string → bool) (rowOf : string → option Z) (id : string) (s : LR.Service) :
  fst (LR.deleteLoan isNaN rowOf id s) =
    Return (LR.mkResponse 200 (LR.message_only "Loan deleted successfully")) →
  let s' := snd (LR.deleteLoan isNaN rowOf id s) in
  fst (LR.getLoan isNaN rowOf id s') =
    Return (LR.mkResponse 404 (LR.error_only "Loan not found"))
  ∧ fst (LR.deleteLoan isNaN rowOf id s') =
      Return (LR.mkResponse 404 (LR.error_only "Loan not found")).
Proof.
  run_routes.
  destruct (String.eqb id "" || isNaN id) eqn:Hinv; simpl; [discriminate|].
  destruct (rowOf id) as [k|] eqn:Hk; simpl; [|discriminate].
  destruct (loans (LR.db s) !! k) as [l|] eqn:Hl; simpl; [|discriminate].
  intros _. simpl. rewrite lookup_delete_eq. simpl.
  split; reflexivity.
Qed.

Lemma deleted_loan_is_gone_witness :
  let s := serving (worldWith (loanOf (Some (250000 # 1)) APPROVED) []) in
  let s' := snd (LR.deleteLoan sampleIsNaN sampleRowOf "1" s) in
  fst (LR.getLoan sampleIsNaN sampleRowOf "1" s') =
    Return (LR.mkResponse 404 (LR.error_only "Loan not found")).
Proof.
  intros s s'.
  apply (deleted_loan_is_gone sampleIsNaN sampleRowOf "1" s). reflexivity.
Defined.

Lemma only_details_written_refl (m : gmap Z Loan) : only_details_written m m.
Proof.
  intros i. destruct (m !! i); constructor. repeat split.
Qed.

(** X21: [PUT /loans/:id] can change the amount and the address of a loan
    and nothing else.  Whatever the id and the body, after the request the
    table has the same keys, every row has the [id], [userId] and [status]
    it had, and the rest of the world is unchanged. *)
Theorem putLoan_changes_only_details
    (isNaN : string → bool) (rowOf : string → option Z) (id : string)
    (b : LR.UpdateBody) (s : LR.Service) :
  let w := LR.db s in
  let w' := LR.db (snd (LR.putLoan isNaN rowOf id b s)) in
  only_details_written (loans w) (loans w')
  ∧ users w' = users w
  ∧ docQueue w' = docQueue w
  ∧ eligibilityQueue w' = eligibilityQueue w
  ∧ topic w' = topic w
  ∧ nextLoanId w' = nextLoanId w.
Proof.
  run_routes.
  destruct (LR.updateLoanSchema b) as [e|v]; simpl;
    [repeat split; apply only_details_written_refl|].
  destruct (String.eqb id "" || isNaN id); simpl;
    [repeat split; apply only_details_written_refl|].
  destruct (Nat.eqb _ 0); simpl; [repeat split; apply only_details_written_refl|].
  destruct (rowOf id) as [k|]; simpl; [|repeat split; apply only_details_written_refl].
  repeat split. intros j. simpl.
  destruct (decide (k = j)) as [->|Hne].
  - rewrite lookup_alter_eq. destruct (loans (LR.db s) !! j) as [l|]; constructor.
    destruct l. repeat split.
  - rewrite lookup_alter_ne by exact Hne. apply only_details_written_refl.
Qed.

(** X22: two answers of [PUT /loans/:id] that do not change anything.  The
    empty body passes the schema and is answered 400 'No fields to
    update'.  A body with a field, for an id that matches no row, is
    answered 200 'Loan updated successfully': the route does not check that
    the loan exists. *)
Theorem putLoan_without_effect
    (isNaN : string → bool) (rowOf : string → option Z) (id : string)
    (b : LR.UpdateBody) (s : LR.Service) :
  LR.invalid_id isNaN id = false →
  (fst (LR.putLoan isNaN rowOf id (LR.mkUpdateBody None None) s) =
     Return (LR.mkResponse 400 (LR.error_only "No fields to update"))
   ∧ LR.db (snd (LR.putLoan isNaN rowOf id (LR.mkUpdateBody None None) s)) = LR.db s)
  ∧ (LR.updateLoanSchema b = inr b →
     (LR.loanAmount b ≠ None ∨ LR.propertyAddress b ≠ None) →
     (rowOf id ≫= λ k, loans (LR.db s) !! k) = None →
     fst (LR.putLoan isNaN rowOf id b s) =
       Return (LR.mkResponse 200 (LR.message_only "Loan updated successfully"))
     ∧ loans (LR.db (snd (LR.putLoan isNaN rowOf id b s))) = loans (LR.db s)).
Proof.
  intros Hinv. split.
  - run_routes. rewrite Hinv. split; reflexivity.
  - intros Hv Hfield Hnone. run_routes. rewrite Hv, Hinv. simpl.
    assert (Hlen : Nat.eqb (length (match LR.loanAmount b with
                                    | Some _ => ["loanAmount = ?"]
                                    | None => []
                                    end ++
                                    match LR.propertyAddress b with
                                    | Some _ => ["propertyAddress = ?"]
                                    | None => []
                                    end)) 0 = false).
    { destruct (LR.loanAmount b), (LR.propertyAddress b); try reflexivity.
      destruct Hfield as [H|H]; contradiction. }
    rewrite Hlen. simpl.
    destruct (rowOf id) as [k|]; simpl; [|split; reflexivity].
    simpl in Hnone. split; [reflexivity|]. simpl.
    apply map_eq. intros j. destruct (decide (k = j)) as [->|Hne].
    + rewrite lookup_alter_eq, Hnone. reflexivity.
    + rewrite lookup_alter_ne by exact Hne. reflexivity.
Qed.

Lemma putLoan_without_effect_witness :
  let s := serving (worldWith (loanOf (Some (250000 # 1)) APPROVED) []) in
  let b := LR.mkUpdateBody (Some (300000 # 1)) None in
  fst (LR.putLoan sampleIsNaN sampleRowOf "2" b s) =
    Return (LR.mkResponse 200 (LR.message_only "Loan updated successfully"))
  ∧ loans (LR.db (snd (LR.putLoan sampleIsNaN sampleRowOf "2" b s))) = loans (LR.db s).
Proof.
  intros s b.
  apply (proj2 (putLoan_without_effect sampleIsNaN sampleRowOf "2" b s eq_refl)).
  - reflexivity.
  - left. discriminate.
  - reflexivity.
Defined.

(** X23: what is written by PUT is read back by GET.  For an id that
    matches a row and a body that passes the schema with at least one
    field, the PUT is answered 200 and a GET of the same id returns the row
    with the given fields replaced, the other fields and the status as they
    were. *)
Theorem put_then_get
    (isNaN : string → bool) (rowOf : string → option Z) (id : string)
    (b : LR.UpdateBody) (k : Z) (l : Loan) (s : LR.Service) :
  LR.invalid_id isNaN id = false →
  rowOf id = Some k →
  loans (LR.db s) !! k = Some l →
  LR.updateLoanSchema b = inr b →
  (LR.loanAmount b ≠ None ∨ LR.propertyAddress b ≠ None) →
  fst (LR.putLoan isNaN rowOf id b s) =
    Return (LR.mkResponse 200 (LR.message_only "Loan updated successfully"))
  ∧ fst (LR.getLoan isNaN rowOf id (snd (LR.putLoan isNaN rowOf id b s))) =
      Return (LR.mkResponse 200
                (LR.row (mkLoan (loan_id l) (loan_userId l)
                           (match LR.loanAmount b with
                            | Some a => Some a
                            | None => loanAmount l
                            end)
                           (match LR.propertyAddress b with
                            | Some p => p
                            | None => propertyAddress l
                            end)
                           (status l)))).
Proof.
  intros Hinv Hk Hl Hv Hfield. run_routes. rewrite Hv, Hinv. simpl.
  assert (Hlen : Nat.eqb (length (match LR.loanAmount b with
                                  | Some _ => ["loanAmount = ?"]
                                  | None => []
                                  end ++
                                  match LR.propertyAddress b with
                                  | Some _ => ["propertyAddress = ?"]
                                  | None => []
                                  end)) 0 = false).
  { destruct (LR.loanAmount b), (LR.propertyAddress b); try reflexivity.
    destruct Hfield as [H|H]; contradiction. }
  rewrite Hlen. simpl. rewrite Hk. simpl.
  rewrite lookup_alter_eq, Hl. simpl. destruct l. split; reflexivity.
Qed.

Lemma put_then_get_witness :
  let s := serving (worldWith (loanOf (Some (250000 # 1)) APPROVED) []) in
  let b := LR.mkUpdateBody (Some (300000 # 1)) None in
  fst (LR.getLoan sampleIsNaN sampleRowOf "1"
         (snd (LR.putLoan sampleIsNaN sampleRowOf "1" b s))) =
    Return (LR.mkResponse 200 (LR.row (loanOf (Some (300000 # 1)) APPROVED))).
Proof.
  intros s b.
  apply (put_then_get sampleIsNaN sampleRowOf "1" b 1
           (loanOf (Some (250000 # 1)) APPROVED) s).
  - reflexivity.
  - reflexivity.
  - reflexivity.
  - reflexivity.
  - left. discriminate.
Defined.

(** X24: what is created by POST is read back by GET.  After a
    [POST /loans] that was accepted for an existing user, whether or not
    the send rejected, a GET with an id that denotes the new loanId returns
    the row as requested, in PENDING_VERIFICATION. *)
Theorem post_then_get
    (isNaN : string → bool) (rowOf : string → option Z) (id : string)
    (sendFault : option Error) (b : LS.RequestBody) (v : LS.ValidatedBody)
    (output : list (Level * LR.RouteLine)) (w : World) :
  LS.createLoanSchema b = inr v →
  LS.v_userId v ∈ users w →
  LR.invalid_id isNaN id = false →
  rowOf id = Some (nextLoanId w) →
  fst (LR.getLoan isNaN rowOf id
         (LR.mkService (snd (LS.postLoans sendFault b w)) output)) =
    Return (LR.mkResponse 200
              (LR.row (mkLoan (nextLoanId w) (LS.v_userId v)
                         (Some (LS.v_loanAmount v)) (LS.v_propertyAddress v)
                         PENDING_VERIFICATION))).
Proof.
  intros Hv Hin Hinv Hk. run_routes. rewrite Hinv, Hk. simpl.
  run_postLoans. rewrite Hv. simpl. rewrite (bool_decide_eq_true_2 _ Hin). simpl.
  destruct sendFault; simpl; rewrite lookup_insert_eq; reflexivity.
Qed.

Lemma post_then_get_witness :
  let w := worldWith (loanOf (Some (250000 # 1)) APPROVED) [] in
  fst (LR.getLoan sampleIsNaN sampleRowOf "2"
         (LR.mkService (snd (LS.postLoans (Some boom) (loanRequest 7) w)) [])) =
    Return (LR.mkResponse 200
              (LR.row (mkLoan 2 7 (Some (100000 # 1)) "123 Main St"
                         PENDING_VERIFICATION))).
Proof.
  intros w.
  apply (post_then_get sampleIsNaN sampleRowOf "2" (Some boom) (loanRequest 7)
           (LS.mkValidatedBody 7 (100000 # 1) "123 Main St") [] w).
  - reflexivity.
  - vm_compute. reflexivity.
  - reflexivity.
  - reflexivity.
Defined.

(** ** [authenticateToken] *)

Lemma split_free (sep : Ascii.ascii) (s : string) :
  free_of sep s = true → LR.split sep s = [s].
Proof.
  induction s as [|c rest IH]; simpl; [reflexivity|].
  intros H. apply andb_true_iff in H as [Hc Hrest].
  apply negb_true_iff in Hc. rewrite Hc, (IH Hrest). reflexivity.
Qed.

Lemma split_app (sep : Ascii.ascii) (a b : string) :
  free_of sep a = true →
  LR.split sep (a +:+ String sep b) = a :: LR.split sep b.
Proof.
  induction a as [|c rest IH]; simpl.
  - intros _. rewrite Ascii.eqb_refl. reflexivity.
  - intros H. apply andb_true_iff in H as [Hc Hrest].
    apply negb_true_iff in Hc. rewrite Hc, (IH Hrest). reflexivity.
Qed.

(** X25: without a second piece there is no token.  A request without an
    Authorization header, or with a header that has no space in it, is
    answered 401 'No token provided', whatever [jwt.verify] would say. *)
Theorem authenticateToken_needs_two_pieces
    {User : Type} (verify : string → option User) (authorization : option string) :
  (authorization = None
   ∨ ∃ h, authorization = Some h ∧ free_of Ascii.Space h = true) →
  LR.authenticateToken verify authorization =
    inl (LR.mkResponse 401 (LR.error_only "No token provided")).
Proof.
  intros [-> | (h & -> & Hfree)]; [reflexivity|].
  unfold LR.authenticateToken, LR.token_of.
  destruct (String.eqb h ""); [reflexivity|].
  rewrite (split_free _ _ Hfree). reflexivity.
Qed.

Lemma authenticateToken_needs_two_pieces_witness :
  LR.authenticateToken sampleVerify (Some "good") =
    inl (LR.mkResponse 401 (LR.error_only "No token provided")).
Proof.
  apply (authenticateToken_needs_two_pieces sampleVerify (Some "good")).
  right. exists "good". split; reflexivity.
Defined.

(** X26: only the second piece of the header counts.  For a header made of
    a first word without a space, a space, and a token without a space that
    is not empty, possibly followed by a space and anything, the request is
    let through exactly when [jwt.verify] accepts the token, and is
    answered 403 'Invalid token' otherwise.  The first word is not looked
    at: it need not be 'Bearer'. *)
Theorem authenticateToken_reads_second_piece
    {User : Type} (verify : string → option User) (scheme token rest : string) :
  free_of Ascii.Space scheme = true →
  free_of Ascii.Space token = true →
  token ≠ "" →
  let decided :=
    match verify token with
    | Some user => inr user
    | None => inl (LR.mkResponse 403 (LR.error_only "Invalid token"))
    end in
  LR.authenticateToken verify (Some (scheme +:+ String Ascii.Space token)) = decided
  ∧ LR.authenticateToken verify
      (Some (scheme +:+ String Ascii.Space (token +:+ String Ascii.Space rest)))
    = decided.
Proof.
  intros Hs Ht Hne decided. subst decided.
  assert (Hnonempty : ∀ tail, String.eqb (scheme +:+ String Ascii.Space tail) "" = false).
  { intros tail. destruct scheme; reflexivity. }
  assert (Htruthy : negb (String.eqb token "") = true).
  { apply negb_true_iff, String.eqb_neq. exact Hne. }
  unfold LR.authenticateToken, LR.token_of. rewrite !Hnonempty.
  rewrite !(split_app _ scheme _ Hs).
  rewrite (split_free _ token Ht), (split_app _ token rest Ht). simpl.
  rewrite Htruthy. simpl. split; reflexivity.
Qed.

Lemma authenticateToken_reads_second_piece_witness :
  LR.authenticateToken sampleVerify (Some "Basic good") = inr 7.
Proof.
  apply (authenticateToken_reads_second_piece sampleVerify "Basic" "good" "").
  - reflexivity.
  - reflexivity.
  - discriminate.
Defined.

(** * The eligibility lambda, record by record in any batch *)

Lemma forEachRecord_app env outside (pre post : list EL.SqsRecord) :
  ∀ (i : nat) arrays (w : World),
    EL.forEachRecord env outside i (pre ++ post) arrays w =
      match EL.forEachRecord env outside i pre arrays w with
      | (Return arrays1, w1) =>
          EL.forEachRecord env outside (i + length pre)%nat post arrays1 w1
      | (Throw e, w1) => (Throw e, w1)
      end.
Proof.
  induction pre as [|record pre IH]; intros i arrays w; simpl.
  - rewrite Nat.add_0_r. reflexivity.
  - unfold mbind, M_bind.
    destruct (EL.handleRecord env (outside i) record arrays w) as [[arrays1|e] w1];
      [|reflexivity].
    rewrite IH. replace (S i + length pre)%nat with (i + S (length pre))%nat by lia.
    reflexivity.
Qed.

(** The handler is the loop over the records between the entry and the
    closing of the connection. *)
Lemma handler_loop env outside event w :
  ∃ arrays,
    fst (EL.forEachRecord env outside 0 (EL.Records event) ([], []) (entered event w))
      = Return arrays
    ∧ EL.handler env outside event w =
        (Return (EL.mkResponse 200
                   (EL.Completed "Eligibility check completed"
                      (length (fst arrays)) (length (snd arrays))
                      (fst arrays) (snd arrays))),
         with_logs (λ ls, ls ++ [(Info, ConnectionClosed)])
           (snd (EL.forEachRecord env outside 0 (EL.Records event) ([], [])
                   (entered event w)))).
Proof.
  unfold EL.handler, EL.getDbConnection, entered. run_monad.
  match goal with
  | |- context [EL.forEachRecord ?e ?o ?i ?rs ?a ?w1] =>
      destruct (forEachRecord_returns e o rs i a w1) as [arrays H];
      destruct (EL.forEachRecord e o i rs a w1) as [c w2]
  end.
  simpl in H. subst c. exists arrays. split; reflexivity.
Qed.

(** What one record does: it fails and writes nothing, or it is a
    CHECK_ELIGIBILITY for an existing loan with a positive amount. *)
Lemma handleRecord_cases env o record arrays w :
  (∃ reason,
      fst (EL.handleRecord env o record arrays w) =
        Return (fst arrays,
                snd arrays ++ [EL.failedRecord (EL.messageId record) reason])
      ∧ loans (snd (EL.handleRecord env o record arrays w)) = loans w
      ∧ topic (snd (EL.handleRecord env o record arrays w)) = topic w)
  ∨ (∃ b z l a,
        EL.body record = Some b
        ∧ action b = Some "CHECK_ELIGIBILITY"
        ∧ loanId b = Some z
        ∧ z ≠ 0
        ∧ loans w !! z = Some l
        ∧ loanAmount l = Some a
        ∧ (0 < a)%Q).
Proof.
  destruct (EL.body record) as [b|] eqn:Hb.
  2: { left. run_handleRecord. rewrite Hb. simpl. eexists. repeat split. }
  destruct (loanId b) as [z|] eqn:Hz.
  2: { left. run_handleRecord. rewrite Hb. simpl. rewrite Hz. simpl.
       eexists. repeat split. }
  destruct (Z.eqb_spec z 0) as [->|Hnz].
  { left. run_handleRecord. rewrite Hb. simpl. rewrite Hz. simpl.
    eexists. repeat split. }
  destruct (action b) as [act|] eqn:Ha.
  2: { left. run_handleRecord. rewrite Hb. simpl. rewrite Hz, Ha. simpl.
       rewrite orb_true_r. eexists. repeat split. }
  destruct (String.eqb_spec act "") as [->|Hne].
  { left. run_handleRecord. rewrite Hb. simpl. rewrite Hz, Ha. simpl.
    rewrite orb_true_r. eexists. repeat split. }
  destruct (String.eqb_spec act "CHECK_ELIGIBILITY") as [->|Hck].
  2: { left. run_handleRecord. rewrite Hb. simpl. rewrite Hz, Ha. simpl.
       rewrite (proj2 (Z.eqb_neq z 0) Hnz).
       rewrite (proj2 (String.eqb_neq act "") Hne).
       rewrite (proj2 (String.eqb_neq act "CHECK_ELIGIBILITY") Hck). simpl.
       eexists. repeat split. }
  destruct (loans w !! z) as [l|] eqn:Hl.
  2: { left. run_handleRecord. rewrite Hb. simpl. rewrite Hz, Ha. simpl.
       rewrite (proj2 (Z.eqb_neq z 0) Hnz). simpl. rewrite Hl. simpl.
       eexists. repeat split. }
  assert (Hbad : ∀ (P : Prop),
            match loanAmount l with None => True | Some a => (a <= 0)%Q end →
            (∃ reason,
                fst (EL.handleRecord env o record arrays w) =
                  Return (fst arrays,
                          snd arrays ++ [EL.failedRecord (EL.messageId record) reason])
                ∧ loans (snd (EL.handleRecord env o record arrays w)) = loans w
                ∧ topic (snd (EL.handleRecord env o record arrays w)) = topic w) ∨ P).
  { intros P Hinv. left.
    rewrite (handleRecord_invalid env o record b z l arrays w Hb Ha Hz Hnz Hl Hinv).
    eexists. repeat split. }
  destruct (loanAmount l) as [a|] eqn:Hamt; [|apply Hbad; exact I].
  destruct (Qlt_le_dec 0 a) as [Hpos|Hle]; [|apply Hbad; exact Hle].
  right. exists b, z, l, a. repeat split; assumption.
Qed.

(** A record that does not name the loan [i] leaves its row alone. *)
Lemma handleRecord_other env o record arrays w (i : Z) :
  ¬ names_loan i record →
  loans (snd (EL.handleRecord env o record arrays w)) !! i = loans w !! i.
Proof.
  intros Hnot.
  destruct (handleRecord_cases env o record arrays w)
    as [(reason & _ & HL & _) | (b & z & l & a & Hb & Ha & Hz & Hnz & Hl & Hamt & Hpos)].
  - rewrite HL. reflexivity.
  - destruct (handleRecord_decides env o record b z l a arrays w
                Hb Ha Hz Hnz Hl Hamt Hpos) as (_ & HL & _).
    rewrite HL. apply lookup_alter_ne.
    intros ->. apply Hnot. exists b. split; assumption.
Qed.

Lemma forEachRecord_others env outside (i : Z) (records : list EL.SqsRecord) :
  Forall (λ r, ¬ names_loan i r) records →
  ∀ (idx : nat) arrays (w : World),
    loans (snd (EL.forEachRecord env outside idx records arrays w)) !! i = loans w !! i.
Proof.
  induction 1 as [|record rest Hr _ IH]; intros idx arrays w; simpl; [reflexivity|].
  unfold mbind, M_bind.
  destruct (handleRecord_returns env (outside idx) record arrays w) as [arrays1 H1].
  pose proof (handleRecord_other env (outside idx) record arrays w i Hr) as Ho.
  destruct (EL.handleRecord env (outside idx) record arrays w) as [c w1].
  simpl in H1, Ho. subst c. rewrite IH. exact Ho.
Qed.

(** A settled row stays as it is, and an entry that is processed for its
    loan can only be a rejection of a loan that has a positive amount. *)
Lemma handleRecord_settled env o record arrays w (i : Z) (l : Loan) :
  loans w !! i = Some l →
  settled l →
  loans (snd (EL.handleRecord env o record arrays w)) !! i = Some l
  ∧ ∃ arrays',
      fst (EL.handleRecord env o record arrays w) = Return arrays'
      ∧ ∃ mine yours,
          fst arrays' = fst arrays ++ mine
          ∧ snd arrays' = snd arrays ++ yours
          ∧ Forall (λ p, processed_loanId p = Some i →
                         processed_status p = REJECTED
                         ∧ ∃ a, loanAmount l = Some a ∧ (0 < a)%Q) mine.
Proof.
  intros Hi Hset.
  destruct (handleRecord_cases env o record arrays w)
    as [(reason & HR & HL & _) | (b & z & l' & a & Hb & Ha & Hz & Hnz & Hl & Hamt & Hpos)].
  - split; [rewrite HL; exact Hi|].
    eexists. split; [exact HR|]. exists []. eexists. simpl.
    rewrite app_nil_r. split; [reflexivity|]. split; [reflexivity|constructor].
  - destruct (handleRecord_decides env o record b z l' a arrays w
                Hb Ha Hz Hnz Hl Hamt Hpos) as (HR & HL & _).
    destruct (decide (z = i)) as [->|Hne].
    + assert (l' = l) as -> by congruence.
      unfold settled in Hset. rewrite Hamt in Hset.
      destruct Hset as [Hle | [Hge Hst]];
        [exfalso; exact (Qlt_not_le _ _ Hpos Hle)|].
      rewrite (Qlt_bool_false _ _ Hge), andb_false_r in HR, HL.
      split.
      * rewrite HL, lookup_alter_eq, Hi. simpl. f_equal.
        destruct l. simpl in *. subst. reflexivity.
      * eexists. split; [exact HR|]. eexists. exists []. simpl.
        split; [reflexivity|]. split; [rewrite app_nil_r; reflexivity|].
        constructor; [|constructor]. intros _. split; [reflexivity|].
        exists a. split; assumption.
    + split.
      * rewrite HL, lookup_alter_ne by exact Hne. exact Hi.
      * eexists. split; [exact HR|]. eexists. exists []. simpl.
        split; [reflexivity|]. split; [rewrite app_nil_r; reflexivity|].
        constructor; [|constructor]. simpl. intros [= ->]. contradiction.
Qed.

Lemma forEachRecord_settled env outside (i : Z) (l : Loan)
    (records : list EL.SqsRecord) :
  settled l →
  ∀ (idx : nat) arrays (w : World),
    loans w !! i = Some l →
    loans (snd (EL.forEachRecord env outside idx records arrays w)) !! i = Some l
    ∧ ∃ arrays',
        fst (EL.forEachRecord env outside idx records arrays w) = Return arrays'
        ∧ ∃ mine yours,
            fst arrays' = fst arrays ++ mine
            ∧ snd arrays' = snd arrays ++ yours
            ∧ Forall (λ p, processed_loanId p = Some i →
                           processed_status p = REJECTED
                           ∧ ∃ a, loanAmount l = Some a ∧ (0 < a)%Q) mine.
Proof.
  intros Hset. induction records as [|record rest IH]; intros idx arrays w Hi; simpl.
  - split; [exact Hi|]. exists arrays. split; [reflexivity|].
    exists [], []. rewrite !app_nil_r. repeat split. constructor.
  - unfold mbind, M_bind.
    destruct (handleRecord_settled env (outside idx) record arrays w i l Hi Hset)
      as (Hi1 & arrays1 & H1 & m1 & y1 & Hm1 & Hy1 & F1).
    destruct (EL.handleRecord env (outside idx) record arrays w) as [c w1].
    simpl in Hi1, H1. subst c.
    destruct (IH (S idx) arrays1 w1 Hi1) as (Hi2 & arrays2 & H2 & m2 & y2 & Hm2 & Hy2 & F2).
    split; [exact Hi2|]. exists arrays2. split; [exact H2|].
    exists (m1 ++ m2), (y1 ++ y2). split; [|split].
    + rewrite Hm2, Hm1, app_assoc. reflexivity.
    + rewrite Hy2, Hy1, app_assoc. reflexivity.
    + apply Forall_app. split; assumption.
Qed.

(** The two arrays and the log only grow. *)
Lemma handleRecord_logs env o record arrays w :
  ∃ lines, logs (snd (EL.handleRecord env o record arrays w)) = logs w ++ lines.
Proof.
  run_handleRecord.
  repeat inner_case; rewrite <- ?app_assoc; eexists; reflexivity.
Qed.

Lemma forEachRecord_grows env outside (records : list EL.SqsRecord) :
  ∀ (idx : nat) arrays (w : World),
    ∃ arrays' mine yours lines,
      fst (EL.forEachRecord env outside idx records arrays w) = Return arrays'
      ∧ fst arrays' = fst arrays ++ mine
      ∧ snd arrays' = snd arrays ++ yours
      ∧ logs (snd (EL.forEachRecord env outside idx records arrays w)) = logs w ++ lines.
Proof.
  induction records as [|record rest IH]; intros idx arrays w; simpl.
  - exists arrays, [], [], []. rewrite !app_nil_r. repeat split.
  - unfold mbind, M_bind.
    destruct (handleRecord_appends env (outside idx) record arrays w)
      as (arrays1 & H1 & Hcase).
    destruct (handleRecord_logs env (outside idx) record arrays w) as (lines1 & HL1).
    destruct (EL.handleRecord env (outside idx) record arrays w) as [c w1].
    simpl in H1, Hcase, HL1. subst c.
    destruct (IH (S idx) arrays1 w1) as (arrays2 & m2 & y2 & lines2 & H2 & Hm & Hy & HL2).
    exists arrays2.
    destruct Hcase as [(k & s & Hp & Hf & _) | (reason & Hp & Hf & _)].
    + exists ([EL.processedRecord (EL.messageId record) k s] ++ m2), y2, (lines1 ++ lines2).
      split; [exact H2|]. split; [|split].
      * rewrite Hm, Hp, <- app_assoc. reflexivity.
      * rewrite Hy, Hf. reflexivity.
      * rewrite HL2, HL1, <- app_assoc. reflexivity.
    + exists m2, ([EL.failedRecord (EL.messageId record) reason] ++ y2), (lines1 ++ lines2).
      split; [exact H2|]. split; [|split].
      * rewrite Hm, Hp. reflexivity.
      * rewrite Hy, Hf, <- app_assoc. reflexivity.
      * rewrite HL2, HL1, <- app_assoc. reflexivity.
Qed.

(** The handler on a batch, seen from the record at position [k]: the
    records before it, the record itself, the records after it. *)
Lemma handler_split env outside event (k : nat) (record : EL.SqsRecord) (w : World) :
  EL.Records event !! k = Some record →
  let before :=
    EL.forEachRecord env outside 0 (take k (EL.Records event)) ([], [])
      (entered event w) in
  ∃ arrays1 arrays2 arrays3,
    fst before = Return arrays1
    ∧ fst (EL.handleRecord env (outside k) record arrays1 (snd before)) = Return arrays2
    ∧ let after :=
        EL.forEachRecord env outside (S k) (drop (S k) (EL.Records event)) arrays2
          (snd (EL.handleRecord env (outside k) record arrays1 (snd before))) in
      fst after = Return arrays3
      ∧ EL.handler env outside event w =
          (Return (EL.mkResponse 200
                     (EL.Completed "Eligibility check completed"
                        (length (fst arrays3)) (length (snd arrays3))
                        (fst arrays3) (snd arrays3))),
           with_logs (λ ls, ls ++ [(Info, ConnectionClosed)]) (snd after)).
Proof.
  intros Hk. cbv zeta.
  destruct (handler_loop env outside event w) as (arrays & Hloop & Hhandler).
  rewrite Hhandler. clear Hhandler.
  assert (Hlen : length (take k (EL.Records event)) = k).
  { rewrite length_take. apply lookup_lt_Some in Hk. lia. }
  assert (Hrun : EL.forEachRecord env outside 0 (EL.Records event) ([], [])
                   (entered event w) =
                 EL.forEachRecord env outside 0
                   (take k (EL.Records event) ++ record :: drop (S k) (EL.Records event))
                   ([], []) (entered event w)).
  { rewrite (take_drop_middle _ _ _ Hk). reflexivity. }
  rewrite Hrun in Hloop. rewrite Hrun. clear Hrun.
  rewrite forEachRecord_app in Hloop. rewrite forEachRecord_app.
  destruct (forEachRecord_returns env outside (take k (EL.Records event)) 0 ([], [])
              (entered event w)) as [arrays1 H1].
  destruct (EL.forEachRecord env outside 0 (take k (EL.Records event)) ([], [])
              (entered event w)) as [c w1].
  simpl in H1. subst c. rewrite Hlen in Hloop. rewrite Hlen.
  simpl in Hloop. simpl. unfold mbind, M_bind in Hloop. unfold mbind, M_bind.
  exists arrays1.
  destruct (handleRecord_returns env (outside k) record arrays1 w1) as [arrays2 H2].
  destruct (EL.handleRecord env (outside k) record arrays1 w1) as [c w2].
  simpl in H2. subst c. simpl.
  exists arrays2, arrays.
  split; [reflexivity|]. split; [reflexivity|]. split; [exact Hloop | reflexivity].
Qed.


(** The record at position [k] of any batch, when it is a
    CHECK_ELIGIBILITY for a loan that has a row with a positive amount. *)
Lemma handler_at_position env outside event (k : nat) (record : EL.SqsRecord)
    (b : Envelope) (i : Z) (l : Loan) (a : Q) (w : World) :
  EL.Records event !! k = Some record →
  EL.body record = Some b →
  action b = Some "CHECK_ELIGIBILITY" →
  loanId b = Some i →
  i ≠ 0 →
  loans w !! i = Some l →
  loanAmount l = Some a →
  (0 < a)%Q →
  let ok := Qlt_bool (EL.random (outside k)) EL.approvalRate && Qlt_bool a EL.ceiling in
  let s := if ok then APPROVED else REJECTED in
  let out := EL.handler env outside event w in
  (∃ processed failed,
      fst out =
        Return (EL.mkResponse 200
                  (EL.Completed "Eligibility check completed"
                     (length processed) (length failed) processed failed))
      ∧ EL.processedRecord (EL.messageId record) (Some i) s ∈ processed)
  ∧ (Forall (λ r, ¬ names_loan i r) (drop (S k) (EL.Records event)) →
     loans (snd out) !! i = Some (set_status s l))
  ∧ (ok = false ∧ (EL.ceiling <= a)%Q →
     loans (snd out) !! i = Some (set_status REJECTED l))
  ∧ (ok && truthy_string env = true →
     match EL.publishFault (outside k) with
     | Some e => (Err, FailedToPublish (Some i) e) ∈ logs (snd out)
     | None =>
         (Info, PublishedApproval (Some i)) ∈ logs (snd out)
         ∧ ∃ earlier later,
             topic (snd out) =
               topic w ++ earlier ++
               [mkNotification (Some i) (userId b) APPROVED
                  "Approved based on eligibility rules" (now w)] ++ later
             ∧ (length earlier ≤ k)%nat
             ∧ (length later ≤ length (EL.Records event) - S k)%nat
     end).
Proof.
  intros Hk Hb Ha Hi Hnz Hl Hamt Hpos ok s out. subst out.
  destruct (handler_split env outside event k record w Hk)
    as (arrays1 & arrays2 & arrays3 & H1 & H2 & H3 & Hh).
  cbv zeta in *. rewrite Hh. clear Hh. simpl.
  pose proof (forEachRecord_same_tables env outside (take k (EL.Records event))
                0 ([], []) (entered event w)) as ((_ & _ & _ & Hnow & Hosw) & _ & _).
  destruct (forEachRecord_publishes env outside (take k (EL.Records event))
              0 ([], []) (entered event w)) as (earlier & Hearlier & Hlen1 & _).
  set (w1 := snd (EL.forEachRecord env outside 0 (take k (EL.Records event))
                    ([], []) (entered event w))) in *.
  specialize (Hosw i). simpl in Hosw, Hearlier, Hnow. rewrite Hl in Hosw.
  inversion Hosw as [l0 l1 [Hl1 _] Hx Hy|]; subst l0. symmetry in Hy.
  assert (Hamt1 : loanAmount l1 = Some a).
  { rewrite Hl1. simpl. exact Hamt. }
  destruct (handleRecord_decides env (outside k) record b i l1 a arrays1 w1
              Hb Ha Hi Hnz Hy Hamt1 Hpos) as (HR & HL & HT & HLog).
  fold ok in HR, HL, HT, HLog. fold s in HR, HL, HLog.
  set (w2 := snd (EL.handleRecord env (outside k) record arrays1 w1)) in *.
  rewrite HR in H2. injection H2 as <-.
  assert (Hrow : loans w2 !! i = Some (set_status s l)).
  { rewrite HL, lookup_alter_eq, Hy. simpl. f_equal. rewrite Hl1. reflexivity. }
  destruct (forEachRecord_grows env outside (drop (S k) (EL.Records event)) (S k)
              (fst arrays1 ++ [EL.processedRecord (EL.messageId record) (Some i) s],
               snd arrays1) w2)
    as (arrays3' & mine & yours & lines & H3' & Hmine & _ & Hlines).
  rewrite H3 in H3'. injection H3' as <-.
  destruct (forEachRecord_publishes env outside (drop (S k) (EL.Records event)) (S k)
              (fst arrays1 ++ [EL.processedRecord (EL.messageId record) (Some i) s],
               snd arrays1) w2)
    as (later & Hlater & Hlen2 & _).
  split; [|split; [|split]].
  - exists (fst arrays3), (snd arrays3). split; [reflexivity|].
    rewrite Hmine. simpl. set_solver.
  - intros Hnone.
    rewrite (forEachRecord_others env outside i _ Hnone). exact Hrow.
  - intros [Hok Hge]. subst s. rewrite Hok in Hrow.
    apply (forEachRecord_settled env outside i (set_status REJECTED l)
             (drop (S k) (EL.Records event))); [|exact Hrow].
    unfold settled. simpl. rewrite Hamt. right. split; [exact Hge | reflexivity].
  - intros Hpub. rewrite Hpub in HLog.
    apply andb_true_iff in Hpub as [Hok Henv]. rewrite Hok, Henv in HT. simpl in HT.
    rewrite Hlines, HLog.
    destruct (EL.publishFault (outside k)) as [e|]; simpl in HT.
    + set_solver.
    + split; [set_solver|].
      exists earlier, later. rewrite Hlater, HT, Hearlier, Hnow.
      rewrite length_take in Hlen1. rewrite length_drop in Hlen2.
      split; [|split; lia].
      rewrite <- !app_assoc. reflexivity.
Qed.

(** The record at position [k] of any batch, when it is a
    CHECK_ELIGIBILITY for a loan whose row has no amount, or an amount that
    is not positive. *)
Lemma handler_at_invalid env outside event (k : nat) (record : EL.SqsRecord)
    (b : Envelope) (i : Z) (l : Loan) (w : World) :
  EL.Records event !! k = Some record →
  EL.body record = Some b →
  action b = Some "CHECK_ELIGIBILITY" →
  loanId b = Some i →
  i ≠ 0 →
  loans w !! i = Some l →
  match loanAmount l with None => True | Some a => (a <= 0)%Q end →
  let out := EL.handler env outside event w in
  (∃ processed failed,
      fst out =
        Return (EL.mkResponse 200
                  (EL.Completed "Eligibility check completed"
                     (length processed) (length failed) processed failed))
      ∧ EL.failedRecord (EL.messageId record) "Invalid loan amount" ∈ failed
      ∧ Forall (λ p, processed_loanId p ≠ Some i) processed)
  ∧ loans (snd out) !! i = Some l
  ∧ (Err, ErrorProcessingRecord (mkError "Invalid loan amount")) ∈ logs (snd out).
Proof.
  intros Hk Hb Ha Hi Hnz Hl Hbad out. subst out.
  assert (Hset : settled l).
  { unfold settled. destruct (loanAmount l) as [a|]; [left; exact Hbad | exact I]. }
  assert (Hno : ¬ ∃ a, loanAmount l = Some a ∧ (0 < a)%Q).
  { intros (a & Ha' & Hpos). rewrite Ha' in Hbad.
    exact (Qlt_not_le _ _ Hpos Hbad). }
  destruct (handler_split env outside event k record w Hk)
    as (arrays1 & arrays2 & arrays3 & H1 & H2 & H3 & Hh).
  cbv zeta in *.
  destruct (handler_loop env outside event w) as (arrays & Hall & Hh').
  destruct (forEachRecord_settled env outside i l (EL.Records event) Hset
              0%nat ([], []) (entered event w) Hl)
    as (Hrow & arrays' & Hall' & mine & yours & Hmine & _ & Hfor).
  rewrite Hall in Hall'. injection Hall' as <-. simpl in Hmine.
  destruct (forEachRecord_settled env outside i l (take k (EL.Records event)) Hset
              0%nat ([], []) (entered event w) Hl) as (Hrow1 & _).
  set (w1 := snd (EL.forEachRecord env outside 0 (take k (EL.Records event))
                    ([], []) (entered event w))) in *.
  rewrite (handleRecord_invalid env (outside k) record b i l arrays1 w1
             Hb Ha Hi Hnz Hrow1 Hbad) in H2, H3, Hh.
  simpl in H2, H3, Hh. injection H2 as <-.
  destruct (forEachRecord_grows env outside (drop (S k) (EL.Records event)) (S k)
              (fst arrays1,
               snd arrays1 ++ [EL.failedRecord (EL.messageId record) "Invalid loan amount"])
              (with_logs (λ ls, ls ++ [(Info, ProcessingRecord (Some i) (action b));
                                       (Err, ErrorProcessingRecord
                                               (mkError "Invalid loan amount"))]) w1))
    as (arrays3' & mine3 & yours3 & lines & H3' & _ & Hyours & Hlines).
  rewrite H3 in H3'. injection H3' as <-.
  split; [|split].
  - rewrite Hh. simpl. exists (fst arrays3), (snd arrays3).
    split; [reflexivity|]. split.
    + rewrite Hyours. simpl. set_solver.
    + assert (Hp : fst arrays3 = fst arrays) by congruence.
      rewrite Hp, Hmine.
      eapply Forall_impl; [exact Hfor|]. simpl.
      intros p Himp Hpi. destruct (Himp Hpi) as [_ Hex]. exact (Hno Hex).
  - rewrite Hh'. simpl. exact Hrow.
  - rewrite Hh. simpl. rewrite Hlines. simpl. set_solver.
Qed.

(** ** Re-delivery, and the record at any position of a batch *)

(** C2, amended: every delivery of a VERIFY_DOCUMENTS message runs the
    whole step.  Each delivery writes the status its own draw gives, over
    whatever the previous delivery wrote, and each delivery whose draw
    passes and whose send goes through appends one CHECK_ELIGIBILITY
    envelope, with the loanId and userId of the message, to the eligibility
    queue: two deliveries make two writes and up to two enqueues. *)
Theorem C2_each_delivery_writes_and_enqueues
    (r1 r2 : Q) (f1 f2 : option Error)
    (m : Message) (body : Envelope) (i : Z) (l : Loan) (w : World) :
  Body m = Some body →
  action body = Some "VERIFY_DOCUMENTS" →
  loanId body = Some i →
  loans w !! i = Some l →
  let w1 := snd (DV.processMessage r1 f1 m w) in
  let w2 := snd (DV.processMessage r2 f2 m w1) in
  let sent (r : Q) (f : option Error) (timestamp : string) : list Envelope :=
    if Qlt_bool r DV.passRate && bool_decide (f = None)
    then [mkEnvelope (Some i) (userId body) (Some "CHECK_ELIGIBILITY") (Some timestamp)]
    else [] in
  loans w1 !! i =
    Some (set_status (if Qlt_bool r1 DV.passRate then VERIFIED else VERIFICATION_FAILED) l)
  ∧ loans w2 !! i =
    Some (set_status (if Qlt_bool r2 DV.passRate then VERIFIED else VERIFICATION_FAILED) l)
  ∧ eligibilityQueue w1 = eligibilityQueue w ++ sent r1 f1 (now w)
  ∧ eligibilityQueue w2 =
      eligibilityQueue w ++ sent r1 f1 (now w) ++ sent r2 f2 (now w1)
  ∧ length (eligibilityQueue w2) =
      (length (eligibilityQueue w)
       + length (sent r1 f1 (now w)) + length (sent r2 f2 (now w1)))%nat.
Proof.
  intros Hb Ha Hi Hl w1 w2 sent.
  assert (H1 : eligibilityQueue w1 = eligibilityQueue w ++ sent r1 f1 (now w)).
  { subst w1 sent. cbv beta.
    rewrite (processMessage_eligibilityQueue r1 f1 m body i w Hb Ha Hi).
    destruct (Qlt_bool r1 DV.passRate && bool_decide (f1 = None));
      [reflexivity | rewrite app_nil_r; reflexivity]. }
  assert (H2 : eligibilityQueue w2 =
               eligibilityQueue w ++ sent r1 f1 (now w) ++ sent r2 f2 (now w1)).
  { rewrite app_assoc, <- H1. subst w2 sent. cbv beta.
    rewrite (processMessage_eligibilityQueue r2 f2 m body i w1 Hb Ha Hi).
    destruct (Qlt_bool r2 DV.passRate && bool_decide (f2 = None));
      [reflexivity | rewrite app_nil_r; reflexivity]. }
  split; [|split; [|split; [|split]]].
  - subst w1. rewrite (processMessage_loans r1 f1 m body i w Hb Ha Hi).
    rewrite lookup_alter_eq, Hl. reflexivity.
  - subst w2 w1. rewrite (processMessage_loans r2 f2 m body i _ Hb Ha Hi).
    rewrite (processMessage_loans r1 f1 m body i w Hb Ha Hi).
    rewrite !lookup_alter_eq, Hl. reflexivity.
  - exact H1.
  - exact H2.
  - rewrite H2, !length_app. lia.
Qed.

Lemma C2_witness :
  let w := worldWith (loanOf (Some (250000 # 1)) PENDING_VERIFICATION) [] in
  let w1 := snd (DV.processMessage 0 None (verifyMessage 1) w) in
  let w2 := snd (DV.processMessage 0 None (verifyMessage 1) w1) in
  loans w1 !! 1 = Some (loanOf (Some (250000 # 1)) VERIFIED)
  ∧ loans w2 !! 1 = Some (loanOf (Some (250000 # 1)) VERIFIED)
  ∧ eligibilityQueue w2 =
      [mkEnvelope (Some 1) (Some 7) (Some "CHECK_ELIGIBILITY")
         (Some "2024-01-01T00:00:01.000Z");
       mkEnvelope (Some 1) (Some 7) (Some "CHECK_ELIGIBILITY")
         (Some "2024-01-01T00:00:01.000Z")].
Proof.
  intros w w1 w2.
  destruct (C2_each_delivery_writes_and_enqueues 0 0 None None (verifyMessage 1)
              (verifyEnvelope 1) 1 (loanOf (Some (250000 # 1)) PENDING_VERIFICATION) w
              eq_refl eq_refl eq_refl eq_refl) as (H1 & H2 & _ & H4 & _).
  split; [exact H1 | split; [exact H2 | exact H4]].
Defined.

(** C1, amended: every status write is unconditional.  For a
    VERIFY_DOCUMENTS message that names an existing loan the verification
    worker sets the status to VERIFIED or VERIFICATION_FAILED, as the draw
    decides, whatever the status was.  For a CHECK_ELIGIBILITY record that
    names an existing loan with a positive amount the eligibility worker
    sets it to APPROVED or REJECTED, as the policy decides, whatever the
    status was: this holds of the step on the record from any state of the
    two arrays, and of the handler on any batch for the record at any
    position after which no record names the loan. *)
Theorem C1_status_writes_are_unconditional (i : Z) (l : Loan) (w : World) :
  loans w !! i = Some l →
  (∀ random fault (m : Message) (body : Envelope),
     Body m = Some body →
     action body = Some "VERIFY_DOCUMENTS" →
     loanId body = Some i →
     loans (snd (DV.processMessage random fault m w)) !! i =
       Some (set_status (if Qlt_bool random DV.passRate
                         then VERIFIED else VERIFICATION_FAILED) l))
  ∧ (∀ env (o : EL.Outside) (record : EL.SqsRecord) (body : Envelope) (a : Q) arrays,
       EL.body record = Some body →
       action body = Some "CHECK_ELIGIBILITY" →
       loanId body = Some i →
       i ≠ 0 →
       loanAmount l = Some a →
       (0 < a)%Q →
       loans (snd (EL.handleRecord env o record arrays w)) !! i =
         Some (set_status
                 (if Qlt_bool (EL.random o) EL.approvalRate && Qlt_bool a EL.ceiling
                  then APPROVED else REJECTED) l))
  ∧ (∀ env outside (event : EL.Event) (k : nat)
       (record : EL.SqsRecord) (body : Envelope) (a : Q),
       EL.Records event !! k = Some record →
       EL.body record = Some body →
       action body = Some "CHECK_ELIGIBILITY" →
       loanId body = Some i →
       i ≠ 0 →
       loanAmount l = Some a →
       (0 < a)%Q →
       Forall (λ r, ¬ names_loan i r) (drop (S k) (EL.Records event)) →
       loans (snd (EL.handler env outside event w)) !! i =
         Some (set_status
                 (if Qlt_bool (EL.random (outside k)) EL.approvalRate
                     && Qlt_bool a EL.ceiling
                  then APPROVED else REJECTED) l)).
Proof.
  intros Hl. split; [|split].
  - intros random fault m body Hb Ha Hi.
    rewrite (processMessage_loans random fault m body i w Hb Ha Hi).
    rewrite lookup_alter_eq, Hl. reflexivity.
  - intros env o record body a arrays Hb Ha Hi Hnz Hamt Hpos.
    pose proof (handleRecord_decides env o record body i l a arrays w
                  Hb Ha Hi Hnz Hl Hamt Hpos) as H.
    cbv zeta in H. destruct H as (_ & H2 & _).
    rewrite H2, lookup_alter_eq, Hl. reflexivity.
  - intros env outside event k record body a Hk Hb Ha Hi Hnz Hamt Hpos Hlater.
    pose proof (handler_at_position env outside event k record body i l a w
                  Hk Hb Ha Hi Hnz Hl Hamt Hpos) as H.
    cbv zeta in H. destruct H as (_ & H2 & _).
    exact (H2 Hlater).
Qed.

Lemma C1_witness :
  let w := worldWith (loanOf (Some (250000 # 1)) APPROVED) [] in
  loans (snd (DV.processMessage (95 # 100) None (verifyMessage 1) w)) !! 1 =
    Some (loanOf (Some (250000 # 1)) VERIFICATION_FAILED)
  ∧ loans (snd (EL.handler None (drawing (9 # 10) None)
                  (EL.mkEvent [checkRecord 2; checkRecord 1]) w)) !! 1 =
    Some (loanOf (Some (250000 # 1)) REJECTED).
Proof.
  intros w.
  destruct (C1_status_writes_are_unconditional 1
              (loanOf (Some (250000 # 1)) APPROVED) w eq_refl) as (H1 & _ & H3).
  split.
  - exact (H1 (95 # 100)%Q None (verifyMessage 1) (verifyEnvelope 1)
             eq_refl eq_refl eq_refl).
  - apply (H3 None (drawing (9 # 10) None) (EL.mkEvent [checkRecord 2; checkRecord 1])
             1%nat (checkRecord 1) (checkEnvelope 1) (250000 # 1));
      first [reflexivity | lia | constructor].
Defined.

(** C3: an approved loan whose notification publish rejects, for the
    record at any position of any batch.  The handler answers 200 and lists
    the record as processed with status APPROVED, and the failure is
    logged; the row holds APPROVED at the end when no later record of the
    batch names the loan.  The step on the record, from any state of the
    two arrays and of the world, appends the record to the processed ones,
    writes APPROVED, leaves the topic as it was and logs the failure last.
    For any batch whatsoever the handler answers 200. *)
Theorem C3_publish_failure_is_not_fatal
    (env : option string) (outside : nat → EL.Outside)
    (event : EL.Event) (k : nat)
    (record : EL.SqsRecord) (body : Envelope)
    (i : Z) (l : Loan) (a : Q) (e : Error) (w : World) :
  EL.Records event !! k = Some record →
  EL.body record = Some body →
  action body = Some "CHECK_ELIGIBILITY" →
  loanId body = Some i →
  i ≠ 0 →
  loans w !! i = Some l →
  loanAmount l = Some a →
  (0 < a)%Q →
  (a < EL.ceiling)%Q →
  (EL.random (outside k) < EL.approvalRate)%Q →
  truthy_string env = true →
  EL.publishFault (outside k) = Some e →
  let out := EL.handler env outside event w in
  (∃ processed failed,
      fst out =
        Return (EL.mkResponse 200
                  (EL.Completed "Eligibility check completed"
                     (length processed) (length failed) processed failed))
      ∧ EL.processedRecord (EL.messageId record) (Some i) APPROVED ∈ processed)
  ∧ (Forall (λ r, ¬ names_loan i r) (drop (S k) (EL.Records event)) →
     loans (snd out) !! i = Some (set_status APPROVED l))
  ∧ (Err, FailedToPublish (Some i) e) ∈ logs (snd out)
  ∧ (∀ arrays (w0 : World) (l0 : Loan),
       loans w0 !! i = Some l0 →
       loanAmount l0 = Some a →
       let step := EL.handleRecord env (outside k) record arrays w0 in
       fst step =
         Return (fst arrays ++ [EL.processedRecord (EL.messageId record) (Some i) APPROVED],
                 snd arrays)
       ∧ loans (snd step) = alter (set_status APPROVED) i (loans w0)
       ∧ topic (snd step) = topic w0
       ∧ logs (snd step) =
           logs w0 ++
           [(Info, ProcessingRecord (Some i) (action body));
            (Info, StatusUpdatedBecause (Some i) APPROVED
                     "Approved based on eligibility rules");
            (Err, FailedToPublish (Some i) e)])
  ∧ (∀ event0 w0, ∃ b,
       fst (EL.handler env outside event0 w0) = Return (EL.mkResponse 200 b)).
Proof.
  intros Hk Hb Ha Hi Hnz Hl Hamt Hpos Hlt Hr Henv Hf out. subst out.
  apply Qlt_bool_iff in Hr. apply Qlt_bool_iff in Hlt.
  pose proof (handler_at_position env outside event k record body i l a w
                Hk Hb Ha Hi Hnz Hl Hamt Hpos) as H.
  cbv zeta in H. rewrite Hr, Hlt, Henv, Hf in H. simpl in H.
  destruct H as (H1 & H2 & _ & H4).
  split; [exact H1|]. split; [exact H2|]. split; [exact (H4 eq_refl)|]. split.
  - intros arrays w0 l0 Hl0 Hamt0 step. subst step.
    pose proof (handleRecord_decides env (outside k) record body i l0 a arrays w0
                  Hb Ha Hi Hnz Hl0 Hamt0 Hpos) as H.
    cbv zeta in H. rewrite Hr, Hlt, Henv, Hf in H. simpl in H. exact H.
  - intros event0 w0. apply handler_returns_200.
Qed.

Lemma C3_witness :
  let w := worldWith (loanOf (Some (250000 # 1)) VERIFIED) [] in
  let out := EL.handler (Some "arn:aws:sns:us-east-1:000000000000:loan-approved-topic")
               (drawing 0 (Some boom))
               (EL.mkEvent [checkRecord 2; checkRecord 1]) w in
  (∃ processed failed,
      fst out =
        Return (EL.mkResponse 200
                  (EL.Completed "Eligibility check completed"
                     (length processed) (length failed) processed failed))
      ∧ EL.processedRecord "msg-1" (Some 1) APPROVED ∈ processed)
  ∧ loans (snd out) !! 1 = Some (loanOf (Some (250000 # 1)) APPROVED)
  ∧ (Err, FailedToPublish (Some 1) boom) ∈ logs (snd out).
Proof.
  intros w out.
  destruct (C3_publish_failure_is_not_fatal
              (Some "arn:aws:sns:us-east-1:000000000000:loan-approved-topic")
              (drawing 0 (Some boom))
              (EL.mkEvent [checkRecord 2; checkRecord 1]) 1%nat
              (checkRecord 1) (checkEnvelope 1)
              1 (loanOf (Some (250000 # 1)) VERIFIED) (250000 # 1) boom w)
    as (H1 & H2 & H3 & _); try reflexivity.
  - lia.
  - split; [exact H1 | split; [apply H2; constructor | exact H3]].
Defined.

(** C4: at or above 1,000,000 the policy answers [eligible: false] with the
    reason about the threshold for every draw, and the handler sets the
    status to REJECTED: the step on such a record, from any state of the
    two arrays and of the world, lists it as processed with REJECTED,
    writes REJECTED and publishes nothing, and for the record at any
    position of any batch the response lists it as processed with REJECTED
    and the row holds REJECTED at the end.  Strictly below the ceiling the
    answer is [eligible: true] exactly for the draws under the approval
    rate, so a draw of 0 approves and a draw of 0.9 rejects. *)
Theorem C4_ceiling_rejects (a random : Q) :
  (EL.ceiling <= a)%Q →
  (∀ w, EL.calculateEligibility random (Some a) w =
          (Return (EL.mkEligibilityResult false
                     "Loan amount exceeds maximum threshold"), w))
  ∧ (∀ env (o : EL.Outside) (record : EL.SqsRecord) (body : Envelope)
       (i : Z) (l : Loan) arrays (w : World),
       EL.body record = Some body →
       action body = Some "CHECK_ELIGIBILITY" →
       loanId body = Some i →
       i ≠ 0 →
       loans w !! i = Some l →
       loanAmount l = Some a →
       let step := EL.handleRecord env o record arrays w in
       fst step =
         Return (fst arrays ++ [EL.processedRecord (EL.messageId record) (Some i) REJECTED],
                 snd arrays)
       ∧ loans (snd step) = alter (set_status REJECTED) i (loans w)
       ∧ topic (snd step) = topic w
       ∧ logs (snd step) =
           logs w ++
           [(Info, ProcessingRecord (Some i) (action body));
            (Info, StatusUpdatedBecause (Some i) REJECTED
                     "Loan amount exceeds maximum threshold")])
  ∧ (∀ env outside (event : EL.Event) (k : nat)
       (record : EL.SqsRecord) (body : Envelope) (i : Z) (l : Loan) (w : World),
       EL.Records event !! k = Some record →
       EL.body record = Some body →
       action body = Some "CHECK_ELIGIBILITY" →
       loanId body = Some i →
       i ≠ 0 →
       loans w !! i = Some l →
       loanAmount l = Some a →
       let out := EL.handler env outside event w in
       (∃ processed failed,
           fst out =
             Return (EL.mkResponse 200
                       (EL.Completed "Eligibility check completed"
                          (length processed) (length failed) processed failed))
           ∧ EL.processedRecord (EL.messageId record) (Some i) REJECTED ∈ processed)
       ∧ loans (snd out) !! i = Some (set_status REJECTED l))
  ∧ (∀ (b r : Q) w,
       (0 < b)%Q → (b < EL.ceiling)%Q →
       ∃ reason,
         EL.calculateEligibility r (Some b) w =
           (Return (EL.mkEligibilityResult (Qlt_bool r EL.approvalRate) reason), w)
         ∧ (Qlt_bool r EL.approvalRate = true ↔ (r < EL.approvalRate)%Q)
         ∧ Qlt_bool 0 EL.approvalRate = true
         ∧ Qlt_bool (9 # 10) EL.approvalRate = false).
Proof.
  intros Hge.
  assert (Hpos : (0 < a)%Q).
  { eapply Qlt_le_trans; [|exact Hge]. reflexivity. }
  assert (Hlt : Qlt_bool a EL.ceiling = false) by (apply Qlt_bool_false; exact Hge).
  assert (Hle : Qle_bool EL.ceiling a = true) by (apply Qle_bool_iff; exact Hge).
  split; [|split; [|split]].
  - intros w. rewrite calculateEligibility_valid by exact Hpos.
    rewrite Hlt, Hle, andb_false_r. reflexivity.
  - intros env o record body i l arrays w Hb Ha Hi Hnz Hl Hamt step. subst step.
    pose proof (handleRecord_decides env o record body i l a arrays w
                  Hb Ha Hi Hnz Hl Hamt Hpos) as H.
    cbv zeta in H. rewrite Hlt, Hle, andb_false_r in H. simpl in H.
    exact H.
  - intros env outside event k record body i l w Hk Hb Ha Hi Hnz Hl Hamt out.
    subst out.
    pose proof (handler_at_position env outside event k record body i l a w
                  Hk Hb Ha Hi Hnz Hl Hamt Hpos) as H.
    cbv zeta in H. rewrite Hlt, andb_false_r in H. simpl in H.
    destruct H as (H1 & _ & H3 & _).
    split; [exact H1|]. apply H3. split; [reflexivity | exact Hge].
  - intros b r w Hb0 Hb1.
    rewrite calculateEligibility_valid by exact Hb0.
    apply Qlt_bool_iff in Hb1. rewrite Hb1, andb_true_r.
    eexists. split; [reflexivity|].
    split; [apply Qlt_bool_iff|]. split; reflexivity.
Qed.

Lemma C4_witness :
  let w := worldWith (loanOf (Some (1000000 # 1)) VERIFIED) [] in
  (EL.ceiling <= 1000000 # 1)%Q
  ∧ EL.calculateEligibility (1 # 2) (Some (1000000 # 1)) w =
      (Return (EL.mkEligibilityResult false
                 "Loan amount exceeds maximum threshold"), w)
  ∧ loans (snd (EL.handler None (drawing 0 None)
                  (EL.mkEvent [checkRecord 1; checkRecord 2; checkRecord 1]) w)) !! 1 =
      Some (loanOf (Some (1000000 # 1)) REJECTED).
Proof.
  intros w.
  assert (H : (EL.ceiling <= 1000000 # 1)%Q) by (vm_compute; discriminate).
  split; [exact H|].
  destruct (C4_ceiling_rejects (1000000 # 1) (1 # 2) H) as (H1 & _ & H3 & _).
  split; [exact (H1 w)|].
  apply (H3 None (drawing 0 None)
           (EL.mkEvent [checkRecord 1; checkRecord 2; checkRecord 1]) 0%nat
           (checkRecord 1) (checkEnvelope 1) 1 (loanOf (Some (1000000 # 1)) VERIFIED) w);
    first [reflexivity | lia].
Defined.

(** C8: a CHECK_ELIGIBILITY record whose loan has no amount, or an amount
    that is not positive, at any position of any batch.  The policy throws,
    the error is logged, the record is listed as failed with that reason
    and no processed record names the loan, the handler still answers 200,
    and the row of the loan is at the end what it was.  The step on the
    record, from any state of the two arrays and of the world, adds the
    record to the failed ones, writes two log lines and changes no row and
    nothing else. *)
Theorem C8_invalid_amount_is_a_failed_record
    (env : option string) (outside : nat → EL.Outside)
    (event : EL.Event) (k : nat)
    (record : EL.SqsRecord) (body : Envelope) (i : Z) (l : Loan) (w : World) :
  EL.Records event !! k = Some record →
  EL.body record = Some body →
  action body = Some "CHECK_ELIGIBILITY" →
  loanId body = Some i →
  i ≠ 0 →
  loans w !! i = Some l →
  (loanAmount l = None ∨ ∃ a, loanAmount l = Some a ∧ (a <= 0)%Q) →
  let out := EL.handler env outside event w in
  (∃ processed failed,
      fst out =
        Return (EL.mkResponse 200
                  (EL.Completed "Eligibility check completed"
                     (length processed) (length failed) processed failed))
      ∧ EL.failedRecord (EL.messageId record) "Invalid loan amount" ∈ failed
      ∧ Forall (λ p, processed_loanId p ≠ Some i) processed)
  ∧ loans (snd out) !! i = Some l
  ∧ (Err, ErrorProcessingRecord (mkError "Invalid loan amount")) ∈ logs (snd out)
  ∧ (∀ (o : EL.Outside) arrays (w0 : World),
       loans w0 !! i = Some l →
       let step := EL.handleRecord env o record arrays w0 in
       fst step =
         Return (fst arrays,
                 snd arrays ++ [EL.failedRecord (EL.messageId record) "Invalid loan amount"])
       ∧ snd step =
           with_logs (λ ls, ls ++ [(Info, ProcessingRecord (Some i) (action body));
                                   (Err, ErrorProcessingRecord
                                           (mkError "Invalid loan amount"))]) w0
       ∧ loans (snd step) = loans w0
       ∧ topic (snd step) = topic w0).
Proof.
  intros Hk Hb Ha Hi Hnz Hl Hamt out. subst out.
  assert (Hbad : match loanAmount l with None => True | Some a => (a <= 0)%Q end).
  { destruct Hamt as [-> | (a & -> & Hle)]; [exact I | exact Hle]. }
  pose proof (handler_at_invalid env outside event k record body i l w
                Hk Hb Ha Hi Hnz Hl Hbad) as H.
  cbv zeta in H. destruct H as (H1 & H2 & H3).
  split; [exact H1|]. split; [exact H2|]. split; [exact H3|].
  intros o arrays w0 Hl0 step. subst step.
  rewrite (handleRecord_invalid env o record body i l arrays w0
             Hb Ha Hi Hnz Hl0 Hbad).
  repeat split.
Qed.

Lemma C8_witness :
  let w := worldWith (loanOf None VERIFIED) [] in
  let out := EL.handler None (drawing 0 None)
               (EL.mkEvent [checkRecord 2; checkRecord 1; checkRecord 1]) w in
  (∃ processed failed,
      fst out =
        Return (EL.mkResponse 200
                  (EL.Completed "Eligibility check completed"
                     (length processed) (length failed) processed failed))
      ∧ EL.failedRecord "msg-1" "Invalid loan amount" ∈ failed
      ∧ Forall (λ p, processed_loanId p ≠ Some 1) processed)
  ∧ loans (snd out) !! 1 = Some (loanOf None VERIFIED).
Proof.
  intros w out.
  destruct (C8_invalid_amount_is_a_failed_record None (drawing 0 None)
              (EL.mkEvent [checkRecord 2; checkRecord 1; checkRecord 1]) 1%nat
              (checkRecord 1) (checkEnvelope 1) 1 (loanOf None VERIFIED) w)
    as (H1 & H2 & _); try reflexivity.
  - lia.
  - left. reflexivity.
  - split; [exact H1 | exact H2].
Defined.

(** C10: with LOAN_APPROVED_TOPIC_ARN unset, an approved loan, at any
    position of any batch, is still listed as processed with APPROVED, and
    its row holds APPROVED at the end when no later record of the batch
    names the loan.  The step on the record, from any state of the two
    arrays and of the world, writes APPROVED, leaves the topic as it was
    and logs nothing about a notification.  For any batch nothing is
    published and neither of the two notification log lines is written. *)
Theorem C10_no_topic_no_publish
    (outside : nat → EL.Outside) (event : EL.Event) (k : nat)
    (record : EL.SqsRecord) (body : Envelope)
    (i : Z) (l : Loan) (a : Q) (w : World) :
  EL.Records event !! k = Some record →
  EL.body record = Some body →
  action body = Some "CHECK_ELIGIBILITY" →
  loanId body = Some i →
  i ≠ 0 →
  loans w !! i = Some l →
  loanAmount l = Some a →
  (0 < a)%Q →
  (a < EL.ceiling)%Q →
  (EL.random (outside k) < EL.approvalRate)%Q →
  let out := EL.handler None outside event w in
  (∃ processed failed,
      fst out =
        Return (EL.mkResponse 200
                  (EL.Completed "Eligibility check completed"
                     (length processed) (length failed) processed failed))
      ∧ EL.processedRecord (EL.messageId record) (Some i) APPROVED ∈ processed)
  ∧ (Forall (λ r, ¬ names_loan i r) (drop (S k) (EL.Records event)) →
     loans (snd out) !! i = Some (set_status APPROVED l))
  ∧ (∀ arrays (w0 : World) (l0 : Loan),
       loans w0 !! i = Some l0 →
       loanAmount l0 = Some a →
       let step := EL.handleRecord None (outside k) record arrays w0 in
       fst step =
         Return (fst arrays ++ [EL.processedRecord (EL.messageId record) (Some i) APPROVED],
                 snd arrays)
       ∧ loans (snd step) = alter (set_status APPROVED) i (loans w0)
       ∧ topic (snd step) = topic w0
       ∧ logs (snd step) =
           logs w0 ++
           [(Info, ProcessingRecord (Some i) (action body));
            (Info, StatusUpdatedBecause (Some i) APPROVED
                     "Approved based on eligibility rules")])
  ∧ (∀ event0 w0,
       let w' := snd (EL.handler None outside event0 w0) in
       topic w' = topic w0
       ∧ ∃ added, logs w' = logs w0 ++ added
                  ∧ Forall (λ entry, notification_line entry = false) added).
Proof.
  intros Hk Hb Ha Hi Hnz Hl Hamt Hpos Hlt Hr out. subst out.
  apply Qlt_bool_iff in Hr. apply Qlt_bool_iff in Hlt.
  pose proof (handler_at_position None outside event k record body i l a w
                Hk Hb Ha Hi Hnz Hl Hamt Hpos) as H.
  cbv zeta in H. rewrite Hr, Hlt in H. simpl in H.
  destruct H as (H1 & H2 & _).
  split; [exact H1|]. split; [exact H2|]. split.
  - intros arrays w0 l0 Hl0 Hamt0 step. subst step.
    pose proof (handleRecord_decides None (outside k) record body i l0 a arrays w0
                  Hb Ha Hi Hnz Hl0 Hamt0 Hpos) as H.
    cbv zeta in H. rewrite Hr, Hlt in H. simpl in H. exact H.
  - intros event0 w0. apply handler_unset.
Qed.

Lemma C10_witness :
  let w := worldWith (loanOf (Some (250000 # 1)) VERIFIED) [] in
  let out := EL.handler None (drawing 0 (Some boom))
               (EL.mkEvent [checkRecord 2; checkRecord 1]) w in
  (∃ processed failed,
      fst out =
        Return (EL.mkResponse 200
                  (EL.Completed "Eligibility check completed"
                     (length processed) (length failed) processed failed))
      ∧ EL.processedRecord "msg-1" (Some 1) APPROVED ∈ processed)
  ∧ loans (snd out) !! 1 = Some (loanOf (Some (250000 # 1)) APPROVED).
Proof.
  intros w out.
  destruct (C10_no_topic_no_publish (drawing 0 (Some boom))
              (EL.mkEvent [checkRecord 2; checkRecord 1]) 1%nat (checkRecord 1)
              (checkEnvelope 1) 1 (loanOf (Some (250000 # 1)) VERIFIED)
              (250000 # 1) w)
    as (H1 & H2 & _); try reflexivity.
  - lia.
  - split; [exact H1 | apply H2; constructor].
Defined.

(** X15: an approved loan is announced once, for the record at any
    position of any batch.  The record is a CHECK_ELIGIBILITY for a loan
    with a row, an id other than 0 and a positive amount under the ceiling,
    its draw is under the approval rate, the topic is configured and the
    publish goes through.  The step on the record, from any state of the
    two arrays and of the world, appends exactly one notification to the
    topic, with the loanId and userId of the message, status APPROVED, the
    approval reason and the current time, writes APPROVED and logs that the
    notification was published.  At the end of the handler that
    notification is on the topic, after at most one notification per
    earlier record and before at most one per later record, the log has the
    line, and the row holds APPROVED when no later record of the batch
    names the loan. *)
Theorem approved_loan_is_published
    (env : option string) (outside : nat → EL.Outside)
    (event : EL.Event) (k : nat)
    (record : EL.SqsRecord) (body : Envelope)
    (i : Z) (l : Loan) (a : Q) (w : World) :
  EL.Records event !! k = Some record →
  EL.body record = Some body →
  action body = Some "CHECK_ELIGIBILITY" →
  loanId body = Some i →
  i ≠ 0 →
  loans w !! i = Some l →
  loanAmount l = Some a →
  (0 < a)%Q →
  (a < EL.ceiling)%Q →
  (EL.random (outside k) < EL.approvalRate)%Q →
  truthy_string env = true →
  EL.publishFault (outside k) = None →
  let notification (timestamp : string) :=
    mkNotification (Some i) (userId body) APPROVED
      "Approved based on eligibility rules" timestamp in
  let out := EL.handler env outside event w in
  (∃ earlier later,
      topic (snd out) = topic w ++ earlier ++ [notification (now w)] ++ later
      ∧ (length earlier ≤ k)%nat
      ∧ (length later ≤ length (EL.Records event) - S k)%nat)
  ∧ (Forall (λ r, ¬ names_loan i r) (drop (S k) (EL.Records event)) →
     loans (snd out) !! i = Some (set_status APPROVED l))
  ∧ (Info, PublishedApproval (Some i)) ∈ logs (snd out)
  ∧ (∀ arrays (w0 : World) (l0 : Loan),
       loans w0 !! i = Some l0 →
       loanAmount l0 = Some a →
       let step := EL.handleRecord env (outside k) record arrays w0 in
       fst step =
         Return (fst arrays ++ [EL.processedRecord (EL.messageId record) (Some i) APPROVED],
                 snd arrays)
       ∧ loans (snd step) = alter (set_status APPROVED) i (loans w0)
       ∧ topic (snd step) = topic w0 ++ [notification (now w0)]
       ∧ logs (snd step) =
           logs w0 ++
           [(Info, ProcessingRecord (Some i) (action body));
            (Info, StatusUpdatedBecause (Some i) APPROVED
                     "Approved based on eligibility rules");
            (Info, PublishedApproval (Some i))]).
Proof.
  intros Hk Hb Ha Hi Hnz Hl Hamt Hpos Hlt Hr Henv Hf notification out.
  subst out notification. cbv beta.
  apply Qlt_bool_iff in Hr. apply Qlt_bool_iff in Hlt.
  pose proof (handler_at_position env outside event k record body i l a w
                Hk Hb Ha Hi Hnz Hl Hamt Hpos) as H.
  cbv zeta in H. rewrite Hr, Hlt, Henv, Hf in H. simpl in H.
  destruct H as (_ & H2 & _ & H4). destruct (H4 eq_refl) as [Hlog Htopic].
  split; [exact Htopic|]. split; [exact H2|]. split; [exact Hlog|].
  intros arrays w0 l0 Hl0 Hamt0 step. subst step.
  pose proof (handleRecord_decides env (outside k) record body i l0 a arrays w0
                Hb Ha Hi Hnz Hl0 Hamt0 Hpos) as H.
  cbv zeta in H. rewrite Hr, Hlt, Henv, Hf in H. simpl in H. exact H.
Qed.

Lemma approved_loan_is_published_witness :
  let w := worldWith (loanOf (Some (250000 # 1)) VERIFIED) [] in
  let out := EL.handler (Some "arn:aws:sns:us-east-1:000000000000:loan-approved-topic")
               (drawing 0 None) (EL.mkEvent [checkRecord 2; checkRecord 1]) w in
  (∃ earlier later,
      topic (snd out) =
        topic w ++ earlier ++
        [mkNotification (Some 1) (Some 7) APPROVED
           "Approved based on eligibility rules" (now w)] ++ later
      ∧ (length earlier ≤ 1)%nat
      ∧ (length later ≤ 0)%nat)
  ∧ loans (snd out) !! 1 = Some (loanOf (Some (250000 # 1)) APPROVED)
  ∧ (Info, PublishedApproval (Some 1)) ∈ logs (snd out).
Proof.
  intros w out.
  destruct (approved_loan_is_published
              (Some "arn:aws:sns:us-east-1:000000000000:loan-approved-topic")
              (drawing 0 None) (EL.mkEvent [checkRecord 2; checkRecord 1]) 1%nat
              (checkRecord 1) (checkEnvelope 1)
              1 (loanOf (Some (250000 # 1)) VERIFIED) (250000 # 1) w)
    as (H1 & H2 & H3 & _); try reflexivity.
  - lia.
  - split; [exact H1 | split; [apply H2; constructor | exact H3]].
Defined.
